(** * WheelsUp ETL: document extraction and quality assessment

    A shallow embedding of the text-extraction engine of the ETL package
    ([utils/text_cleaning.py], [pipelines/extract/pdf_to_text.py],
    [pipelines/extract/html_to_text.py]) and the properties of it that the
    specification states.

    Conventions of the embedding.
    - A Python [str] is the list of its code points ([pystr]); [bytes] is a
      list of [Byte.byte].
    - Python [int] is [Z]; Python [float] is an exact rational [Q].  Every
      float of the engine is a quotient of two integers bounded by the length
      of the text, combined with the literals 0.3, 0.4, 0.6, 10 and 100.
    - CPython's Unicode tables ([str.isspace], [str.isalpha], the [re]
      classes, [str.lower], [unicodedata.normalize]) are not part of the
      repository: the class [Unicode] takes them as parameters.  [ascii_db]
      is their restriction to code points below 128 and is used to run the
      functions on ASCII text.
    - A call that may raise returns an [outcome]; third-party libraries
      (BeautifulSoup, pdfminer, PyMuPDF, pytesseract), the clock, the file
      system and the logger are an explicit environment.
    - The imports at the top of the three modules resolve (each module
      appends the [etl] directory to [sys.path]).  The relative import
      inside [PDFTextExtractor._calculate_quality_metrics] does not: it
      is modelled as the exception it raises. *)

From Stdlib.Strings Require Import String Ascii Byte.
From Stdlib Require DecimalString.
From Stdlib Require Import List Bool Arith ZArith NArith QArith Qminmax Lia Lqa.
Import ListNotations.

Set Implicit Arguments.
Close Scope Q_scope.
Open Scope list_scope.
Open Scope nat_scope.

(* ================================================================== *)
(** * Python values                                                    *)
(* ================================================================== *)

Definition char := N.
Definition pystr := list char.
Definition bytes := list byte.

(** An ASCII literal as a [str] and as [bytes]. *)
Definition py (s : string) : pystr := map N_of_ascii (list_ascii_of_string s).
Definition pyb (s : string) : bytes := map byte_of_ascii (list_ascii_of_string s).
Arguments py s%_string.
Arguments pyb s%_string.

Definition nl : char := 10%N.
Definition sp : char := 32%N.
Definition tab : char := 9%N.

(** [Union[str, bytes]]: the payload of a document. *)
Inductive content_t : Type :=
| CStr (s : pystr)
| CBytes (b : bytes).

Definition content_len (c : content_t) : Z :=
  match c with
  | CStr s => Z.of_nat (length s)
  | CBytes b => Z.of_nat (length b)
  end.

(** The result of a call that may raise; [Raise msg] carries [str(e)]. *)
Inductive outcome (A : Type) : Type :=
| Ok (a : A)
| Raise (msg : pystr).
Arguments Ok {A} a.
Arguments Raise {A} msg.

Definition bind {A B : Type} (m : outcome A) (k : A -> outcome B) : outcome B :=
  match m with
  | Ok a => k a
  | Raise e => Raise e
  end.

Notation "x <- m ;; k" := (bind m (fun x => k))
  (at level 61, m at next level, right associativity).

(** [try: body except Exception as e: handler(str(e))] *)
Definition try_except {A : Type} (body : outcome A) (handler : pystr -> A) : A :=
  match body with
  | Ok a => a
  | Raise e => handler e
  end.

(** CPython's Unicode support, as far as the engine uses it. *)
Class Unicode : Type := {
  isspace : char -> bool;     (* str.isspace, str.strip, re [\s] *)
  isalpha : char -> bool;     (* str.isalpha *)
  isword : char -> bool;      (* re [\w] *)
  isdecimal : char -> bool;   (* re [\d] *)
  lower : pystr -> pystr;     (* str.lower *)
  nfkc : pystr -> pystr;      (* unicodedata.normalize('NFKC', .) *)
  utf8_decode : bytes -> outcome pystr  (* bytes.decode('utf-8') *)
}.

Module Str.

Definition eqb (a b : pystr) : bool :=
  if list_eq_dec N.eq_dec a b then true else false.

Definition len (s : pystr) : Z := Z.of_nat (length s).

(** [s[i:j]] for [0 <= i <= j]. *)
Definition slice (s : pystr) (i j : nat) : pystr := firstn (j - i) (skipn i s).

Fixpoint startswith (s p : pystr) : bool :=
  match p, s with
  | [], _ => true
  | a :: p', c :: s' => N.eqb a c && startswith s' p'
  | _ :: _, [] => false
  end.

Definition endswith (s p : pystr) : bool := startswith (rev s) (rev p).

(** [needle in hay] *)
Fixpoint contains (needle hay : pystr) : bool :=
  startswith hay needle ||
  match hay with
  | [] => false
  | _ :: hay' => contains needle hay'
  end.

Fixpoint lstrip_by (p : char -> bool) (s : pystr) : pystr :=
  match s with
  | [] => []
  | c :: s' => if p c then lstrip_by p s' else s
  end.

Fixpoint rstrip_by (p : char -> bool) (s : pystr) : pystr :=
  match s with
  | [] => []
  | c :: s' =>
      match rstrip_by p s' with
      | [] => if p c then [] else [c]
      | r => c :: r
      end
  end.

(** [s.strip()] *)
Definition strip `{Unicode} (s : pystr) : pystr :=
  rstrip_by isspace (lstrip_by isspace s).

(** [s.split(d)] for a separator of one character. *)
Fixpoint split (d : char) (s : pystr) : list pystr :=
  match s with
  | [] => [[]]
  | c :: s' =>
      if N.eqb c d then [] :: split d s'
      else match split d s' with
           | l :: ls => (c :: l) :: ls
           | [] => [[c]]
           end
  end.

(** [sep.join(ls)] *)
Fixpoint join (sep : pystr) (ls : list pystr) : pystr :=
  match ls with
  | [] => []
  | [l] => l
  | l :: ls' => l ++ sep ++ join sep ls'
  end.

(** [sum(1 for c in s if p(c))] *)
Definition count (p : char -> bool) (s : pystr) : Z :=
  Z.of_nat (length (filter p s)).

Definition byte_of (n : N) : byte :=
  match Byte.of_N n with
  | Some b => b
  | None => x00
  end.

(** [s.encode('utf-8')]: lone surrogates cannot be encoded. *)
Definition encode_char (c : N) : outcome bytes :=
  if (c <? 128)%N then Ok [byte_of c]
  else if (c <? 2048)%N then
    Ok [byte_of (192 + c / 64); byte_of (128 + c mod 64)]
  else if ((55296 <=? c) && (c <=? 57343))%N then
    Raise (py "'utf-8' codec can't encode character: surrogates not allowed")
  else if (c <? 65536)%N then
    Ok [byte_of (224 + c / 4096); byte_of (128 + (c / 64) mod 64);
        byte_of (128 + c mod 64)]
  else
    Ok [byte_of (240 + c / 262144); byte_of (128 + (c / 4096) mod 64);
        byte_of (128 + (c / 64) mod 64); byte_of (128 + c mod 64)].

Fixpoint encode_utf8 (s : pystr) : outcome bytes :=
  match s with
  | [] => Ok []
  | c :: s' =>
      b <- encode_char c ;;
      bs <- encode_utf8 s' ;;
      Ok (b ++ bs)
  end.

Fixpoint bytes_startswith (s p : bytes) : bool :=
  match p, s with
  | [], _ => true
  | a :: p', c :: s' => Byte.eqb a c && bytes_startswith s' p'
  | _ :: _, [] => false
  end.

End Str.

(** Python's [max(a, b)] and [min(a, b)] on numbers: the first argument
    is kept unless the second is strictly better. *)
Definition Qltb (a b : Q) : bool := negb (Qle_bool b a).
Definition py_max (a b : Q) : Q := if Qltb a b then b else a.
Definition py_min (a b : Q) : Q := if Qltb b a then b else a.
Definition py_abs (a : Q) : Q := if Qltb a 0 then Qopp a else a.

(** True division of two integers. *)
Definition truediv (a b : Z) : Q := (inject_Z a / inject_Z b)%Q.

(* ================================================================== *)
(** * The fragment of [re] the engine uses                             *)
(* ================================================================== *)

Module re.

(** A pattern is a sequence of items over character classes.  Matching
    is by backtracking, and the quantifiers are greedy, as in CPython. *)
Inductive item : Type :=
| One (p : char -> bool)        (* a class, once *)
| Star (p : char -> bool)       (* class*  *)
| Plus (p : char -> bool)       (* class+  *)
| WordB (w : char -> bool)      (* \b, for the word class w *)
| Dollar.                       (* $ without MULTILINE *)

Definition pattern := list item.

Definition at_word (w : char -> bool) (c : option char) : bool :=
  match c with
  | Some x => w x
  | None => false
  end.

(** [class*] followed by the continuation [k]: the longest run first. *)
Fixpoint star_k (p : char -> bool)
         (k : option char -> pystr -> option pystr)
         (prev : option char) (s : pystr) : option pystr :=
  match s with
  | c :: s' =>
      if p c then
        match star_k p k (Some c) s' with
        | Some r => Some r
        | None => k prev s
        end
      else k prev s
  | [] => k prev s
  end.

(** [match_here pat prev s] matches [pat] at the start of [s], where
    [prev] is the character before [s]; it returns the text left after
    the match. *)
Fixpoint match_here (pat : pattern) : option char -> pystr -> option pystr :=
  match pat with
  | [] => fun _ s => Some s
  | One p :: pat' => fun _ s =>
      match s with
      | c :: s' => if p c then match_here pat' (Some c) s' else None
      | [] => None
      end
  | Star p :: pat' => star_k p (match_here pat')
  | Plus p :: pat' => fun _ s =>
      match s with
      | c :: s' => if p c then star_k p (match_here pat') (Some c) s' else None
      | [] => None
      end
  | WordB w :: pat' => fun prev s =>
      if xorb (at_word w prev) (at_word w (hd_error s))
      then match_here pat' prev s else None
  | Dollar :: pat' => fun prev s =>
      match s with
      | [] => match_here pat' prev s
      | [c] => if N.eqb c nl then match_here pat' prev s else None
      | _ => None
      end
  end.

(** [re.match(pat, s)] is not [None]. *)
Definition matches (pat : pattern) (s : pystr) : bool :=
  match match_here pat None s with
  | Some _ => true
  | None => false
  end.

(** A scanned text: characters outside every match, and the matches. *)
Inductive seg : Type :=
| Lit (c : char)
| Hit (m : pystr).

(** Leftmost non-overlapping matches.  No pattern of the engine matches
    the empty string; an empty match is skipped. *)
Fixpoint scan (fuel : nat) (pat : pattern) (prev : option char) (s : pystr)
  : list seg :=
  match s with
  | [] => []
  | c :: s' =>
      match fuel with
      | O => map Lit s
      | S f =>
          match match_here pat prev s with
          | Some r =>
              match length s - length r with
              | O => Lit c :: scan f pat (Some c) s'
              | S n => Hit (firstn (S n) s)
                         :: scan f pat (Some (last (firstn (S n) s) c)) r
              end
          | None => Lit c :: scan f pat (Some c) s'
          end
      end
  end.

Definition finditer (pat : pattern) (s : pystr) : list seg :=
  scan (length s) pat None s.

(** [re.sub(pat, repl, s)] for a replacement without group references. *)
Definition sub (pat : pattern) (repl : pystr) (s : pystr) : pystr :=
  flat_map (fun g => match g with Lit c => [c] | Hit _ => repl end)
           (finditer pat s).

(** [re.findall(pat, s)] *)
Definition findall (pat : pattern) (s : pystr) : list pystr :=
  flat_map (fun g => match g with Lit _ => [] | Hit m => [m] end)
           (finditer pat s).

Fixpoint split_segs (cur : pystr) (gs : list seg) : list pystr :=
  match gs with
  | [] => [cur]
  | Lit c :: gs' => split_segs (cur ++ [c]) gs'
  | Hit _ :: gs' => cur :: split_segs [] gs'
  end.

(** [re.split(pat, s)] *)
Definition split (pat : pattern) (s : pystr) : list pystr :=
  split_segs [] (finditer pat s).

End re.

(** The code points below 128 of CPython's tables. *)
Definition ascii_isspace (c : char) : bool :=
  ((9 <=? c) && (c <=? 13) || (28 <=? c) && (c <=? 32))%N.
Definition ascii_isupper (c : char) : bool := ((65 <=? c) && (c <=? 90))%N.
Definition ascii_islower (c : char) : bool := ((97 <=? c) && (c <=? 122))%N.
Definition ascii_isalpha (c : char) : bool := ascii_isupper c || ascii_islower c.
Definition ascii_isdigit (c : char) : bool := ((48 <=? c) && (c <=? 57))%N.
Definition ascii_isword (c : char) : bool :=
  ascii_isalpha c || ascii_isdigit c || N.eqb c 95.
Definition ascii_lower (s : pystr) : pystr :=
  map (fun c => if ascii_isupper c then (c + 32)%N else c) s.
Definition ascii_decode (b : bytes) : outcome pystr :=
  if forallb (fun x => (Byte.to_N x <? 128)%N) b
  then Ok (map Byte.to_N b)
  else Raise (py "'utf-8' codec can't decode byte").

Definition ascii_db : Unicode := {|
  isspace := ascii_isspace;
  isalpha := ascii_isalpha;
  isword := ascii_isword;
  isdecimal := ascii_isdigit;
  lower := ascii_lower;
  nfkc := fun s => s;
  utf8_decode := ascii_decode
|}.

(** Values of dynamic type, where the code inspects the type at run time. *)
Inductive pyval : Type :=
| VNone
| VStr (s : pystr)
| VBytes (b : bytes)
| VInt (z : Z)
| VBool (b : bool)
| VObj (repr : pystr).   (* any other object, with its [str()] *)

(** Truth value of an object: [if x] *)
Definition truthy (v : pyval) : bool :=
  match v with
  | VNone => false
  | VStr s => negb (Str.eqb s [])
  | VBytes b => match b with [] => false | _ => true end
  | VInt z => negb (Z.eqb z 0)
  | VBool b => b
  | VObj _ => true
  end.

Definition nonempty (s : pystr) : bool :=
  match s with
  | [] => false
  | _ :: _ => true
  end.

(* ================================================================== *)
(** * utils/text_cleaning.py                                           *)
(* ================================================================== *)

(** [@dataclass TextQualityMetrics] *)
Record TextQualityMetrics : Type := {
  total_chars : Z;
  total_words : Z;
  avg_word_length : Q;
  readability_score : Q;
  has_meaningful_content : bool;
  language_confidence : Q
}.

(** [TextQualityMetrics()] *)
Definition TextQualityMetrics_default : TextQualityMetrics := {|
  total_chars := 0;
  total_words := 0;
  avg_word_length := 0;
  readability_score := 0;
  has_meaningful_content := false;
  language_confidence := 0
|}.

(** What the BeautifulSoup steps of [clean_html] deliver for a page:
    [_extract_title], [_extract_main_content] and [_extract_metadata] after
    [_remove_unwanted_elements]. *)
Record Soup : Type := {
  soup_title : pystr;
  soup_main_content : pystr;
  soup_metadata : list (pystr * pyval)
}.

(** The dictionary [clean_html] returns. *)
Record CleanResult : Type := {
  cr_title : pystr;
  cr_cleaned_text : pystr;
  cr_quality_metrics : TextQualityMetrics;
  cr_metadata : list (pystr * pyval);
  cr_extraction_success : bool;
  cr_error : option pystr
}.

Module HTMLCleaner.
Section WithUnicode.
Context `{Unicode}.

Definition is_nl (c : char) : bool := N.eqb c nl.
Definition is_space_or_tab (c : char) : bool := N.eqb c sp || N.eqb c tab.
Definition is_sentence_end (c : char) : bool :=
  N.eqb c 46 || N.eqb c 33 || N.eqb c 63.
Definition is_ascii_letter (c : char) : bool :=
  ((65 <=? c) && (c <=? 90) || (97 <=? c) && (c <=? 122))%N.

(** [r'\n\s*\n\s*\n+'] *)
Definition re_blank_lines : re.pattern :=
  [re.One is_nl; re.Star isspace; re.One is_nl; re.Star isspace; re.Plus is_nl].
(** [r'[ \t]+'] *)
Definition re_spaces : re.pattern := [re.Plus is_space_or_tab].
(** [r'\b\w+\b'] *)
Definition re_word : re.pattern := [re.WordB isword; re.Plus isword; re.WordB isword].
(** [r'[.!?]+'] *)
Definition re_sentence_end : re.pattern := [re.Plus is_sentence_end].
(** [r'^[a-zA-Z]+$'], used with [re.match] *)
Definition re_english : re.pattern := [re.Plus is_ascii_letter; re.Dollar].

(** The test of the loop of [_clean_text] on a line already trimmed:
    the line is appended unless one of the three [continue]s fires. *)
Definition keep_line (line : pystr) : bool :=
  if negb (nonempty line) then false
  else if (Str.len line <? 10)%Z then false
  else if Qltb (truediv (Str.count isalpha line) (Str.len line)) (3 # 10)
          && (20 <? Str.len line)%Z then false
  else true.

(** The [for line in lines] loop of [_clean_text]. *)
Fixpoint clean_lines (lines : list pystr) : list pystr :=
  match lines with
  | [] => []
  | line :: rest =>
      let line := Str.strip line in
      if keep_line line then line :: clean_lines rest else clean_lines rest
  end.

Definition _clean_text (text : pystr) : pystr :=
  if negb (nonempty text) then []
  else
    let text := nfkc text in
    let text := re.sub re_blank_lines [nl; nl] text in
    let text := re.sub re_spaces [sp] text in
    let lines := Str.split nl text in
    let cleaned_lines := clean_lines lines in
    let text := Str.join [nl] cleaned_lines in
    Str.strip text.

Definition sum_len (words : list pystr) : Z :=
  fold_right Z.add 0%Z (map Str.len words).

Definition _calculate_quality_metrics (text : pystr) : TextQualityMetrics :=
  if negb (nonempty text) then TextQualityMetrics_default
  else
    let words := re.findall re_word text in
    let total_chars := Str.len text in
    let total_words := Z.of_nat (length words) in
    let avg_word_length :=
      match words with
      | [] => 0%Q
      | _ => truediv (sum_len words) total_words
      end in
    let sentences := re.split re_sentence_end text in
    let avg_words_per_sentence :=
      match sentences with
      | [] => 0%Q
      | _ => truediv total_words (Z.of_nat (length sentences))
      end in
    let readability_score := py_max 0 (100 - avg_words_per_sentence)%Q in
    let has_meaningful_content :=
      (50 <? total_words)%Z && Qltb 3 avg_word_length
      && Qltb 20 readability_score in
    let english_words :=
      Z.of_nat (length (filter (re.matches re_english) words)) in
    let language_confidence :=
      match words with
      | [] => 0%Q
      | _ => truediv english_words total_words
      end in
    {| total_chars := total_chars;
       total_words := total_words;
       avg_word_length := avg_word_length;
       readability_score := readability_score;
       has_meaningful_content := has_meaningful_content;
       language_confidence := language_confidence |}.

(** [clean_html]: [parse] stands for the BeautifulSoup steps, any of which
    may raise; the handler turns the exception into a failure dictionary. *)
Definition clean_html {C : Type} (parse : C -> pystr -> outcome Soup)
           (html_content : C) (url : pystr) : CleanResult :=
  try_except
    (soup <- parse html_content url ;;
     let cleaned_text := _clean_text (soup_main_content soup) in
     let quality_metrics := _calculate_quality_metrics cleaned_text in
     Ok {| cr_title := soup_title soup;
           cr_cleaned_text := cleaned_text;
           cr_quality_metrics := quality_metrics;
           cr_metadata := soup_metadata soup;
           cr_extraction_success := true;
           cr_error := None |})
    (fun e =>
       {| cr_title := [];
          cr_cleaned_text := [];
          cr_quality_metrics := TextQualityMetrics_default;
          cr_metadata := [];
          cr_extraction_success := false;
          cr_error := Some e |}).

End WithUnicode.
End HTMLCleaner.

Module TextQualityChecker.

Definition meets_minimum_quality (metrics : TextQualityMetrics)
           (min_words : Z) (min_readability min_language_confidence : Q) : bool :=
  (min_words <=? total_words metrics)%Z
  && Qle_bool min_readability (readability_score metrics)
  && Qle_bool min_language_confidence (language_confidence metrics)
  && has_meaningful_content metrics.

Definition get_quality_score (metrics : TextQualityMetrics) : Q :=
  if Z.eqb (total_words metrics) 0 then 0%Q
  else
    let word_score := py_min 100 (truediv (total_words metrics) 2) in
    let readability_score := py_max 0 (py_min 100 (readability_score metrics)) in
    let language_score := (language_confidence metrics * 100)%Q in
    (word_score * (4 # 10) + readability_score * (3 # 10)
     + language_score * (3 # 10))%Q.

End TextQualityChecker.

(* ================================================================== *)
(** * pipelines/extract/pdf_to_text.py                                 *)
(* ================================================================== *)

(** [str(x)] for the values a PDF information dictionary holds. *)
Definition py_str (v : pyval) : pystr :=
  match v with
  | VNone => py "None"
  | VStr s => s
  | VBytes b => map Byte.to_N b
  | VInt z => py (DecimalString.NilZero.string_of_int (Z.to_int z))
  | VBool true => py "True"
  | VBool false => py "False"
  | VObj repr => repr
  end.

(** [d.get(key, default)] on a dictionary kept as an association list. *)
Fixpoint dict_get (d : list (pystr * pyval)) (key : pystr) (default : pyval) : pyval :=
  match d with
  | [] => default
  | (k, v) :: d' => if Str.eqb k key then v else dict_get d' key default
  end.

Module PDFMetadata.
Record t : Type := mk {
  title : option pystr;
  author : option pystr;
  subject : option pystr;
  creator : option pystr;
  producer : option pystr;
  creation_date : option pystr;
  modification_date : option pystr;
  pages : Z;
  encrypted : bool;
  file_size : Z
}.
(** [PDFMetadata()] *)
Definition default : t :=
  mk None None None None None None None 0 false 0.
End PDFMetadata.

Module PDFExtractionResult.
Record t : Type := mk {
  text : pystr;
  metadata : PDFMetadata.t;
  quality_metrics : TextQualityMetrics;
  extraction_method : pystr;
  confidence_score : Q;
  processing_time : Q;
  errors : list pystr
}.
End PDFExtractionResult.

(** What pdfminer gives for a parsed file. *)
Record PdfDocument : Type := {
  doc_info : list (list (pystr * pyval));   (* document.info *)
  doc_page_count : outcome Z                (* len(list(PDFPage.create_pages(document))) *)
}.

(** [document.is_encrypted].  pdfminer's [PDFDocument] has no attribute
    of that name (it has [encryption], [is_printable], [is_modifiable]
    and [is_extractable]), so the access raises [AttributeError]. *)
Definition doc_is_encrypted (document : PdfDocument) : outcome bool :=
  Raise (py "'PDFDocument' object has no attribute 'is_encrypted'").

(** What PyMuPDF and pytesseract give for one rendered page:
    [image_to_string], and the integers of the comprehension over
    [image_to_data(...)['conf']]. *)
Record OcrPage : Type := {
  page_text : pystr;
  page_confidences : list Z
}.

(** The libraries and the clock the PDF extractor calls. *)
Record PdfEnv : Type := {
  OCR_AVAILABLE : bool;
  pdfminer_parse : content_t -> outcome PdfDocument;   (* PDFParser, PDFDocument *)
  pdfminer_extract_text : content_t -> outcome pystr;  (* high_level.extract_text *)
  fitz_open : content_t -> outcome (list (outcome OcrPage));
  pdf_elapsed : Q;                                     (* seconds between the two [datetime.now()] *)
  utils_import_error : pystr
    (* [str(e)] of the [ImportError] of [from ..utils.text_cleaning import
       HTMLCleaner]; it names the package the module was loaded under, as
       in "No module named 'pipelines.utils'" *)
}.

(** The calls to [logger] of the module. *)
Inductive log_event : Type :=
| Warning_metadata (e : pystr)     (* "Failed to extract PDF metadata: {e}" *)
| Warning_direct (e : pystr)       (* "Direct PDF text extraction failed: {e}" *)
| Warning_ocr (e : pystr)          (* "OCR PDF text extraction failed: {e}" *)
| Info_trying_ocr (direct_confidence : Q)
                                   (* "Low confidence (...) for direct extraction, trying OCR" *)
| Error_message (msg : pystr).     (* logger.error(error_msg) *)

Module PDFTextExtractor.

(** The attributes [__init__] sets. *)
Record self_t : Type := {
  ocr_fallback : bool;
  ocr_min_confidence : Q;
  tesseract_config : pystr
}.

Section WithEnv.
Context `{Unicode}.
Variable env : PdfEnv.

Definition __init__ (ocr_fallback : bool) (ocr_min_confidence : Q)
           (tesseract_config : pystr) : self_t :=
  {| ocr_fallback := ocr_fallback && OCR_AVAILABLE env;
     ocr_min_confidence := ocr_min_confidence;
     tesseract_config := tesseract_config |}.

(** [PDFTextExtractor()] *)
Definition default_extractor : self_t :=
  __init__ true 60 (py "--oem 3 --psm 6").

Definition _decode_pdf_string (pdf_string : pyval) : pystr :=
  match pdf_string with
  | VBytes b =>
      match utf8_decode b with
      | Ok s => s
      | Raise _ => map Byte.to_N b      (* latin-1 *)
      end
  | VStr s => s
  | other => if truthy other then py_str other else []
  end.

Definition _parse_pdf_date (date_string : pyval) : option pystr :=
  if negb (truthy date_string) then None
  else
    match date_string with
    | VStr s =>
        if Str.startswith s (py "D:") then
          let date_part := Str.slice s 2 16 in
          if 8 <=? length date_part then
            let year := Str.slice date_part 0 4 in
            let month := Str.slice date_part 4 6 in
            let day := Str.slice date_part 6 8 in
            let hour := if 8 <? length date_part
                        then Str.slice date_part 8 10 else py "00" in
            let minute := if 10 <? length date_part
                          then Str.slice date_part 10 12 else py "00" in
            let second := if 12 <? length date_part
                          then Str.slice date_part 12 14 else py "00" in
            Some (year ++ py "-" ++ month ++ py "-" ++ day ++ py " "
                       ++ hour ++ py ":" ++ minute ++ py ":" ++ second)
          else None
        else None
    | _ => None
    end.

Definition _extract_metadata (pdf_content : content_t)
  : PDFMetadata.t * list log_event :=
  try_except
    (document <- pdfminer_parse env pdf_content ;;
     let metadata := PDFMetadata.default in
     let metadata :=
       match doc_info document with
       | [] => metadata
       | info :: _ =>
           let get k := dict_get info (py k) (VStr []) in
           PDFMetadata.mk
             (Some (_decode_pdf_string (get "Title"%string)))
             (Some (_decode_pdf_string (get "Author"%string)))
             (Some (_decode_pdf_string (get "Subject"%string)))
             (Some (_decode_pdf_string (get "Creator"%string)))
             (Some (_decode_pdf_string (get "Producer"%string)))
             (_parse_pdf_date (get "CreationDate"%string))
             (_parse_pdf_date (get "ModDate"%string))
             (PDFMetadata.pages metadata)
             (PDFMetadata.encrypted metadata)
             (PDFMetadata.file_size metadata)
       end in
     n <- doc_page_count document ;;
     let file_size := content_len pdf_content in
     encrypted <- doc_is_encrypted document ;;
     Ok (PDFMetadata.mk
           (PDFMetadata.title metadata) (PDFMetadata.author metadata)
           (PDFMetadata.subject metadata) (PDFMetadata.creator metadata)
           (PDFMetadata.producer metadata)
           (PDFMetadata.creation_date metadata)
           (PDFMetadata.modification_date metadata)
           n encrypted file_size,
         []))
    (fun e => (PDFMetadata.default, [Warning_metadata e])).

Definition _calculate_text_confidence (text : pystr) : Q :=
  if negb (nonempty text) || negb (nonempty (Str.strip text)) then 0%Q
  else
    let words := re.findall HTMLCleaner.re_word text in
    let chars := Str.len text in
    match words with
    | [] => 0%Q
    | _ =>
        let avg_word_len :=
          truediv (HTMLCleaner.sum_len words) (Z.of_nat (length words)) in
        let alpha_ratio := truediv (Str.count isalpha text) chars in
        let word_len_score := py_max 0 (100 - py_abs (avg_word_len - 5) * 10)%Q in
        let alpha_score := (alpha_ratio * 100)%Q in
        let confidence := (word_len_score * (4 # 10) + alpha_score * (6 # 10))%Q in
        py_min 100 (py_max 0 confidence)
    end.

Definition _extract_text_direct (pdf_content : content_t)
  : (pystr * Q) * list log_event :=
  try_except
    (text <- pdfminer_extract_text env pdf_content ;;
     let confidence := _calculate_text_confidence text in
     Ok ((text, confidence), []))
    (fun e => (([], 0%Q), [Warning_direct e])).

(** The [for page_num in range(min(len(pdf_document), 50))] loop. *)
Fixpoint ocr_loop (pages : list (outcome OcrPage))
         (extracted_text : list pystr) (total_confidence : Q) (page_count : Z)
  : outcome (list pystr * Q * Z) :=
  match pages with
  | [] => Ok (extracted_text, total_confidence, page_count)
  | page :: rest =>
      p <- page ;;
      let confidences := page_confidences p in
      let page_confidence :=
        match confidences with
        | [] => 0%Q
        | _ => (inject_Z (fold_right Z.add 0%Z confidences)
                / inject_Z (Z.of_nat (length confidences)))%Q
        end in
      ocr_loop rest (extracted_text ++ [page_text p])
               (total_confidence + page_confidence)%Q (page_count + 1)%Z
  end.

Definition _extract_text_ocr (pdf_content : content_t)
  : (pystr * Q) * list log_event :=
  if negb (OCR_AVAILABLE env) then (([], 0%Q), [])
  else
    try_except
      (pdf_document <- fitz_open env pdf_content ;;
       r <- ocr_loop (firstn 50 pdf_document) [] 0%Q 0%Z ;;
       let '(extracted_text, total_confidence, page_count) := r in
       let final_text := Str.join [nl; nl] extracted_text in
       let avg_confidence :=
         if (0 <? page_count)%Z
         then (total_confidence / inject_Z page_count)%Q else 0%Q in
       Ok ((final_text, avg_confidence), []))
      (fun e => (([], 0%Q), [Warning_ocr e])).

(** [from ..utils.text_cleaning import HTMLCleaner], inside
    [_calculate_quality_metrics].  The module is
    [pipelines/extract/pdf_to_text.py], so [..] is the package
    [pipelines], and [pipelines] has no [utils]: the repository's [utils]
    lies beside [pipelines] (the import at the top of the module reaches
    it as [utils.text_cleaning]).  The statement raises under whatever
    name the module was loaded. *)
Definition import_parent_utils_text_cleaning : outcome unit :=
  Raise (utils_import_error env).

Definition _calculate_quality_metrics (text : pystr) : outcome TextQualityMetrics :=
  _ <- import_parent_utils_text_cleaning ;;
  Ok (HTMLCleaner._calculate_quality_metrics text).

Definition _merge_texts (direct_text ocr_text : pystr) : outcome pystr :=
  if negb (nonempty direct_text) then Ok ocr_text
  else if negb (nonempty ocr_text) then Ok direct_text
  else
    direct_quality <- _calculate_quality_metrics direct_text ;;
    ocr_quality <- _calculate_quality_metrics ocr_text ;;
    if has_meaningful_content direct_quality
       && negb (has_meaningful_content ocr_quality) then Ok direct_text
    else if has_meaningful_content ocr_quality
            && negb (has_meaningful_content direct_quality) then Ok ocr_text
    else if (Str.len ocr_text <=? Str.len direct_text)%Z then Ok direct_text
    else Ok ocr_text.

(** [r'^\d+$'], used with [re.match] *)
Definition re_page_number : re.pattern := [re.Plus isdecimal; re.Dollar].

(** The test of the loop of [_clean_extracted_text] on a trimmed line. *)
Definition keep_line (line : pystr) : bool :=
  if negb (nonempty line) then false
  else if (Str.len line <? 5)%Z then false
  else if re.matches re_page_number line && (Str.len line <=? 4)%Z then false
  else true.

Fixpoint clean_lines (lines : list pystr) : list pystr :=
  match lines with
  | [] => []
  | line :: rest =>
      let line := Str.strip line in
      if keep_line line then line :: clean_lines rest else clean_lines rest
  end.

Definition _clean_extracted_text (text : pystr) : pystr :=
  if negb (nonempty text) then []
  else
    let text := re.sub HTMLCleaner.re_blank_lines [nl; nl] text in
    let text := re.sub HTMLCleaner.re_spaces [sp] text in
    let lines := Str.split nl text in
    let cleaned_lines := clean_lines lines in
    Str.strip (Str.join [nl] cleaned_lines).

(** The test that guards the OCR branch of [extract_from_pdf]. *)
Definition ocr_condition (self : self_t) (direct_text : pystr)
           (direct_confidence : Q) : bool :=
  ocr_fallback self
  && Qltb direct_confidence (ocr_min_confidence self)
  && (Str.len (Str.strip direct_text) <? 1000)%Z.

(** Lines 130 to 150 of [extract_from_pdf]: the method, the text and the
    confidence chosen from what direct extraction returned and from what
    OCR returns, or the exception [_merge_texts] raises.  The first
    component tells whether the OCR branch is entered, that is whether
    [_extract_text_ocr] is called. *)
Definition select_extraction (self : self_t) (direct_text : pystr)
           (direct_confidence : Q) (ocr : pystr * Q)
  : bool * outcome (pystr * pystr * Q) :=
  if ocr_condition self direct_text direct_confidence then
    let '(ocr_text, ocr_confidence) := ocr in
    (true,
     if Qltb direct_confidence ocr_confidence then
       Ok (py "ocr", ocr_text, ocr_confidence)
     else if nonempty ocr_text
             && (Str.len (Str.strip direct_text)
                 <? Str.len (Str.strip ocr_text))%Z then
       final_text <- _merge_texts direct_text ocr_text ;;
       Ok (py "hybrid", final_text, py_max direct_confidence ocr_confidence)
     else Ok (py "direct", direct_text, direct_confidence))
  else (false, Ok (py "direct", direct_text, direct_confidence)).

(** The three extraction helpers catch their own exceptions; under
    [try:] only [_merge_texts] and [_calculate_quality_metrics] can
    raise.  What was logged before the exception stays logged. *)
Definition extract_from_pdf (self : self_t) (pdf_content : content_t)
           (filename : option pystr) : PDFExtractionResult.t * list log_event :=
  let errors : list pystr := [] in
  let '(metadata, log1) := _extract_metadata pdf_content in
  let '((direct_text, direct_confidence), log2) :=
    _extract_text_direct pdf_content in
  (* the source calls [_extract_text_ocr] inside the OCR branch only:
     what it returns and logs is used only when [ocr_called] *)
  let '(ocr, log_ocr) := _extract_text_ocr pdf_content in
  let '(ocr_called, selected) :=
    select_extraction self direct_text direct_confidence ocr in
  let log3 :=
    if ocr_called then Info_trying_ocr direct_confidence :: log_ocr else [] in
  let log := log1 ++ log2 ++ log3 in
  match
    (sel <- selected ;;
     let '(extraction_method, final_text, confidence_score) := sel in
     let final_text := _clean_extracted_text final_text in
     quality_metrics <- _calculate_quality_metrics final_text ;;
     Ok (PDFExtractionResult.mk final_text metadata quality_metrics
           extraction_method confidence_score (pdf_elapsed env) errors))
  with
  | Ok result => (result, log)
  | Raise e =>
      let error_msg := py "PDF extraction failed: " ++ e in
      let errors := errors ++ [error_msg] in
      (PDFExtractionResult.mk [] PDFMetadata.default TextQualityMetrics_default
         (py "failed") 0 (pdf_elapsed env) errors,
       log ++ [Error_message error_msg])
  end.

(** OCR is attempted when [_extract_text_ocr] is called, which the
    [logger.info] of the same branch records. *)
Definition ocr_attempted (log : list log_event) : bool :=
  existsb (fun ev => match ev with Info_trying_ocr _ => true | _ => false end) log.

End WithEnv.
End PDFTextExtractor.

(* ================================================================== *)
(** * pipelines/extract/html_to_text.py                                *)
(* ================================================================== *)

(** The attribute [errors] of a result.  It is declared a list of
    strings; [_process_html_document] passes it the bare error string. *)
Inductive errors_t : Type :=
| Errors_list (l : list pystr)
| Errors_str (s : pystr).

Module DocumentExtractionResult.

Record t : Type := mk {
  document_id : pystr;
  source_name : pystr;
  url : pystr;
  document_type : pystr;
  extracted_text : pystr;
  title : pystr;
  metadata : list (pystr * pyval);
  quality_metrics : TextQualityMetrics;
  extraction_method : pystr;
  confidence_score : Q;
  processing_time : Q;
  errors : errors_t;
  extraction_timestamp : pystr
}.

(** [errors or []] *)
Definition errors_or_empty (errors : option errors_t) : errors_t :=
  match errors with
  | None => Errors_list []
  | Some (Errors_list l) => Errors_list l
  | Some (Errors_str s) => if nonempty s then Errors_str s else Errors_list []
  end.

(** [__init__]; an argument left out takes the default of the signature:
    [""] for [title] and [extraction_method], [0.0] for the two numbers,
    [None] for [metadata], [quality_metrics] and [errors].  [now] is
    [datetime.now().isoformat()]. *)
Definition __init__ (now : pystr)
           (document_id source_name url document_type extracted_text : pystr)
           (title : pystr) (metadata : option (list (pystr * pyval)))
           (quality_metrics : option TextQualityMetrics)
           (extraction_method : pystr) (confidence_score processing_time : Q)
           (errors : option errors_t) : t :=
  mk document_id source_name url document_type extracted_text title
     (match metadata with Some m => m | None => [] end)
     (match quality_metrics with Some q => q | None => TextQualityMetrics_default end)
     extraction_method confidence_score processing_time
     (errors_or_empty errors) now.

(** [len(self.errors)] *)
Definition len_errors (r : t) : Z :=
  match errors r with
  | Errors_list l => Z.of_nat (length l)
  | Errors_str s => Str.len s
  end.

Definition extraction_success (r : t) : bool := Z.eqb (len_errors r) 0.

Definition meets_quality_thresholds (r : t) (min_words : Z)
           (min_readability min_confidence : Q) : bool :=
  (min_words <=? total_words (quality_metrics r))%Z
  && Qle_bool min_readability (readability_score (quality_metrics r))
  && Qle_bool min_confidence (confidence_score r)
  && has_meaningful_content (quality_metrics r)
  && Z.eqb (len_errors r) 0.

(** [result.processing_time = v] *)
Definition set_processing_time (r : t) (v : Q) : t :=
  mk (document_id r) (source_name r) (url r) (document_type r)
     (extracted_text r) (title r) (metadata r) (quality_metrics r)
     (extraction_method r) (confidence_score r) v (errors r)
     (extraction_timestamp r).

End DocumentExtractionResult.

(** What the pipeline calls outside the repository's own code. *)
Record PipelineEnv : Type := {
  bs4_parse : content_t -> pystr -> outcome Soup;   (* the BeautifulSoup steps of [clean_html] *)
  pdf_env : PdfEnv;
  save_result : DocumentExtractionResult.t -> outcome unit;
                                                   (* [_save_result]: the file system and S3 *)
  now_isoformat : pystr;                           (* datetime.now().isoformat() *)
  elapsed : Q                                      (* seconds since [start_time] *)
}.

Module TextExtractionPipeline.
Section WithEnv.
Context `{Unicode}.
(** [hashlib.sha256(b).hexdigest()] *)
Variable sha256_hexdigest : bytes -> pystr.
Variable env : PipelineEnv.

Definition opt_pyval (o : option pystr) : pyval :=
  match o with
  | Some s => VStr s
  | None => VNone
  end.

Definition _generate_content_hash (content : content_t) : outcome pystr :=
  content <- match content with
             | CStr s => Str.encode_utf8 s
             | CBytes b => Ok b
             end ;;
  Ok (sha256_hexdigest content).

Definition sniff_html (text : pystr) : bool :=
  Str.contains (py "<html") (lower text)
  || Str.contains (py "<!doctype html") (lower text).

Definition _detect_document_type (content : content_t)
           (filename : option pystr) : pystr :=
  let by_name :=
    match filename with
    | Some f =>
        if nonempty f then
          let filename_lower := lower f in
          if Str.endswith filename_lower (py ".pdf") then Some (py "pdf")
          else if Str.endswith filename_lower (py ".html")
                  || Str.endswith filename_lower (py ".htm") then Some (py "html")
          else None
        else None
    | None => None
    end in
  match by_name with
  | Some t => t
  | None =>
      match content with
      | CBytes b =>
          if Str.bytes_startswith b (pyb "%PDF-") then py "pdf"
          else
            match utf8_decode b with
            | Ok text_content =>
                if sniff_html text_content then py "html" else py "html"
            | Raise _ => py "html"
            end
      | CStr s => if sniff_html s then py "html" else py "html"
      end
  end.

Definition _process_html_document (content : content_t)
           (source_name url document_id : pystr) : DocumentExtractionResult.t :=
  let clean_result := HTMLCleaner.clean_html (bs4_parse env) content url in
  if negb (cr_extraction_success clean_result) then
    DocumentExtractionResult.__init__ (now_isoformat env)
      document_id source_name url (py "html") []
      [] None (Some (cr_quality_metrics clean_result)) [] 0 0
      (match cr_error clean_result with
       | Some e => Some (Errors_str e)
       | None => None
       end)
  else
    let quality_score :=
      TextQualityChecker.get_quality_score (cr_quality_metrics clean_result) in
    DocumentExtractionResult.__init__ (now_isoformat env)
      document_id source_name url (py "html") (cr_cleaned_text clean_result)
      (cr_title clean_result) (Some (cr_metadata clean_result))
      (Some (cr_quality_metrics clean_result)) (py "html_cleaning")
      quality_score 0 None.

Definition _process_pdf_document (content : content_t)
           (source_name url document_id : pystr) (filename : option pystr)
  : DocumentExtractionResult.t :=
  let pdf_result :=
    fst (PDFTextExtractor.extract_from_pdf (pdf_env env)
           (PDFTextExtractor.default_extractor (pdf_env env)) content filename) in
  let md := PDFExtractionResult.metadata pdf_result in
  DocumentExtractionResult.__init__ (now_isoformat env)
    document_id source_name url (py "pdf") (PDFExtractionResult.text pdf_result)
    []
    (Some [(py "title", opt_pyval (PDFMetadata.title md));
           (py "author", opt_pyval (PDFMetadata.author md));
           (py "pages", VInt (PDFMetadata.pages md));
           (py "file_size", VInt (PDFMetadata.file_size md));
           (py "creation_date", opt_pyval (PDFMetadata.creation_date md))])
    (Some (PDFExtractionResult.quality_metrics pdf_result))
    (PDFExtractionResult.extraction_method pdf_result)
    (PDFExtractionResult.confidence_score pdf_result) 0
    (Some (Errors_list (PDFExtractionResult.errors pdf_result))).

(** [document_type or 'unknown'] *)
Definition or_unknown (document_type : pystr) : pystr :=
  if nonempty document_type then document_type else py "unknown".

(** [if not document_type: document_type = self._detect_document_type(...)] *)
Definition resolve_document_type (document_type : option pystr)
           (content : content_t) (filename : option pystr) : pystr :=
  match document_type with
  | Some t => if nonempty t then t else _detect_document_type content filename
  | None => _detect_document_type content filename
  end.

(** The statements under [try:] in [process_document]. *)
Definition try_body (content : content_t) (source_name url document_id : pystr)
           (document_type : pystr) (filename : option pystr)
  : outcome DocumentExtractionResult.t :=
  result <-
    (if Str.eqb document_type (py "html") then
       Ok (_process_html_document content source_name url document_id)
     else if Str.eqb document_type (py "pdf") then
       Ok (_process_pdf_document content source_name url document_id filename)
     else Raise (py "Unsupported document type: " ++ document_type)) ;;
  let result :=
    DocumentExtractionResult.set_processing_time result (elapsed env) in
  _ <- save_result env result ;;
  Ok result.

(** The [except Exception as e:] block of [process_document]. *)
Definition error_result (source_name url document_id document_type e : pystr)
  : DocumentExtractionResult.t :=
  let error_msg := py "Document processing failed: " ++ e in
  DocumentExtractionResult.__init__ (now_isoformat env)
    document_id source_name url (or_unknown document_type) []
    [] None None [] 0 (elapsed env)
    (Some (Errors_list [error_msg])).

(** The content hash is computed before the [try:]; an exception there
    leaves [process_document]. *)
Definition process_document (content : content_t) (source_name url : pystr)
           (document_type : option pystr) (filename : option pystr)
  : outcome DocumentExtractionResult.t :=
  content_hash <- _generate_content_hash content ;;
  let document_id := source_name ++ py "_" ++ firstn 12 content_hash in
  let document_type := resolve_document_type document_type content filename in
  Ok (try_except
        (try_body content source_name url document_id document_type filename)
        (error_result source_name url document_id document_type)).

End WithEnv.

(** ** Batches *)

(** [d[key]] by [in], [get] and assignment on a dictionary kept in
    insertion order. *)
Fixpoint adict_get {V : Type} (d : list (pystr * V)) (key : pystr) : option V :=
  match d with
  | [] => None
  | (k, v) :: d' => if Str.eqb k key then Some v else adict_get d' key
  end.

Fixpoint adict_set {V : Type} (d : list (pystr * V)) (key : pystr) (v : V)
  : list (pystr * V) :=
  match d with
  | [] => [(key, v)]
  | (k, v') :: d' =>
      if Str.eqb k key then (k, v) :: d' else (k, v') :: adict_set d' key v
  end.

(** One entry of the list [batch_process_documents] takes: a dictionary
    with the keys [content], [source_name] and [url], and the optional
    keys [document_type] and [filename]. *)
Record BatchDocument : Type := {
  doc_content : content_t;
  doc_source_name : pystr;
  doc_url : pystr;
  doc_document_type : option pystr;
  doc_filename : option pystr
}.

(** An entry of [summary['by_source']]. *)
Record SourceCount : Type := {
  sc_total : Z;
  sc_successful : Z
}.

(** The dictionary [_save_batch_summary] writes. *)
Record BatchSummary : Type := {
  batch_timestamp : pystr;
  total_documents : Z;
  successful_extractions : Z;
  quality_passed : Z;
  by_source : list (pystr * SourceCount);
  by_document_type : list (pystr * Z);
  summary_errors : list pystr
}.

Section WithBatch.
Context `{Unicode}.
Variable sha256_hexdigest : bytes -> pystr.

(** [meets_quality_thresholds()] *)
Definition passes_quality (r : DocumentExtractionResult.t) : bool :=
  DocumentExtractionResult.meets_quality_thresholds r 50 20 60.

(** The body of the loop of [_save_batch_summary] on the three entries
    it updates. *)
Definition summary_step
           (acc : list (pystr * SourceCount) * list (pystr * Z) * list pystr)
           (result : DocumentExtractionResult.t)
  : list (pystr * SourceCount) * list (pystr * Z) * list pystr :=
  let '(by_source, by_document_type, errors) := acc in
  let source := DocumentExtractionResult.source_name result in
  let by_source :=
    match adict_get by_source source with
    | None => adict_set by_source source {| sc_total := 0; sc_successful := 0 |}
    | Some _ => by_source
    end in
  let by_source :=
    match adict_get by_source source with
    | Some c =>
        adict_set by_source source
          {| sc_total := sc_total c + 1; sc_successful := sc_successful c |}
    | None => by_source
    end in
  let by_source :=
    if DocumentExtractionResult.extraction_success result then
      match adict_get by_source source with
      | Some c =>
          adict_set by_source source
            {| sc_total := sc_total c; sc_successful := sc_successful c + 1 |}
      | None => by_source
      end
    else by_source in
  let doc_type := DocumentExtractionResult.document_type result in
  let by_document_type :=
    match adict_get by_document_type doc_type with
    | None => adict_set by_document_type doc_type 0%Z
    | Some _ => by_document_type
    end in
  let by_document_type :=
    match adict_get by_document_type doc_type with
    | Some n => adict_set by_document_type doc_type (n + 1)%Z
    | None => by_document_type
    end in
  let errors :=
    match DocumentExtractionResult.errors result with
    | Errors_list l => errors ++ l
    | Errors_str s => errors ++ map (fun c => [c]) s   (* [extend] over a string *)
    end in
  (by_source, by_document_type, errors).

(** The dictionary built by [_save_batch_summary]; [now] is
    [datetime.now().isoformat()]. *)
Definition batch_summary (now : pystr) (results : list DocumentExtractionResult.t)
  : BatchSummary :=
  let '(by_source, by_document_type, errors) :=
    fold_left summary_step results ([], [], []) in
  {| batch_timestamp := now;
     total_documents := Z.of_nat (length results);
     successful_extractions :=
       Z.of_nat (length (filter DocumentExtractionResult.extraction_success results));
     quality_passed := Z.of_nat (length (filter passes_quality results));
     by_source := by_source;
     by_document_type := by_document_type;
     summary_errors := errors |}.

(** [_save_batch_summary]; [write] is the [json.dump] into the summary
    file. *)
Definition _save_batch_summary (now : pystr)
           (write : BatchSummary -> outcome unit)
           (results : list DocumentExtractionResult.t) : outcome unit :=
  write (batch_summary now results).

(** The [for doc in documents] loop of [batch_process_documents];
    [envs i] is the environment of the call for the document at index
    [i]. *)
Fixpoint process_all (envs : nat -> PipelineEnv) (i : nat)
         (documents : list BatchDocument)
  : outcome (list DocumentExtractionResult.t) :=
  match documents with
  | [] => Ok []
  | doc :: rest =>
      result <- process_document sha256_hexdigest (envs i)
                  (doc_content doc) (doc_source_name doc) (doc_url doc)
                  (doc_document_type doc) (doc_filename doc) ;;
      results <- process_all envs (S i) rest ;;
      Ok (result :: results)
  end.

Definition batch_process_documents (envs : nat -> PipelineEnv) (now : pystr)
           (write : BatchSummary -> outcome unit)
           (documents : list BatchDocument)
  : outcome (list DocumentExtractionResult.t) :=
  results <- process_all envs 0 documents ;;
  _ <- _save_batch_summary now write results ;;
  Ok results.

End WithBatch.
End TextExtractionPipeline.

(* ================================================================== *)
(** * The specification's own formulations                             *)
(* ================================================================== *)

(** The score as the specification words it: a weighted blend of the
    saturated word count, the clamped readability and the language
    confidence. *)
Definition clamp (x lo hi : Q) : Q := Qmax lo (Qmin hi x).
Definition quality_score_spec (m : TextQualityMetrics) : Q :=
  ((4 # 10) * Qmin 100 (inject_Z (total_words m) / 2)
   + (3 # 10) * clamp (readability_score m) 0 100
   + (3 # 10) * (language_confidence m * 100))%Q.

(** A well-formed PDF date as the specification describes it: the
    prefix [D:] followed by fourteen decimal digits [YYYYMMDDHHMMSS]. *)
Definition wellformed_pdf_date (s : pystr) : bool :=
  Str.startswith s (py "D:")
  && (14 <=? length (Str.slice s 2 16))
  && forallb ascii_isdigit (Str.slice s 2 16).

(** ** Shapes of text used in the proofs *)

(** A text that neither starts nor ends with a character of [p]. *)
Definition trimmed (p : char -> bool) (s : pystr) : bool :=
  match s with
  | [] => true
  | c :: _ => negb (p c) && negb (p (last s c))
  end.

(** The text a scan was made from. *)
Definition unscan (gs : list re.seg) : pystr :=
  flat_map (fun g => match g with re.Lit c => [c] | re.Hit m => m end) gs.

(** Runs of spaces and tabs squeezed to one space, by a single pass. *)
Fixpoint squeeze (in_run : bool) (s : pystr) : pystr :=
  match s with
  | [] => []
  | c :: s' =>
      if HTMLCleaner.is_space_or_tab c
      then if in_run then squeeze true s' else sp :: squeeze true s'
      else c :: squeeze false s'
  end.

(** No tab, and no space followed by a space or a tab. *)
Fixpoint collapsed (s : pystr) : bool :=
  match s with
  | [] => true
  | c :: s' =>
      negb (N.eqb c tab)
      && negb (N.eqb c sp && HTMLCleaner.is_space_or_tab (hd 0%N s'))
      && collapsed s'
  end.

(** Every newline is the last character or is followed by a character
    that is neither white space nor a newline. *)
Fixpoint nl_isolated `{Unicode} (s : pystr) : bool :=
  match s with
  | [] => true
  | c :: s' =>
      (negb (N.eqb c nl)
       || match s' with
          | [] => true
          | c' :: _ => negb (isspace c') && negb (N.eqb c' nl)
          end)
      && nl_isolated s'
  end.

Definition is_info (ev : log_event) : bool :=
  match ev with
  | Info_trying_ocr _ => true
  | _ => false
  end.

Definition dash : char := 45%N.
Definition colon : char := 58%N.

(** A line as the cleaning loops leave it: not empty, trimmed, without
    a newline, and with its runs of spaces and tabs squeezed. *)
Definition good_line `{Unicode} (l : pystr) : bool :=
  nonempty l && trimmed isspace l
  && forallb (fun c => negb (N.eqb c nl)) l && collapsed l.

(** The text both cleaning functions split into lines. *)
Definition squeezed `{Unicode} (text : pystr) : pystr :=
  re.sub HTMLCleaner.re_spaces [sp]
         (re.sub HTMLCleaner.re_blank_lines [nl; nl] text).

(** The matches of a scan. *)
Definition hits (gs : list re.seg) : list pystr :=
  flat_map (fun g => match g with re.Lit _ => [] | re.Hit m => [m] end) gs.

(** ** Sample inputs and environments, for the examples *)

(** A digest function for the examples; none depends on its value. *)
Definition sample_digest (b : bytes) : pystr :=
  py "2c26b46b68ffc68ff99b453c1d30413413422d706483bfa0f98a5e886266e7ae".

(** A PDF on which pdfminer and PyMuPDF all fail. *)
Definition failing_pdf_env : PdfEnv := {|
  OCR_AVAILABLE := true;
  pdfminer_parse := fun _ => Raise (py "No /Root object! - Is this really a PDF?");
  pdfminer_extract_text := fun _ => Raise (py "No /Root object! - Is this really a PDF?");
  fitz_open := fun _ => Raise (py "cannot open broken document");
  pdf_elapsed := 0;
  utils_import_error := py "No module named 'pipelines.utils'"
|}.

(** A page BeautifulSoup fails on, with a working file system. *)
Definition sample_pipeline_env : PipelineEnv := {|
  bs4_parse := fun _ _ => Raise (py "maximum recursion depth exceeded");
  pdf_env := failing_pdf_env;
  save_result := fun _ => Ok tt;
  now_isoformat := py "2025-11-11T09:30:00.000000";
  elapsed := 0
|}.

(** Text as [get_text] may deliver it: a line of nine characters, a line
    with runs of spaces, blank lines, and a page number. *)
Definition sample_page_text : pystr :=
  py "Home | Go" ++ [nl]
  ++ py "  We offer   comprehensive flight training programs.  " ++ [nl; nl; nl; nl]
  ++ py "Private pilot" ++ [nl] ++ py "12".


(** The least number of characters a match of a pattern takes. *)
Fixpoint min_length (pat : re.pattern) : nat :=
  match pat with
  | [] => 0
  | re.One _ :: pat' => S (min_length pat')
  | re.Plus _ :: pat' => S (min_length pat')
  | _ :: pat' => min_length pat'
  end.

(** The characters of a list of lines. *)
Definition chars_of (ls : list pystr) : nat :=
  fold_right (fun l n => length l + n) 0 ls.

(** A word confidence as pytesseract reports it: between 0 and 100. *)
Definition confidence_ok (c : Z) : Prop := (0 <= c <= 100)%Z.

(** A scanned PDF of two pages with word confidences. *)
Definition ocr_env : PdfEnv := {|
  OCR_AVAILABLE := true;
  pdfminer_parse := fun _ => Raise (py "No /Root object! - Is this really a PDF?");
  pdfminer_extract_text := fun _ => Ok (py "12 34");
  fitz_open := fun _ =>
    Ok [Ok {| page_text := py "Private pilot training"; page_confidences := [90; 80]%Z |};
        Ok {| page_text := py "Instrument rating"; page_confidences := [70]%Z |}];
  pdf_elapsed := 2;
  utils_import_error := py "No module named 'pipelines.utils'"
|}.

(** [dataclasses.replace(m, total_words=w)] *)
Definition set_total_words (m : TextQualityMetrics) (w : Z) : TextQualityMetrics :=
  {| total_chars := total_chars m;
     total_words := w;
     avg_word_length := avg_word_length m;
     readability_score := readability_score m;
     has_meaningful_content := has_meaningful_content m;
     language_confidence := language_confidence m |}.

(** The sum of a count over the entries of a dictionary. *)
Definition adict_sum {V : Type} (f : V -> Z) (d : list (pystr * V)) : Z :=
  fold_right (fun kv a => (f (snd kv) + a)%Z) 0%Z d.

(** A page BeautifulSoup parses, with a working file system. *)
Definition html_env : PipelineEnv := {|
  bs4_parse := fun _ _ =>
    Ok {| soup_title := py "Test Flight School";
          soup_main_content := sample_page_text;
          soup_metadata := [] |};
  pdf_env := failing_pdf_env;
  save_result := fun _ => Ok tt;
  now_isoformat := py "2025-11-11T09:30:00.000000";
  elapsed := 1
|}.

(** What [extend] appends to a list for the [errors] of a record. *)
Definition error_items (r : DocumentExtractionResult.t) : list pystr :=
  match DocumentExtractionResult.errors r with
  | Errors_list l => l
  | Errors_str s => map (fun c => [c]) s
  end.

(** The number of records of a list that satisfy [p]. *)
Definition count_results (p : DocumentExtractionResult.t -> bool)
           (results : list DocumentExtractionResult.t) : Z :=
  Z.of_nat (length (filter p results)).

Definition from_source (s : pystr) (r : DocumentExtractionResult.t) : bool :=
  Str.eqb (DocumentExtractionResult.source_name r) s.

Definition of_type (d : pystr) (r : DocumentExtractionResult.t) : bool :=
  Str.eqb (DocumentExtractionResult.document_type r) d.

(** A batch of an HTML page and a file that is no PDF. *)
Definition sample_batch : list TextExtractionPipeline.BatchDocument :=
  [ {| TextExtractionPipeline.doc_content := CStr (py "<html><p>x</p></html>");
       TextExtractionPipeline.doc_source_name := py "faa";
       TextExtractionPipeline.doc_url := py "http://x/a.html";
       TextExtractionPipeline.doc_document_type := None;
       TextExtractionPipeline.doc_filename := None |};
    {| TextExtractionPipeline.doc_content := CBytes (pyb "%PDF-1.4");
       TextExtractionPipeline.doc_source_name := py "aopa";
       TextExtractionPipeline.doc_url := py "http://x/b.pdf";
       TextExtractionPipeline.doc_document_type := Some (py "pdf");
       TextExtractionPipeline.doc_filename := Some (py "b.pdf") |} ].

(** A text of 2000 characters, none of them white space at either end,
    whose direct confidence is 10: 148 words of digits, of 12 and 13
    characters in turn. *)
Definition conf10_text : pystr :=
  concat (repeat (py "123456789012 1234567890123  ") 3)
  ++ Str.join [sp] (repeat (py "123456789012 1234567890123") 71).

(** A PDF from which pdfminer extracts [conf10_text]. *)
Definition gate_closed_env : PdfEnv := {|
  OCR_AVAILABLE := true;
  pdfminer_parse := fun _ => Raise (py "No /Root object! - Is this really a PDF?");
  pdfminer_extract_text := fun _ => Ok conf10_text;
  fitz_open := fun _ =>
    Ok [Ok {| page_text := py "Private pilot training"; page_confidences := [90]%Z |}];
  pdf_elapsed := 1;
  utils_import_error := py "No module named 'pipelines.utils'"
|}.


Unset Implicit Arguments.

(* ================================================================== *)
(** * Numbers                                                          *)
(* ================================================================== *)

Lemma Qltb_true a b : Qltb a b = true <-> (a < b)%Q.
Proof.
  unfold Qltb. rewrite negb_true_iff.
  split; intro Hx.
  - apply Qnot_le_lt. intro Hle. apply Qle_bool_iff in Hle. congruence.
  - destruct (Qle_bool b a) eqn:E; [|reflexivity].
    apply Qle_bool_iff in E. exfalso. apply (Qlt_not_le _ _ Hx E).
Qed.

Lemma Qltb_false a b : Qltb a b = false <-> (b <= a)%Q.
Proof.
  unfold Qltb. rewrite negb_false_iff. apply Qle_bool_iff.
Qed.

Lemma py_max_Qmax a b : (py_max a b == Qmax a b)%Q.
Proof.
  unfold py_max. destruct (Qltb a b) eqn:E.
  - apply Qltb_true in E. symmetry. apply Q.max_r. apply Qlt_le_weak, E.
  - apply Qltb_false in E. symmetry. apply Q.max_l. exact E.
Qed.

Lemma py_min_Qmin a b : (py_min a b == Qmin a b)%Q.
Proof.
  unfold py_min. destruct (Qltb b a) eqn:E.
  - apply Qltb_true in E. symmetry. apply Q.min_r. apply Qlt_le_weak, E.
  - apply Qltb_false in E. symmetry. apply Q.min_l. exact E.
Qed.

Lemma py_max_cases a b : (a < b /\ py_max a b = b)%Q \/ (b <= a /\ py_max a b = a)%Q.
Proof.
  unfold py_max. destruct (Qltb a b) eqn:E.
  - left. split; [apply Qltb_true, E | reflexivity].
  - right. split; [apply Qltb_false, E | reflexivity].
Qed.

Lemma py_min_cases a b : (b < a /\ py_min a b = b)%Q \/ (a <= b /\ py_min a b = a)%Q.
Proof.
  unfold py_min. destruct (Qltb b a) eqn:E.
  - left. split; [apply Qltb_true, E | reflexivity].
  - right. split; [apply Qltb_false, E | reflexivity].
Qed.


Lemma truediv_nonneg a b : (0 <= a)%Z -> (0 < b)%Z -> (0 <= truediv a b)%Q.
Proof.
  intros Ha Hb. unfold truediv.
  apply Qle_shift_div_l.
  - change 0%Q with (inject_Z 0). rewrite <- Zlt_Qlt. exact Hb.
  - rewrite Qmult_0_l. change 0%Q with (inject_Z 0). rewrite <- Zle_Qle. exact Ha.
Qed.

Lemma truediv_le_1 a b : (a <= b)%Z -> (0 < b)%Z -> (truediv a b <= 1)%Q.
Proof.
  intros Ha Hb. unfold truediv.
  apply Qle_shift_div_r.
  - change 0%Q with (inject_Z 0). rewrite <- Zlt_Qlt. exact Hb.
  - rewrite Qmult_1_l. rewrite <- Zle_Qle. exact Ha.
Qed.

Lemma py_max_0_nonneg x : (0 <= py_max 0 x)%Q.
Proof.
  destruct (py_max_cases 0 x) as [[A ->]|[A ->]]; lra.
Qed.

Section Metrics.
Context `{Unicode}.

Lemma sum_len_nonneg (ws : list pystr) : (0 <= HTMLCleaner.sum_len ws)%Z.
Proof.
  unfold HTMLCleaner.sum_len, Str.len.
  induction ws as [|w ws IH]; simpl; lia.
Qed.

(** C8.  The metrics [_calculate_quality_metrics] computes for any text:
    when [total_words] is 0, [language_confidence] and [avg_word_length]
    are 0; and none of [total_chars], [total_words], [avg_word_length],
    [readability_score], [language_confidence] is negative. *)
Theorem quality_metrics_invariant (text : pystr) :
  let m := HTMLCleaner._calculate_quality_metrics text in
  (total_words m = 0%Z ->
   language_confidence m = 0%Q /\ avg_word_length m = 0%Q)
  /\ (0 <= total_chars m)%Z
  /\ (0 <= total_words m)%Z
  /\ (0 <= avg_word_length m)%Q
  /\ (0 <= readability_score m)%Q
  /\ (0 <= language_confidence m)%Q.
Proof.
  unfold HTMLCleaner._calculate_quality_metrics.
  destruct (nonempty text); simpl.
  2:{ refine (conj _ (conj _ (conj _ (conj _ (conj _ _)))));
      try (intros _; split; reflexivity); try apply Z.le_refl; apply Qle_refl. }
  destruct (re.findall HTMLCleaner.re_word text) as [|w ws] eqn:Ew.
  - cbn [total_words total_chars avg_word_length readability_score
         language_confidence length Z.of_nat].
    refine (conj _ (conj _ (conj _ (conj _ (conj _ _))))).
    + intros _; split; reflexivity.
    + unfold Str.len; lia.
    + apply Z.le_refl.
    + apply Qle_refl.
    + apply py_max_0_nonneg.
    + apply Qle_refl.
  - cbn [total_words total_chars avg_word_length readability_score
         language_confidence].
    split; [intro Hz; exfalso; simpl in Hz; lia|].
    split; [unfold Str.len; lia|].
    split; [lia|].
    split; [apply truediv_nonneg; [apply sum_len_nonneg | simpl; lia]|].
    split; [apply py_max_0_nonneg|].
    apply truediv_nonneg; [lia | simpl; lia].
Qed.

Lemma metrics_language_bounds (text : pystr) :
  let m := HTMLCleaner._calculate_quality_metrics text in
  (0 <= total_words m)%Z
  /\ (0 <= language_confidence m)%Q /\ (language_confidence m <= 1)%Q.
Proof.
  unfold HTMLCleaner._calculate_quality_metrics.
  destruct (nonempty text); cbn [negb]; cbv zeta;
    cbn [total_words language_confidence TextQualityMetrics_default].
  2:{ split; [apply Z.le_refl|]. split; [apply Qle_refl | discriminate]. }
  destruct (re.findall HTMLCleaner.re_word text) as [|w ws] eqn:Ew.
  - split; [apply Z.le_refl|]. split; [apply Qle_refl | discriminate].
  - split; [lia|]. split.
    + apply truediv_nonneg; [lia | simpl; lia].
    + apply truediv_le_1; [|simpl; lia]. apply inj_le. apply filter_length_le.
Qed.

End Metrics.

Lemma get_quality_score_range (m : TextQualityMetrics) :
  (0 <= total_words m)%Z ->
  (0 <= language_confidence m)%Q -> (language_confidence m <= 1)%Q ->
  (0 <= TextQualityChecker.get_quality_score m)%Q
  /\ (TextQualityChecker.get_quality_score m <= 100)%Q.
Proof.
  unfold TextQualityChecker.get_quality_score, truediv.
  intros Hw Hl0 Hl1.
  destruct (Z.eqb (total_words m) 0); [split; [apply Qle_refl | discriminate]|].
  assert (Hq : (0 <= inject_Z (total_words m) / inject_Z 2)%Q).
  { apply Qle_shift_div_l; [reflexivity|]. rewrite Qmult_0_l.
    change 0%Q with (inject_Z 0). rewrite <- Zle_Qle. exact Hw. }
  destruct (py_min_cases 100 (inject_Z (total_words m) / inject_Z 2)) as [[A ->]|[A ->]];
  destruct (py_min_cases 100 (readability_score m)) as [[B ->]|[B ->]];
  match goal with |- context [py_max 0 ?x] =>
    destruct (py_max_cases 0 x) as [[C ->]|[C ->]] end;
  split; lra.
Qed.

(** C4, amended.  Away from [total_words = 0] the score is the weighted
    blend 0.4 * min(100, total_words / 2) + 0.3 * clamp(readability_score,
    0, 100) + 0.3 * language_confidence * 100; at [total_words = 0] the
    guard of [get_quality_score] returns 0 whatever the other fields hold.
    The score lies in [0, 100] when [total_words] is not negative and
    [language_confidence] lies in [0, 1], which holds of every value that
    [_calculate_quality_metrics] computes. *)
Theorem get_quality_score_formula `{Unicode} (m : TextQualityMetrics) (text : pystr) :
  (TextQualityChecker.get_quality_score m
   == if Z.eqb (total_words m) 0 then 0 else quality_score_spec m)%Q
  /\ ((0 <= total_words m)%Z ->
      (0 <= language_confidence m)%Q -> (language_confidence m <= 1)%Q ->
      (0 <= TextQualityChecker.get_quality_score m)%Q
      /\ (TextQualityChecker.get_quality_score m <= 100)%Q)
  /\ (0 <= TextQualityChecker.get_quality_score
             (HTMLCleaner._calculate_quality_metrics text))%Q
  /\ (TextQualityChecker.get_quality_score
        (HTMLCleaner._calculate_quality_metrics text) <= 100)%Q.
Proof.
  split; [|split].
  - unfold TextQualityChecker.get_quality_score, quality_score_spec, clamp, truediv.
    destruct (Z.eqb (total_words m) 0); [reflexivity|].
    rewrite !py_max_Qmax, !py_min_Qmin. change (inject_Z 2) with 2%Q. ring.
  - apply get_quality_score_range.
  - destruct (metrics_language_bounds text) as (Hw & Hl0 & Hl1).
    apply get_quality_score_range; assumption.
Qed.


(* ================================================================== *)
(** * PDF dates                                                        *)
(* ================================================================== *)

(** C7, amended.  [_parse_pdf_date] is total: it raises on no input.  A
    string [D:YYYYMMDDHHMMSS], whatever follows the fourteen characters,
    is decoded to [YYYY-MM-DD HH:MM:SS], and a string [D:YYYYMMDD] to
    [YYYY-MM-DD 00:00:00].  The result is [None] exactly when the input
    is not a string of at least ten characters that starts with [D:]: no
    character after the prefix is checked to be a digit, and a date held
    as [bytes] gives [None]. *)
Theorem parse_pdf_date_spec :
  (forall y1 y2 y3 y4 m1 m2 d1 d2 h1 h2 n1 n2 s1 s2 (rest : pystr),
      PDFTextExtractor._parse_pdf_date
        (VStr (py "D:" ++ [y1; y2; y3; y4; m1; m2; d1; d2; h1; h2; n1; n2; s1; s2]
                  ++ rest))
      = Some [y1; y2; y3; y4; dash; m1; m2; dash; d1; d2; sp;
              h1; h2; colon; n1; n2; colon; s1; s2])
  /\ (forall y1 y2 y3 y4 m1 m2 d1 d2,
         PDFTextExtractor._parse_pdf_date
           (VStr (py "D:" ++ [y1; y2; y3; y4; m1; m2; d1; d2]))
         = Some ([y1; y2; y3; y4; dash; m1; m2; dash; d1; d2; sp] ++ py "00:00:00"))
  /\ (forall v : pyval,
         PDFTextExtractor._parse_pdf_date v <> None
         <-> exists s, v = VStr s /\ Str.startswith s (py "D:") = true
                       /\ 10 <= length s).
Proof.
  split; [|split].
  - intros. reflexivity.
  - intros. reflexivity.
  - intro v. unfold PDFTextExtractor._parse_pdf_date. split.
    + destruct v as [|s|b|z|b|r]; try (destruct (negb _); congruence).
      destruct (negb (truthy (VStr s))); [congruence|].
      destruct (Str.startswith s (py "D:")) eqn:Es; [|congruence].
      destruct (8 <=? length (Str.slice s 2 16)) eqn:El; [|congruence].
      intros _. exists s. split; [reflexivity|]. split; [exact Es|].
      apply Nat.leb_le in El. unfold Str.slice in El.
      rewrite length_firstn, length_skipn in El. lia.
    + intros (s & -> & Es & Hl).
      assert (Ht : truthy (VStr s) = true).
      { destruct s; [simpl in Hl; lia|]. unfold truthy, Str.eqb.
        destruct (list_eq_dec N.eq_dec (c :: s) []); [discriminate|reflexivity]. }
      rewrite Ht, Es. cbn [negb].
      replace (8 <=? length (Str.slice s 2 16)) with true; [discriminate|].
      symmetry. apply Nat.leb_le. unfold Str.slice.
      rewrite length_firstn, length_skipn. lia.
Qed.

(** C7, the claim as stated fails.  The string [D:abcdefgh] is not a
    well-formed date and is decoded to [abcd-ef-gh 00:00:00], not to
    [None]. *)
Lemma parse_pdf_date_malformed :
  wellformed_pdf_date (py "D:abcdefgh") = false
  /\ PDFTextExtractor._parse_pdf_date (VStr (py "D:abcdefgh"))
     = Some (py "abcd-ef-gh 00:00:00").
Proof. split; reflexivity. Qed.

(* ================================================================== *)
(** * The orchestrator                                                 *)
(* ================================================================== *)

Section Pipeline.
Context `{Unicode}.
Variable sha256_hexdigest : bytes -> pystr.

Import DocumentExtractionResult.

Lemma process_html_document_id env content source_name url id :
  document_id (TextExtractionPipeline._process_html_document env content
                 source_name url id) = id.
Proof.
  unfold TextExtractionPipeline._process_html_document.
  destruct (negb _); reflexivity.
Qed.

Lemma process_pdf_document_id env content source_name url id filename :
  document_id (TextExtractionPipeline._process_pdf_document env content
                 source_name url id filename) = id.
Proof. reflexivity. Qed.

Lemma try_body_document_id env content source_name url id dt filename r :
  TextExtractionPipeline.try_body env content source_name url id dt filename = Ok r ->
  document_id r = id.
Proof.
  unfold TextExtractionPipeline.try_body.
  destruct (Str.eqb dt (py "html")); [|destruct (Str.eqb dt (py "pdf"))];
    cbn [bind]; try discriminate;
    match goal with |- context [save_result env ?x] =>
      destruct (save_result env x) end; cbn [bind]; try discriminate;
    intro E; injection E as <-; cbn [set_processing_time document_id].
  - apply process_html_document_id.
  - apply process_pdf_document_id.
Qed.

Lemma process_document_id env content source_name url dt filename h :
  TextExtractionPipeline._generate_content_hash sha256_hexdigest content = Ok h ->
  exists r,
    TextExtractionPipeline.process_document sha256_hexdigest env content
      source_name url dt filename = Ok r
    /\ document_id r = source_name ++ py "_" ++ firstn 12 h.
Proof.
  intro Hh. unfold TextExtractionPipeline.process_document.
  rewrite Hh. cbn [bind]. eexists. split; [reflexivity|].
  match goal with |- context [try_except ?b _] => destruct b as [r|e] eqn:E end;
    cbn [try_except].
  - apply try_body_document_id in E. exact E.
  - reflexivity.
Qed.

(** C9.  Two calls of [process_document] with the same content and the
    same [source_name], whatever the URL, the requested type, the file
    name, the clock, the file system and the libraries of each call:
    when the content can be hashed both return a record, and the two
    [document_id]s are equal to [source_name], an underscore and the
    first twelve characters of the SHA-256 digest of the content; when
    it cannot (a string with a lone surrogate) both raise. *)
Theorem document_id_deterministic
        (env1 env2 : PipelineEnv) (content : content_t) (source_name : pystr)
        (url1 url2 : pystr) (dt1 dt2 filename1 filename2 : option pystr) :
  match TextExtractionPipeline._generate_content_hash sha256_hexdigest content with
  | Ok h =>
      exists r1 r2,
        TextExtractionPipeline.process_document sha256_hexdigest env1 content
          source_name url1 dt1 filename1 = Ok r1
        /\ TextExtractionPipeline.process_document sha256_hexdigest env2 content
             source_name url2 dt2 filename2 = Ok r2
        /\ document_id r1 = source_name ++ py "_" ++ firstn 12 h
        /\ document_id r2 = document_id r1
  | Raise e =>
      TextExtractionPipeline.process_document sha256_hexdigest env1 content
        source_name url1 dt1 filename1 = Raise e
      /\ TextExtractionPipeline.process_document sha256_hexdigest env2 content
           source_name url2 dt2 filename2 = Raise e
  end.
Proof.
  destruct (TextExtractionPipeline._generate_content_hash sha256_hexdigest content)
    as [h|e] eqn:Hh.
  - destruct (process_document_id env1 content source_name url1 dt1 filename1 h Hh)
      as (r1 & E1 & I1).
    destruct (process_document_id env2 content source_name url2 dt2 filename2 h Hh)
      as (r2 & E2 & I2).
    exists r1, r2. repeat split; try assumption. congruence.
  - unfold TextExtractionPipeline.process_document. rewrite Hh. split; reflexivity.
Qed.

(** C1, amended.  Once the content hash is computed, [process_document]
    returns a record and does not raise.  When an exception escapes the
    dispatch (the statements under [try:]), as for an unsupported
    document type, the record has empty [extracted_text],
    [confidence_score] 0, [extraction_method] the empty string of the
    constructor's default, and [errors] the one-element list holding
    [Document processing failed: ] followed by the message.  When HTML
    cleaning fails the record has empty [extracted_text],
    [confidence_score] 0 and [extraction_method] the empty string. *)
Theorem process_document_failure_record
        (env : PipelineEnv) (content : content_t) (source_name url : pystr)
        (document_type filename : option pystr) (h : pystr) :
  TextExtractionPipeline._generate_content_hash sha256_hexdigest content = Ok h ->
  let id := source_name ++ py "_" ++ firstn 12 h in
  let dt := TextExtractionPipeline.resolve_document_type document_type content filename in
  exists r,
    TextExtractionPipeline.process_document sha256_hexdigest env content
      source_name url document_type filename = Ok r
    /\ (forall e,
           TextExtractionPipeline.try_body env content source_name url id dt filename
           = Raise e ->
           extracted_text r = [] /\ confidence_score r = 0%Q
           /\ extraction_method r = []
           /\ errors r = Errors_list [py "Document processing failed: " ++ e])
    /\ (Str.eqb dt (py "html") = false -> Str.eqb dt (py "pdf") = false ->
        TextExtractionPipeline.try_body env content source_name url id dt filename
        = Raise (py "Unsupported document type: " ++ dt))
    /\ (forall e,
           Str.eqb dt (py "html") = true -> bs4_parse env content url = Raise e ->
           extracted_text r = [] /\ confidence_score r = 0%Q
           /\ extraction_method r = []).
Proof.
  intros Hh id dt. unfold TextExtractionPipeline.process_document.
  rewrite Hh. cbn [bind]. fold id. fold dt.
  eexists. split; [reflexivity|]. split; [|split].
  - intros e E. rewrite E. cbn [try_except].
    unfold TextExtractionPipeline.error_result, __init__; cbn.
    repeat split; reflexivity.
  - intros E1 E2. unfold TextExtractionPipeline.try_body. rewrite E1, E2.
    reflexivity.
  - intros e E1 Ep.
    unfold TextExtractionPipeline.try_body. rewrite E1. cbn [bind].
    unfold TextExtractionPipeline._process_html_document, HTMLCleaner.clean_html.
    rewrite Ep. cbn [bind try_except cr_extraction_success negb].
    match goal with |- context [save_result env ?x] =>
      destruct (save_result env x) end; cbn [bind try_except];
      repeat split; reflexivity.
Qed.

End Pipeline.

(* ================================================================== *)
(** * The PDF extractor: recovery and the OCR gate                     *)
(* ================================================================== *)

Section PdfExtractor.
Context `{Unicode}.
Variable env : PdfEnv.

Import PDFTextExtractor.

Lemma extract_metadata_log content :
  existsb is_info (snd (_extract_metadata env content)) = false.
Proof.
  unfold _extract_metadata.
  destruct (pdfminer_parse env content) as [d|e]; cbn [bind try_except]; [|reflexivity].
  destruct (doc_page_count d); reflexivity.
Qed.

Lemma extract_text_direct_log content :
  existsb is_info (snd (_extract_text_direct env content)) = false.
Proof.
  unfold _extract_text_direct.
  destruct (pdfminer_extract_text env content); reflexivity.
Qed.

Lemma extract_text_ocr_log content :
  existsb is_info (snd (_extract_text_ocr env content)) = false.
Proof.
  unfold _extract_text_ocr.
  destruct (OCR_AVAILABLE env); cbn [negb]; [|reflexivity].
  destruct (fitz_open env content) as [d|e]; cbn [bind try_except]; [|reflexivity].
  destruct (ocr_loop (firstn 50 d) [] 0%Q 0%Z) as [[[a b] c]|e];
    cbn [bind try_except]; reflexivity.
Qed.

(** [_merge_texts] returns only when one of the two texts is empty. *)
Lemma merge_texts_cases (direct_text ocr_text : pystr) :
  _merge_texts env direct_text ocr_text =
  if negb (nonempty direct_text) then Ok ocr_text
  else if negb (nonempty ocr_text) then Ok direct_text
  else Raise (utils_import_error env).
Proof.
  unfold _merge_texts.
  destruct (nonempty direct_text); [|reflexivity].
  destruct (nonempty ocr_text); reflexivity.
Qed.

Lemma select_extraction_called self direct_text direct_confidence ocr :
  fst (select_extraction env self direct_text direct_confidence ocr)
  = ocr_condition self direct_text direct_confidence.
Proof.
  unfold select_extraction.
  destruct (ocr_condition self direct_text direct_confidence); [|reflexivity].
  destruct ocr. reflexivity.
Qed.

(** The only exception the selection can raise is the one of the import. *)
Lemma select_extraction_raise self direct_text direct_confidence ocr e :
  snd (select_extraction env self direct_text direct_confidence ocr) = Raise e ->
  e = utils_import_error env.
Proof.
  unfold select_extraction.
  destruct (ocr_condition self direct_text direct_confidence); [|discriminate].
  destruct ocr as [ot oc]. cbn [snd].
  destruct (Qltb _ _); [discriminate|].
  destruct (nonempty ot && _); [|discriminate].
  rewrite merge_texts_cases.
  destruct (negb (nonempty direct_text)); [discriminate|].
  destruct (negb (nonempty ot)); [discriminate|].
  cbn [bind]. congruence.
Qed.

(** The record of the [except] block of [extract_from_pdf]. *)
Lemma extract_from_pdf_unfold self content filename :
  let md := _extract_metadata env content in
  let d := _extract_text_direct env content in
  let o := _extract_text_ocr env content in
  let sel := select_extraction env self (fst (fst d)) (snd (fst d)) (fst o) in
  let error_msg := py "PDF extraction failed: " ++ utils_import_error env in
  extract_from_pdf env self content filename =
  (PDFExtractionResult.mk [] PDFMetadata.default TextQualityMetrics_default
     (py "failed") 0 (pdf_elapsed env) [error_msg],
   (snd md ++ snd d
    ++ (if fst sel then Info_trying_ocr (snd (fst d)) :: snd o else []))
   ++ [Error_message error_msg]).
Proof.
  cbv zeta. unfold extract_from_pdf.
  destruct (_extract_metadata env content) as [m l1].
  destruct (_extract_text_direct env content) as [[dt dc] l2].
  destruct (_extract_text_ocr env content) as [ocr l3].
  cbn [fst snd].
  pose proof (select_extraction_raise self dt dc ocr) as Hr.
  destruct (select_extraction env self dt dc ocr) as [called [[[method text] conf]|e]];
    cbn [fst snd bind] in *.
  - reflexivity.
  - rewrite (Hr e eq_refl). reflexivity.
Qed.

Lemma ocr_attempted_iff self content filename :
  ocr_attempted (snd (extract_from_pdf env self content filename))
  = fst (select_extraction env self
           (fst (fst (_extract_text_direct env content)))
           (snd (fst (_extract_text_direct env content)))
           (fst (_extract_text_ocr env content))).
Proof.
  rewrite extract_from_pdf_unfold. cbv zeta. cbn [snd].
  unfold ocr_attempted. fold is_info.
  rewrite !existsb_app, extract_metadata_log, extract_text_direct_log.
  cbn [existsb is_info orb]. rewrite orb_false_r.
  destruct (fst (select_extraction _ _ _ _ _)); reflexivity.
Qed.

Lemma ocr_condition_iff self direct_text direct_confidence :
  ocr_condition self direct_text direct_confidence = true <->
  ocr_fallback self = true
  /\ (direct_confidence < ocr_min_confidence self)%Q
  /\ (Str.len (Str.strip direct_text) < 1000)%Z.
Proof.
  unfold ocr_condition. rewrite !andb_true_iff, Qltb_true, Z.ltb_lt. tauto.
Qed.

(** C2, amended.  [extract_from_pdf] returns a record on every input.
    A failure of metadata extraction leaves the default metadata, a
    failure of direct extraction the empty text with confidence 0, and
    so does a failure of OCR; each such failure is logged as a warning
    and gets no entry of its own in [errors]: the list holds at most
    one entry, whatever the number of failed steps, and an entry is the
    message the [except] block logs as an error, in a record of method
    [failed]. *)
Theorem extract_from_pdf_recovers (self : self_t) (content : content_t)
        (filename : option pystr) :
  let r := fst (extract_from_pdf env self content filename) in
  let log := snd (extract_from_pdf env self content filename) in
  (length (PDFExtractionResult.errors r) <= 1)%nat
  /\ (forall m,
         In m (PDFExtractionResult.errors r) ->
         In (Error_message m) log
         /\ PDFExtractionResult.extraction_method r = py "failed")
  /\ (forall e,
         (document <- pdfminer_parse env content ;; doc_page_count document) = Raise e ->
         _extract_metadata env content = (PDFMetadata.default, [Warning_metadata e])
         /\ PDFExtractionResult.metadata r = PDFMetadata.default
         /\ In (Warning_metadata e) log)
  /\ (forall e,
         pdfminer_extract_text env content = Raise e ->
         _extract_text_direct env content = (([], 0%Q), [Warning_direct e])
         /\ In (Warning_direct e) log)
  /\ (forall e,
         OCR_AVAILABLE env = true ->
         (pdf_document <- fitz_open env content ;;
          ocr_loop (firstn 50 pdf_document) [] 0%Q 0%Z) = Raise e ->
         _extract_text_ocr env content = (([], 0%Q), [Warning_ocr e])
         /\ (ocr_attempted log = true -> In (Warning_ocr e) log)).
Proof.
  cbv zeta.
  assert (Hmd : forall e,
             (document <- pdfminer_parse env content ;; doc_page_count document) = Raise e ->
             _extract_metadata env content = (PDFMetadata.default, [Warning_metadata e])).
  { intros e E. unfold _extract_metadata.
    destruct (pdfminer_parse env content) as [d|e']; cbn [bind] in *.
    - rewrite E. reflexivity.
    - injection E as ->. reflexivity. }
  assert (Hd : forall e,
             pdfminer_extract_text env content = Raise e ->
             _extract_text_direct env content = (([], 0%Q), [Warning_direct e])).
  { intros e E. unfold _extract_text_direct. rewrite E. reflexivity. }
  assert (Ho : forall e,
             OCR_AVAILABLE env = true ->
             (pdf_document <- fitz_open env content ;;
              ocr_loop (firstn 50 pdf_document) [] 0%Q 0%Z) = Raise e ->
             _extract_text_ocr env content = (([], 0%Q), [Warning_ocr e])).
  { intros e Ha E. unfold _extract_text_ocr. rewrite Ha. cbn [negb].
    destruct (fitz_open env content) as [d|e']; cbn [bind] in *.
    - rewrite E. reflexivity.
    - injection E as ->. reflexivity. }
  split; [|split; [|split; [|split]]].
  - rewrite extract_from_pdf_unfold. cbn. apply le_n.
  - intros m. rewrite extract_from_pdf_unfold. cbv zeta.
    cbn [fst snd PDFExtractionResult.errors PDFExtractionResult.extraction_method].
    intros [<- | []]. split; [|reflexivity].
    apply in_or_app. right. left. reflexivity.
  - intros e E. split; [exact (Hmd e E)|].
    rewrite extract_from_pdf_unfold. cbv zeta. rewrite (Hmd e E).
    cbn [fst snd PDFExtractionResult.metadata].
    split; [reflexivity|]. apply in_or_app. left. left. reflexivity.
  - intros e E. split; [exact (Hd e E)|].
    rewrite extract_from_pdf_unfold. cbv zeta. rewrite (Hd e E). cbn [fst snd].
    apply in_or_app. left. apply in_or_app. right. left. reflexivity.
  - intros e Ha E. split; [exact (Ho e Ha E)|].
    rewrite ocr_attempted_iff. rewrite extract_from_pdf_unfold. cbv zeta.
    intros ->. cbn [snd]. rewrite (Ho e Ha E). cbn [snd].
    apply in_or_app. left. apply in_or_app. right. apply in_or_app. right.
    right. left. reflexivity.
Qed.

End PdfExtractor.

(* ================================================================== *)
(** * Strings: trimming, splitting, joining                            *)
(* ================================================================== *)

Section StrFacts.
Variable p : char -> bool.

Lemma lstrip_by_split (s : pystr) :
  exists a, s = a ++ Str.lstrip_by p s /\ forallb p a = true.
Proof.
  induction s as [|c s IH]; simpl.
  - exists []. split; reflexivity.
  - destruct (p c) eqn:E.
    + destruct IH as (a & Ha & Hp). exists (c :: a). simpl.
      rewrite E, Hp. split; [f_equal; exact Ha | reflexivity].
    + exists []. split; reflexivity.
Qed.

Lemma rstrip_by_split (s : pystr) :
  exists b, s = Str.rstrip_by p s ++ b /\ forallb p b = true.
Proof.
  induction s as [|c s IH]; simpl.
  - exists []. split; reflexivity.
  - destruct IH as (b & Hb & Hp).
    destruct (Str.rstrip_by p s) as [|d r] eqn:E.
    + simpl in Hb. subst b. destruct (p c) eqn:Ec.
      * exists (c :: s). simpl. rewrite Ec, Hp. split; reflexivity.
      * exists s. split; [reflexivity | exact Hp].
    + exists b. split; [simpl; f_equal; exact Hb | exact Hp].
Qed.

Lemma lstrip_by_head (s : pystr) :
  match Str.lstrip_by p s with
  | [] => True
  | c :: _ => p c = false
  end.
Proof.
  induction s as [|c s IH]; simpl; [exact I|].
  destruct (p c) eqn:E; [exact IH | exact E].
Qed.

Lemma rstrip_by_last (s : pystr) (d : char) :
  match Str.rstrip_by p s with
  | [] => True
  | _ :: _ => p (last (Str.rstrip_by p s) d) = false
  end.
Proof.
  induction s as [|c s IH]; simpl; [exact I|].
  destruct (Str.rstrip_by p s) as [|e r] eqn:E.
  - destruct (p c) eqn:Ec; [exact I | simpl; exact Ec].
  - exact IH.
Qed.

Lemma rstrip_by_hd (s : pystr) :
  match Str.rstrip_by p s with
  | [] => True
  | c :: _ => hd_error s = Some c
  end.
Proof.
  destruct s as [|c s]; simpl; [exact I|].
  destruct (Str.rstrip_by p s); [destruct (p c)|]; simpl; auto.
Qed.

Lemma rstrip_by_fix (s : pystr) (d : char) :
  s <> [] -> p (last s d) = false -> Str.rstrip_by p s = s.
Proof.
  induction s as [|c s IH]; [congruence|].
  intros _ Hl. destruct s as [|e s].
  - simpl in *. rewrite Hl. reflexivity.
  - change (Str.rstrip_by p (c :: e :: s))
      with (match Str.rstrip_by p (e :: s) with
            | [] => if p c then [] else [c]
            | r => c :: r
            end).
    rewrite IH; [reflexivity | discriminate | exact Hl].
Qed.

Lemma strip_by_trimmed (s : pystr) :
  trimmed p (Str.rstrip_by p (Str.lstrip_by p s)) = true.
Proof.
  pose proof (lstrip_by_head s) as Hh.
  pose proof (rstrip_by_hd (Str.lstrip_by p s)) as Hd.
  destruct (Str.rstrip_by p (Str.lstrip_by p s)) as [|c r] eqn:E; [reflexivity|].
  pose proof (rstrip_by_last (Str.lstrip_by p s) c) as Hl. rewrite E in Hl.
  unfold trimmed. rewrite Hl.
  destruct (Str.lstrip_by p s) as [|c' t]; [discriminate|].
  simpl in Hd. injection Hd as ->. rewrite Hh. reflexivity.
Qed.

Lemma strip_by_fix (s : pystr) :
  trimmed p s = true -> Str.rstrip_by p (Str.lstrip_by p s) = s.
Proof.
  destruct s as [|c s]; [reflexivity|].
  unfold trimmed. rewrite andb_true_iff, !negb_true_iff. intros [Hc Hl].
  cbn [Str.lstrip_by]. rewrite Hc.
  apply rstrip_by_fix with (d := c); [discriminate | exact Hl].
Qed.

Lemma strip_by_substring (s : pystr) :
  exists a b, s = a ++ Str.rstrip_by p (Str.lstrip_by p s) ++ b
              /\ forallb p a = true /\ forallb p b = true.
Proof.
  destruct (lstrip_by_split s) as (a & Ha & Hpa).
  destruct (rstrip_by_split (Str.lstrip_by p s)) as (b & Hb & Hpb).
  exists a, b. split; [|split; assumption].
  rewrite <- Hb. exact Ha.
Qed.

End StrFacts.

Lemma strip_substring `{Unicode} (s : pystr) :
  exists a b, s = a ++ Str.strip s ++ b
              /\ forallb isspace a = true /\ forallb isspace b = true.
Proof. apply strip_by_substring. Qed.

Lemma strip_length_le `{Unicode} (s : pystr) :
  (Str.len (Str.strip s) <= Str.len s)%Z.
Proof.
  destruct (strip_substring s) as (a & b & E & _).
  unfold Str.len. rewrite E at 2. rewrite !length_app. lia.
Qed.

(** ** [split] and [join] *)

Lemma split_nonempty (d : char) (s : pystr) : Str.split d s <> [].
Proof.
  destruct s as [|c s]; simpl; [discriminate|].
  destruct (N.eqb c d); [discriminate|].
  destruct (Str.split d s); discriminate.
Qed.

Lemma join_cons (sep l : pystr) (ls : list pystr) :
  ls <> [] -> Str.join sep (l :: ls) = l ++ sep ++ Str.join sep ls.
Proof. destruct ls; [congruence | reflexivity]. Qed.

Lemma join_split (d : char) (s : pystr) : Str.join [d] (Str.split d s) = s.
Proof.
  induction s as [|c s IH]; [reflexivity|].
  simpl Str.split. destruct (N.eqb c d) eqn:E.
  - apply N.eqb_eq in E. subst c.
    rewrite join_cons by apply split_nonempty. simpl. f_equal. exact IH.
  - pose proof (split_nonempty d s) as Hn.
    destruct (Str.split d s) as [|l ls]; [congruence|].
    destruct ls as [|l' ls].
    + simpl in *. f_equal. exact IH.
    + rewrite join_cons in * by discriminate. simpl. f_equal. exact IH.
Qed.

Lemma split_no_sep (d : char) (s : pystr) :
  Forall (fun l => ~ In d l) (Str.split d s).
Proof.
  induction s as [|c s IH]; simpl.
  - constructor; [intros [] | constructor].
  - destruct (N.eqb c d) eqn:E.
    + constructor; [intros [] | exact IH].
    + destruct (Str.split d s) as [|l ls]; [constructor; [|constructor]|].
      * intros [->|[]]. rewrite N.eqb_refl in E. discriminate.
      * inversion IH as [|? ? Hl Hls]; subst. constructor; [|exact Hls].
        intros [->|Hin]; [rewrite N.eqb_refl in E; discriminate | exact (Hl Hin)].
Qed.

Lemma split_without_sep (d : char) (l : pystr) :
  ~ In d l -> Str.split d l = [l].
Proof.
  induction l as [|c l IH]; [reflexivity|].
  intro Hn. simpl. destruct (N.eqb c d) eqn:E.
  - apply N.eqb_eq in E. subst. exfalso. apply Hn. left. reflexivity.
  - rewrite IH; [reflexivity|]. intro Hin. apply Hn. right. exact Hin.
Qed.

Lemma split_app_sep (d : char) (l t : pystr) :
  ~ In d l -> Str.split d (l ++ d :: t) = l :: Str.split d t.
Proof.
  induction l as [|c l IH]; intro Hn.
  - simpl. rewrite N.eqb_refl. reflexivity.
  - simpl. destruct (N.eqb c d) eqn:E.
    + apply N.eqb_eq in E. subst. exfalso. apply Hn. left. reflexivity.
    + rewrite IH; [reflexivity|]. intro Hin. apply Hn. right. exact Hin.
Qed.

Lemma split_join (d : char) (ls : list pystr) :
  ls <> [] -> Forall (fun l => ~ In d l) ls ->
  Str.split d (Str.join [d] ls) = ls.
Proof.
  induction ls as [|l ls IH]; [congruence|].
  intros _ Hf. inversion Hf as [|? ? Hl Hls]; subst.
  destruct ls as [|l' ls].
  - simpl. apply split_without_sep. exact Hl.
  - rewrite join_cons by discriminate. simpl app.
    rewrite split_app_sep by exact Hl. f_equal.
    apply IH; [discriminate | exact Hls].
Qed.

Lemma split_substring (d : char) (s l : pystr) :
  In l (Str.split d s) -> exists a c, s = a ++ l ++ c.
Proof.
  revert l. induction s as [|x s IH]; intros l Hin.
  - simpl in Hin. destruct Hin as [<-|[]]. exists [], []. reflexivity.
  - simpl in Hin. destruct (N.eqb x d) eqn:E.
    + destruct Hin as [<-|Hin].
      * exists [], (x :: s). reflexivity.
      * destruct (IH l Hin) as (a & c & ->). exists (x :: a), c. reflexivity.
    + destruct (Str.split d s) as [|l0 ls] eqn:Es.
      * destruct Hin as [<-|[]]. exists [], s. reflexivity.
      * destruct Hin as [<-|Hin].
        -- (* the first line is a prefix *)
           assert (Hp : exists c', s = l0 ++ c').
           { clear - Es. revert l0 ls Es. induction s as [|y s IHs]; intros l0 ls Es.
             - simpl in Es. injection Es as <- <-. exists []. reflexivity.
             - simpl in Es. destruct (N.eqb y d).
               + injection Es as <- <-. exists (y :: s). reflexivity.
               + destruct (Str.split d s) as [|l1 ls1] eqn:E1.
                 * injection Es as <- <-. exists s. reflexivity.
                 * injection Es as <- <-.
                   destruct (IHs l1 ls1 eq_refl) as (c' & ->).
                   exists c'. reflexivity. }
           destruct Hp as (c' & ->). exists [], c'. reflexivity.
        -- destruct (IH l (or_intror Hin)) as (a & c & ->).
           exists (x :: a), c. reflexivity.
Qed.

(* ================================================================== *)
(** * The matcher and the scanner                                      *)
(* ================================================================== *)

Lemma star_k_inv p k prev s r :
  re.star_k p k prev s = Some r ->
  exists m s1 prev', s = m ++ s1 /\ forallb p m = true /\ k prev' s1 = Some r.
Proof.
  revert prev. induction s as [|c s IH]; intros prev E; simpl in E.
  - exists [], [], prev. repeat split. exact E.
  - destruct (p c) eqn:Ec.
    + destruct (re.star_k p k (Some c) s) as [r'|] eqn:Es.
      * injection E as ->.
        destruct (IH _ Es) as (m & s1 & prev' & -> & Hm & Hk).
        exists (c :: m), s1, prev'. simpl. rewrite Ec, Hm. repeat split. exact Hk.
      * exists [], (c :: s), prev. repeat split. exact E.
    + exists [], (c :: s), prev. repeat split. exact E.
Qed.

(** What is left after a match is a suffix of the text. *)
Lemma match_here_suffix pat : forall prev s r,
  re.match_here pat prev s = Some r -> exists m, s = m ++ r.
Proof.
  induction pat as [|it pat IH]; intros prev s r E.
  - simpl in E. injection E as ->. exists []. reflexivity.
  - destruct it as [p|p|p|w|]; simpl in E.
    + destruct s as [|c s]; [discriminate|]. destruct (p c); [|discriminate].
      destruct (IH _ _ _ E) as (m & ->). exists (c :: m). reflexivity.
    + destruct (star_k_inv _ _ _ _ _ E) as (m & s1 & prev' & -> & _ & Hk).
      destruct (IH _ _ _ Hk) as (m' & ->). exists (m ++ m').
      rewrite app_assoc. reflexivity.
    + destruct s as [|c s]; [discriminate|]. destruct (p c); [|discriminate].
      destruct (star_k_inv _ _ _ _ _ E) as (m & s1 & prev' & -> & _ & Hk).
      destruct (IH _ _ _ Hk) as (m' & ->). exists (c :: m ++ m').
      simpl. rewrite app_assoc. reflexivity.
    + destruct (xorb _ _); [|discriminate]. exact (IH _ _ _ E).
    + destruct s as [|c [|c' s]].
      * exact (IH _ _ _ E).
      * destruct (N.eqb c nl); [|discriminate]. exact (IH _ _ _ E).
      * discriminate.
Qed.

Lemma firstn_match (m r : pystr) :
  firstn (length (m ++ r) - length r) (m ++ r) = m.
Proof.
  rewrite length_app. replace (length m + length r - length r) with (length m) by lia.
  rewrite firstn_app, Nat.sub_diag, firstn_all. simpl. apply app_nil_r.
Qed.

(** One step of the scanner, with the match made explicit. *)
Lemma scan_step f pat prev c s :
  re.scan (S f) pat prev (c :: s) =
  match re.match_here pat prev (c :: s) with
  | Some r =>
      match length (c :: s) - length r with
      | O => re.Lit c :: re.scan f pat (Some c) s
      | S n => re.Hit (firstn (S n) (c :: s))
                 :: re.scan f pat (Some (last (firstn (S n) (c :: s)) c)) r
      end
  | None => re.Lit c :: re.scan f pat (Some c) s
  end.
Proof. reflexivity. Qed.

Lemma unscan_lits (s : pystr) : unscan (map re.Lit s) = s.
Proof. induction s as [|c s IH]; simpl; [|rewrite IH]; reflexivity. Qed.

Lemma unscan_hit m gs : unscan (re.Hit m :: gs) = m ++ unscan gs.
Proof. reflexivity. Qed.

Lemma unscan_lit c gs : unscan (re.Lit c :: gs) = c :: unscan gs.
Proof. reflexivity. Qed.

Lemma unscan_scan f pat : forall prev s, unscan (re.scan f pat prev s) = s.
Proof.
  induction f as [|f IH]; intros prev s.
  - destruct s; [reflexivity|]. apply unscan_lits.
  - destruct s as [|c s]; [reflexivity|]. rewrite scan_step.
    destruct (re.match_here pat prev (c :: s)) as [r|] eqn:E.
    + destruct (match_here_suffix _ _ _ _ E) as (m & Hm).
      destruct (length (c :: s) - length r) as [|n] eqn:En.
      * rewrite unscan_lit, IH. reflexivity.
      * rewrite unscan_hit, IH, <- En, Hm, firstn_match. reflexivity.
    + rewrite unscan_lit, IH. reflexivity.
Qed.

(** A scan of a text in which the pattern matches nowhere. *)
Lemma scan_no_match pat (Q : pystr -> Prop) :
  (forall prev t, Q t -> re.match_here pat prev t = None) ->
  (forall c t, Q (c :: t) -> Q t) ->
  forall f prev s, Q s -> re.scan f pat prev s = map re.Lit s.
Proof.
  intros Hnone Htl. induction f as [|f IH]; intros prev s Hs.
  - destruct s; reflexivity.
  - destruct s as [|c s]; [reflexivity|]. rewrite scan_step.
    rewrite (Hnone _ _ Hs). simpl. f_equal. apply IH. exact (Htl _ _ Hs).
Qed.

Lemma sub_no_match pat repl (Q : pystr -> Prop) :
  (forall prev t, Q t -> re.match_here pat prev t = None) ->
  (forall c t, Q (c :: t) -> Q t) ->
  forall s, Q s -> re.sub pat repl s = s.
Proof.
  intros Hnone Htl s Hs. unfold re.sub, re.finditer.
  rewrite (scan_no_match pat Q Hnone Htl _ _ _ Hs).
  induction s as [|c s IH]; [reflexivity|]. simpl. f_equal.
  clear - s. induction s as [|d s IH]; [reflexivity|]. simpl. f_equal. exact IH.
Qed.

(** A property of texts kept by taking a piece of a text and by putting
    the replacement between two texts is kept by [re.sub]. *)
Lemma sub_preserves pat repl (P : pystr -> Prop) :
  (forall a b c, P (a ++ b ++ c) -> P b) ->
  (forall u v, P u -> P v -> P (u ++ repl ++ v)) ->
  forall s, P s -> P (re.sub pat repl s).
Proof.
  intros Hsub Hjoin s Hs. unfold re.sub, re.finditer.
  set (phi := fun g => match g with re.Lit c => [c] | re.Hit _ => repl end).
  enough (G : forall f prev u t, P (u ++ t) -> P (u ++ flat_map phi (re.scan f pat prev t))).
  { apply (G _ _ [] s). exact Hs. }
  induction f as [|f IH]; intros prev u t Ht.
  - destruct t as [|c t]; [exact Ht|].
    replace (flat_map phi (re.scan 0 pat prev (c :: t))) with (c :: t); [exact Ht|].
    simpl. f_equal. clear. induction t as [|d t IH]; [reflexivity|].
    simpl. f_equal. exact IH.
  - destruct t as [|c t]; [exact Ht|]. rewrite scan_step.
    assert (Glit : P (u ++ flat_map phi (re.Lit c :: re.scan f pat (Some c) t))).
    { simpl. change (u ++ c :: ?x) with (u ++ [c] ++ x). rewrite app_assoc.
      apply IH. rewrite <- app_assoc. exact Ht. }
    destruct (re.match_here pat prev (c :: t)) as [r|] eqn:E; [|exact Glit].
    destruct (match_here_suffix _ _ _ _ E) as (m & Hm).
    destruct (length (c :: t) - length r) as [|n] eqn:En; [exact Glit|].
    simpl flat_map. rewrite Hm in Ht.
    apply Hjoin.
    + apply (Hsub [] u (m ++ r)). exact Ht.
    + apply (IH _ [] r). apply (Hsub (u ++ m) r []).
      rewrite app_nil_r, <- app_assoc. exact Ht.
Qed.

(** ** [r'[ \t]+'] *)

Lemma star_k_greedy p prev s :
  re.star_k p (fun _ t => Some t) prev s = Some (Str.lstrip_by p s).
Proof.
  revert prev. induction s as [|c s IH]; intro prev; simpl; [reflexivity|].
  destruct (p c); [rewrite IH|]; reflexivity.
Qed.

Lemma match_spaces prev c s :
  re.match_here HTMLCleaner.re_spaces prev (c :: s) =
  if HTMLCleaner.is_space_or_tab c
  then Some (Str.lstrip_by HTMLCleaner.is_space_or_tab s) else None.
Proof.
  simpl. destruct (HTMLCleaner.is_space_or_tab c); [|reflexivity].
  apply (star_k_greedy HTMLCleaner.is_space_or_tab).
Qed.

Lemma squeeze_run (s : pystr) :
  squeeze true s = squeeze false (Str.lstrip_by HTMLCleaner.is_space_or_tab s).
Proof.
  induction s as [|c s IH]; [reflexivity|]. simpl.
  destruct (HTMLCleaner.is_space_or_tab c) eqn:E; [exact IH|].
  simpl. rewrite E. reflexivity.
Qed.

Lemma lstrip_by_length p (s : pystr) : length (Str.lstrip_by p s) <= length s.
Proof.
  induction s as [|c s IH]; simpl; [lia|]. destruct (p c); simpl; lia.
Qed.

Lemma sub_spaces_scan : forall f prev s,
  length s <= f ->
  flat_map (fun g => match g with re.Lit c => [c] | re.Hit _ => [sp] end)
           (re.scan f HTMLCleaner.re_spaces prev s)
  = squeeze false s.
Proof.
  induction f as [|f IH]; intros prev s Hf.
  - destruct s; [reflexivity | simpl in Hf; lia].
  - destruct s as [|c s]; [reflexivity|]. rewrite scan_step, match_spaces.
    simpl in Hf. simpl squeeze.
    destruct (HTMLCleaner.is_space_or_tab c) eqn:E.
    + pose proof (lstrip_by_length HTMLCleaner.is_space_or_tab s) as Hl.
      destruct (length (c :: s) - length (Str.lstrip_by HTMLCleaner.is_space_or_tab s))
        as [|n] eqn:En;
        [change (length (c :: s)) with (S (length s)) in En; lia|].
      simpl flat_map. rewrite IH by lia. rewrite squeeze_run. reflexivity.
    + simpl. rewrite IH by lia. reflexivity.
Qed.

Lemma sub_spaces_squeeze (s : pystr) :
  re.sub HTMLCleaner.re_spaces [sp] s = squeeze false s.
Proof. apply sub_spaces_scan. apply Nat.le_refl. Qed.

Lemma squeeze_collapsed : forall s b,
  collapsed (squeeze b s) = true
  /\ (b = true -> HTMLCleaner.is_space_or_tab (hd 0%N (squeeze b s)) = false).
Proof.
  induction s as [|c s IH]; intro b.
  - split; [reflexivity | intros _; reflexivity].
  - simpl. destruct (HTMLCleaner.is_space_or_tab c) eqn:E.
    + destruct b.
      * apply IH.
      * destruct (IH true) as [Hc Hh]. split; [|discriminate].
        simpl. rewrite Hc, (Hh eq_refl). reflexivity.
    + destruct (IH false) as [Hc _]. split.
      * simpl. rewrite Hc.
        unfold HTMLCleaner.is_space_or_tab in E. apply orb_false_iff in E.
        destruct E as [E1 E2]. rewrite E1, E2. reflexivity.
      * intros _. simpl. exact E.
Qed.

Lemma collapsed_squeeze_fix : forall s,
  collapsed s = true -> squeeze false s = s.
Proof.
  enough (G : forall s b, collapsed s = true ->
                          (b = true -> HTMLCleaner.is_space_or_tab (hd 0%N s) = false) ->
                          squeeze b s = s).
  { intros s Hs. apply G; [exact Hs | discriminate]. }
  induction s as [|c s IH]; intros b Hc Hb; [reflexivity|].
  simpl in Hc. rewrite !andb_true_iff, !negb_true_iff in Hc.
  destruct Hc as [[Ht Hs] Hc]. simpl.
  destruct (HTMLCleaner.is_space_or_tab c) eqn:E.
  - destruct b; [simpl in Hb; rewrite Hb in E; [discriminate | reflexivity]|].
    unfold HTMLCleaner.is_space_or_tab in E. rewrite Ht, orb_false_r in E.
    rewrite E in Hs. simpl in Hs.
    apply N.eqb_eq in E. subst c. f_equal. apply IH; [exact Hc | intros _; exact Hs].
  - f_equal. apply IH; [exact Hc | discriminate].
Qed.

(* ================================================================== *)
(** * The two cleaning functions                                       *)
(* ================================================================== *)

Lemma collapsed_app (a b : pystr) :
  collapsed (a ++ b) = true -> collapsed a = true /\ collapsed b = true.
Proof.
  induction a as [|c a IH]; intro E; [split; [reflexivity | exact E]|].
  simpl in E. rewrite !andb_true_iff, !negb_true_iff in E.
  destruct E as [[Ht Hs] Hc]. destruct (IH Hc) as [Ha Hb].
  split; [|exact Hb]. simpl. rewrite Ht, Ha.
  destruct a as [|d a].
  - rewrite andb_false_r. reflexivity.
  - simpl in Hs. simpl. rewrite Hs. reflexivity.
Qed.

Lemma collapsed_substring (a b c : pystr) :
  collapsed (a ++ b ++ c) = true -> collapsed b = true.
Proof.
  intro E. apply collapsed_app in E. destruct E as [_ E].
  apply collapsed_app in E. exact (proj1 E).
Qed.

Lemma collapsed_app_nl (a b : pystr) :
  collapsed a = true -> collapsed b = true -> collapsed (a ++ nl :: b) = true.
Proof.
  intros Ha Hb. induction a as [|c a IH]; [simpl; rewrite Hb; reflexivity|].
  simpl in Ha. rewrite !andb_true_iff, !negb_true_iff in Ha.
  destruct Ha as [[Ht Hs] Hc]. simpl. rewrite Ht, (IH Hc).
  destruct a as [|d a].
  - simpl. rewrite andb_false_r. reflexivity.
  - simpl in Hs. simpl. rewrite Hs. reflexivity.
Qed.

Lemma collapsed_join (ls : list pystr) :
  Forall (fun l => collapsed l = true) ls -> collapsed (Str.join [nl] ls) = true.
Proof.
  induction ls as [|l ls IH]; intro Hf; [reflexivity|].
  inversion Hf as [|? ? Hl Hls]; subst.
  destruct ls as [|l' ls]; [exact Hl|].
  rewrite join_cons by discriminate. apply collapsed_app_nl; [exact Hl | exact (IH Hls)].
Qed.

Lemma last_default (s : pystr) (d d' : char) : s <> [] -> last s d = last s d'.
Proof.
  induction s as [|c s IH]; [congruence|]. intros _.
  destruct s as [|e s]; [reflexivity|]. apply IH. discriminate.
Qed.

Lemma last_app_cons (a b : pystr) (c d : char) :
  last (a ++ c :: b) d = last (c :: b) d.
Proof.
  induction a as [|x a IH]; [reflexivity|].
  simpl app. destruct (a ++ c :: b) as [|y l] eqn:E; [destruct a; discriminate|].
  exact IH.
Qed.

Section Cleaning.
Context `{Unicode}.

Lemma good_line_inv (l : pystr) :
  good_line l = true ->
  l <> [] /\ trimmed isspace l = true /\ ~ In nl l /\ collapsed l = true.
Proof.
  unfold good_line. rewrite !andb_true_iff. intros [[[Hn Ht] Hf] Hc].
  split; [destruct l; [discriminate | discriminate]|].
  split; [exact Ht|]. split; [|exact Hc].
  intro Hin. rewrite forallb_forall in Hf. specialize (Hf _ Hin).
  rewrite N.eqb_refl in Hf. discriminate.
Qed.

Lemma good_line_head (l : pystr) :
  good_line l = true ->
  exists c t, l = c :: t /\ isspace c = false /\ c <> nl.
Proof.
  intro Hg. destruct (good_line_inv l Hg) as (Hn & Ht & Hnl & _).
  destruct l as [|c t]; [congruence|]. exists c, t. split; [reflexivity|].
  unfold trimmed in Ht. rewrite andb_true_iff, !negb_true_iff in Ht.
  split; [exact (proj1 Ht)|]. intros ->. apply Hnl. left. reflexivity.
Qed.

Lemma join_good_head (ls : list pystr) :
  Forall (fun l => good_line l = true) ls -> ls <> [] ->
  exists c t, Str.join [nl] ls = c :: t /\ isspace c = false /\ c <> nl.
Proof.
  intros Hf Hn. destruct ls as [|l ls]; [congruence|].
  inversion Hf as [|? ? Hl Hls]; subst.
  destruct (good_line_head l Hl) as (c & t & -> & Hc & Hc').
  destruct ls as [|l' ls].
  - exists c, t. repeat split; assumption.
  - rewrite join_cons by discriminate. exists c, (t ++ [nl] ++ Str.join [nl] (l' :: ls)).
    repeat split; assumption.
Qed.

Lemma join_good_last (ls : list pystr) (d : char) :
  Forall (fun l => good_line l = true) ls -> ls <> [] ->
  isspace (last (Str.join [nl] ls) d) = false.
Proof.
  induction ls as [|l ls IH]; [congruence|]. intros Hf _.
  inversion Hf as [|? ? Hl Hls]; subst.
  destruct ls as [|l' ls].
  - simpl. destruct (good_line_inv l Hl) as (Hn & Ht & _).
    destruct l as [|c t]; [congruence|].
    unfold trimmed in Ht. rewrite andb_true_iff, !negb_true_iff in Ht.
    rewrite (last_default (c :: t) d c) by discriminate. exact (proj2 Ht).
  - rewrite join_cons by discriminate.
    change (l ++ [nl] ++ ?x) with (l ++ nl :: x). rewrite last_app_cons.
    destruct (join_good_head _ Hls) as (c & t & E & _); [discriminate|].
    rewrite E. change (last (nl :: c :: t) d) with (last (c :: t) d).
    rewrite <- E. apply IH; [exact Hls | discriminate].
Qed.

Lemma join_good_trimmed (ls : list pystr) :
  Forall (fun l => good_line l = true) ls ->
  trimmed isspace (Str.join [nl] ls) = true.
Proof.
  intro Hf. destruct ls as [|l ls]; [reflexivity|].
  destruct (join_good_head _ Hf) as (c & t & E & Hc & _); [discriminate|].
  pose proof (join_good_last _ c Hf) as Hl. rewrite E in *.
  unfold trimmed. rewrite Hc, Hl; [reflexivity | discriminate].
Qed.

Lemma strip_join_good (ls : list pystr) :
  Forall (fun l => good_line l = true) ls ->
  Str.strip (Str.join [nl] ls) = Str.join [nl] ls.
Proof.
  intro Hf. apply strip_by_fix. apply join_good_trimmed. exact Hf.
Qed.

Lemma nl_isolated_join (ls : list pystr) :
  Forall (fun l => good_line l = true) ls ->
  nl_isolated (Str.join [nl] ls) = true.
Proof.
  assert (Hline : forall l t, ~ In nl l -> nl_isolated t = true ->
                              nl_isolated (l ++ t) = true).
  { induction l as [|c l IH]; intros t Hn Ht; [exact Ht|].
    simpl. rewrite IH; [|intro Hin; apply Hn; right; exact Hin | exact Ht].
    destruct (N.eqb c nl) eqn:E; [|reflexivity].
    apply N.eqb_eq in E. exfalso. apply Hn. left. exact E. }
  induction ls as [|l ls IH]; intro Hf; [reflexivity|].
  inversion Hf as [|? ? Hl Hls]; subst.
  destruct (good_line_inv l Hl) as (_ & _ & Hnl & _).
  destruct ls as [|l' ls].
  - simpl. rewrite <- (app_nil_r l). apply Hline; [exact Hnl | reflexivity].
  - rewrite join_cons by discriminate. apply Hline; [exact Hnl|].
    destruct (join_good_head _ Hls) as (c & t & E & Hc & Hc'); [discriminate|].
    specialize (IH Hls). rewrite E in *.
    change ([nl] ++ c :: t) with (nl :: c :: t).
    change (nl_isolated (nl :: c :: t))
      with ((negb (N.eqb nl nl) || (negb (isspace c) && negb (N.eqb c nl)))
            && nl_isolated (c :: t)).
    rewrite IH, Hc. apply N.eqb_neq in Hc'. rewrite Hc'. reflexivity.
Qed.

Lemma nl_isolated_tail (c : char) (t : pystr) :
  nl_isolated (c :: t) = true -> nl_isolated t = true.
Proof. simpl. rewrite andb_true_iff. tauto. Qed.

Lemma blank_lines_no_match (prev : option char) (t : pystr) :
  nl_isolated t = true -> re.match_here HTMLCleaner.re_blank_lines prev t = None.
Proof.
  intro Ht. destruct t as [|c t]; [reflexivity|].
  simpl. unfold HTMLCleaner.is_nl at 1. destruct (N.eqb c nl) eqn:E; [|reflexivity].
  simpl in Ht. rewrite E in Ht. simpl in Ht. rewrite andb_true_iff in Ht.
  destruct Ht as [Ht _]. destruct t as [|c' t]; [reflexivity|].
  rewrite andb_true_iff, !negb_true_iff in Ht. destruct Ht as [Hs Hn].
  simpl. rewrite Hs. unfold HTMLCleaner.is_nl. rewrite Hn. reflexivity.
Qed.

Lemma sub_blank_lines_fix (s : pystr) :
  nl_isolated s = true -> re.sub HTMLCleaner.re_blank_lines [nl; nl] s = s.
Proof.
  apply (sub_no_match HTMLCleaner.re_blank_lines [nl; nl]
           (fun t => nl_isolated t = true)).
  - intros prev t. apply blank_lines_no_match.
  - apply nl_isolated_tail.
Qed.

(** The loops as filters. *)
Lemma html_clean_lines_filter (lines : list pystr) :
  HTMLCleaner.clean_lines lines
  = filter HTMLCleaner.keep_line (map Str.strip lines).
Proof.
  induction lines as [|l ls IH]; [reflexivity|]. simpl.
  destruct (HTMLCleaner.keep_line (Str.strip l)); rewrite IH; reflexivity.
Qed.

Lemma pdf_clean_lines_filter (lines : list pystr) :
  PDFTextExtractor.clean_lines lines
  = filter PDFTextExtractor.keep_line (map Str.strip lines).
Proof.
  induction lines as [|l ls IH]; [reflexivity|]. simpl.
  destruct (PDFTextExtractor.keep_line (Str.strip l)); rewrite IH; reflexivity.
Qed.

Lemma html_keep_line_nonempty (l : pystr) :
  HTMLCleaner.keep_line l = true -> nonempty l = true.
Proof. unfold HTMLCleaner.keep_line. destruct (nonempty l); [reflexivity | discriminate]. Qed.

Lemma pdf_keep_line_nonempty (l : pystr) :
  PDFTextExtractor.keep_line l = true -> nonempty l = true.
Proof. unfold PDFTextExtractor.keep_line. destruct (nonempty l); [reflexivity | discriminate]. Qed.

Lemma html_keep_line_pdf (l : pystr) :
  HTMLCleaner.keep_line l = true -> PDFTextExtractor.keep_line l = true.
Proof.
  unfold HTMLCleaner.keep_line, PDFTextExtractor.keep_line.
  destruct (nonempty l); cbn [negb]; [|discriminate].
  destruct (Str.len l <? 10)%Z eqn:E; [discriminate|]. intros _.
  apply Z.ltb_ge in E.
  replace (Str.len l <? 5)%Z with false by (symmetry; apply Z.ltb_ge; lia).
  replace (Str.len l <=? 4)%Z with false by (symmetry; apply Z.leb_gt; lia).
  rewrite andb_false_r. reflexivity.
Qed.

Lemma squeezed_collapsed (text : pystr) : collapsed (squeezed text) = true.
Proof.
  unfold squeezed. rewrite sub_spaces_squeeze. apply squeeze_collapsed.
Qed.

(** A trimmed line of a squeezed text is a good line once it is known
    not to be empty. *)
Lemma trimmed_lines_good (x : pystr) (keep : pystr -> bool) :
  collapsed x = true ->
  (forall l, keep l = true -> nonempty l = true) ->
  Forall (fun l => good_line l = true)
         (filter keep (map Str.strip (Str.split nl x))).
Proof.
  intros Hx Hk. apply Forall_forall. intros l Hin.
  apply filter_In in Hin. destruct Hin as [Hin Hkeep].
  apply in_map_iff in Hin. destruct Hin as (l0 & <- & Hin0).
  destruct (strip_substring l0) as (a & b & El0 & _).
  unfold good_line. rewrite (Hk _ Hkeep).
  unfold Str.strip at 1. rewrite strip_by_trimmed. cbn [andb].
  apply andb_true_iff. split.
  - apply forallb_forall. intros c Hc. apply negb_true_iff, N.eqb_neq. intros ->.
    pose proof (split_no_sep nl x) as Hf. rewrite Forall_forall in Hf.
    apply (Hf l0 Hin0). rewrite El0. apply in_or_app. right.
    apply in_or_app. left. exact Hc.
  - destruct (split_substring nl x l0 Hin0) as (a' & c' & Ex).
    apply (collapsed_substring a _ b). rewrite <- El0.
    apply (collapsed_substring a' _ c'). rewrite <- Ex. exact Hx.
Qed.

Lemma strip_good (l : pystr) : good_line l = true -> Str.strip l = l.
Proof.
  intro Hg. apply strip_by_fix. apply (good_line_inv l Hg).
Qed.

Lemma filter_strip_good (keep : pystr -> bool) (ls : list pystr) :
  Forall (fun l => good_line l = true) ls ->
  Forall (fun l => keep l = true) ls ->
  filter keep (map Str.strip ls) = ls.
Proof.
  induction ls as [|l ls IH]; intros Hg Hk; [reflexivity|].
  inversion Hg; inversion Hk; subst. simpl.
  rewrite (strip_good l) by assumption.
  replace (keep l) with true by (symmetry; assumption).
  f_equal. apply IH; assumption.
Qed.

Lemma filter_filter_implies {A : Type} (f g : A -> bool) (l : list A) :
  (forall x, f x = true -> g x = true) ->
  filter f (filter g l) = filter f l.
Proof.
  intro Hfg. induction l as [|x l IH]; [reflexivity|]. simpl.
  destruct (g x) eqn:Eg; simpl.
  - rewrite IH. reflexivity.
  - destruct (f x) eqn:Ef; [rewrite (Hfg x Ef) in Eg; discriminate | exact IH].
Qed.

Lemma nonempty_false (s : pystr) : nonempty s = false -> s = [].
Proof. destruct s; [reflexivity | discriminate]. Qed.

Lemma good_lines_no_nl (ls : list pystr) :
  Forall (fun l => good_line l = true) ls -> Forall (fun l => ~ In nl l) ls.
Proof.
  intro Hf. eapply Forall_impl; [|exact Hf]. intros l Hl. apply (good_line_inv l Hl).
Qed.

(** C3, amended.  The two cleaning functions collapse blank lines and
    runs of spaces alike, and differ otherwise: [_clean_text] normalizes
    to NFKC, drops lines shorter than 10 characters and lines longer
    than 20 characters with an alphabetic ratio below 0.3;
    [_clean_extracted_text] does not normalize and drops only lines
    shorter than 5 characters.  On a text that NFKC leaves as it is,
    the output of [_clean_text] is made of the lines of the output of
    [_clean_extracted_text] that pass the filter of [_clean_text]. *)
Theorem clean_text_refines_clean_extracted_text (s : pystr) :
  nfkc s = s ->
  HTMLCleaner._clean_text s
  = Str.join [nl] (filter HTMLCleaner.keep_line
                     (Str.split nl (PDFTextExtractor._clean_extracted_text s))).
Proof.
  intro Hn. unfold HTMLCleaner._clean_text, PDFTextExtractor._clean_extracted_text.
  destruct (nonempty s); cbn [negb]; [|reflexivity].
  cbv zeta. rewrite Hn. fold (squeezed s).
  rewrite html_clean_lines_filter, pdf_clean_lines_filter.
  set (X := map Str.strip (Str.split nl (squeezed s))).
  assert (Gh : Forall (fun l => good_line l = true) (filter HTMLCleaner.keep_line X))
    by (apply trimmed_lines_good;
        [apply squeezed_collapsed | apply html_keep_line_nonempty]).
  assert (Gp : Forall (fun l => good_line l = true) (filter PDFTextExtractor.keep_line X))
    by (apply trimmed_lines_good;
        [apply squeezed_collapsed | apply pdf_keep_line_nonempty]).
  rewrite !strip_join_good by assumption.
  rewrite <- (filter_filter_implies HTMLCleaner.keep_line PDFTextExtractor.keep_line X)
    by apply html_keep_line_pdf.
  destruct (filter PDFTextExtractor.keep_line X) as [|l ls] eqn:E; [reflexivity|].
  rewrite split_join; [reflexivity | discriminate | apply good_lines_no_nl; exact Gp].
Qed.

(** ** Idempotence of [_clean_text] *)

Hypothesis nfkc_idempotent : forall s, nfkc (nfkc s) = nfkc s.
Hypothesis nfkc_substring :
  forall a b c, nfkc (a ++ b ++ c) = a ++ b ++ c -> nfkc b = b.
Hypothesis nfkc_join :
  forall sep u v, sep = nl \/ sep = sp ->
                  nfkc u = u -> nfkc v = v -> nfkc (u ++ sep :: v) = u ++ sep :: v.

Lemma nfkc_nil : nfkc [] = [].
Proof.
  apply (nfkc_substring [] [] (nfkc [])). simpl. apply nfkc_idempotent.
Qed.

Lemma squeezed_normal (x : pystr) : nfkc x = x -> nfkc (squeezed x) = squeezed x.
Proof.
  intro Hx. unfold squeezed.
  apply (sub_preserves HTMLCleaner.re_spaces [sp] (fun t => nfkc t = t)).
  - exact nfkc_substring.
  - intros u v Hu Hv. apply nfkc_join; [right; reflexivity | exact Hu | exact Hv].
  - apply (sub_preserves HTMLCleaner.re_blank_lines [nl; nl] (fun t => nfkc t = t)).
    + exact nfkc_substring.
    + intros u v Hu Hv. apply (nfkc_join nl); [left; reflexivity | exact Hu|].
      apply (nfkc_join nl []); [left; reflexivity | exact nfkc_nil | exact Hv].
    + exact Hx.
Qed.

Lemma join_normal (ls : list pystr) :
  Forall (fun l => nfkc l = l) ls -> nfkc (Str.join [nl] ls) = Str.join [nl] ls.
Proof.
  induction ls as [|l ls IH]; intro Hf; [exact nfkc_nil|].
  inversion Hf as [|? ? Hl Hls]; subst.
  destruct ls as [|l' ls]; [exact Hl|].
  rewrite join_cons by discriminate.
  apply (nfkc_join nl); [left; reflexivity | exact Hl | exact (IH Hls)].
Qed.

Lemma trimmed_lines_normal (x : pystr) (keep : pystr -> bool) :
  nfkc x = x ->
  Forall (fun l => nfkc l = l) (filter keep (map Str.strip (Str.split nl x))).
Proof.
  intro Hx. apply Forall_forall. intros l Hin.
  apply filter_In in Hin. destruct Hin as [Hin _].
  apply in_map_iff in Hin. destruct Hin as (l0 & <- & Hin0).
  destruct (strip_substring l0) as (a & b & El0 & _).
  destruct (split_substring nl x l0 Hin0) as (a' & c' & Ex).
  apply (nfkc_substring a _ b). rewrite <- El0.
  apply (nfkc_substring a' _ c'). rewrite <- Ex. exact Hx.
Qed.

(** What [_clean_text] returns: good lines that pass its filter, joined
    by newlines. *)
Lemma clean_text_lines (s : pystr) :
  exists L,
    HTMLCleaner._clean_text s = Str.join [nl] L
    /\ Forall (fun l => good_line l = true) L
    /\ Forall (fun l => HTMLCleaner.keep_line l = true) L
    /\ Forall (fun l => nfkc l = l) L.
Proof.
  unfold HTMLCleaner._clean_text.
  destruct (nonempty s); cbn [negb].
  2:{ exists []. repeat split; constructor. }
  cbv zeta. fold (squeezed (nfkc s)). rewrite html_clean_lines_filter.
  set (L := filter HTMLCleaner.keep_line
                   (map Str.strip (Str.split nl (squeezed (nfkc s))))).
  assert (Gl : Forall (fun l => good_line l = true) L)
    by (apply trimmed_lines_good;
        [apply squeezed_collapsed | apply html_keep_line_nonempty]).
  exists L. split; [apply strip_join_good; exact Gl|]. split; [exact Gl|]. split.
  - apply Forall_forall. intros l Hin. apply filter_In in Hin. exact (proj2 Hin).
  - apply trimmed_lines_normal. apply squeezed_normal. apply nfkc_idempotent.
Qed.

(** Such a text is left as it is. *)
Lemma clean_text_fix (L : list pystr) :
  Forall (fun l => good_line l = true) L ->
  Forall (fun l => HTMLCleaner.keep_line l = true) L ->
  Forall (fun l => nfkc l = l) L ->
  HTMLCleaner._clean_text (Str.join [nl] L) = Str.join [nl] L.
Proof.
  intros Gl Kl Nl. destruct L as [|l ls] eqn:EL; [reflexivity|]. rewrite <- EL in *.
  assert (HL : L <> []) by (rewrite EL; discriminate).
  unfold HTMLCleaner._clean_text.
  destruct (join_good_head _ Gl HL) as (c & t & Ej & _).
  rewrite Ej at 1. cbn [nonempty negb]. cbv zeta.
  rewrite join_normal by exact Nl.
  rewrite sub_blank_lines_fix by (apply nl_isolated_join; exact Gl).
  rewrite sub_spaces_squeeze.
  rewrite collapsed_squeeze_fix
    by (apply collapsed_join; eapply Forall_impl; [|exact Gl];
        intros l' Hl'; apply (good_line_inv l' Hl')).
  rewrite split_join by (try exact HL; apply good_lines_no_nl; exact Gl).
  rewrite html_clean_lines_filter, filter_strip_good by assumption.
  apply strip_join_good. exact Gl.
Qed.

(** C10.  [_clean_text] is idempotent.  NFKC is a parameter of the
    model; what is assumed of it is that it is idempotent, that a piece
    of a normalized text is normalized, and that two normalized texts
    joined by a newline or a space are normalized. *)
Theorem clean_text_idempotent (s : pystr) :
  HTMLCleaner._clean_text (HTMLCleaner._clean_text s) = HTMLCleaner._clean_text s.
Proof.
  destruct (clean_text_lines s) as (L & -> & Gl & Kl & Nl).
  apply clean_text_fix; assumption.
Qed.

End Cleaning.

(* ================================================================== *)
(** * Words, and the hybrid selection                                  *)
(* ================================================================== *)

Lemma count_app (p : char -> bool) (a b : pystr) :
  Str.count p (a ++ b) = (Str.count p a + Str.count p b)%Z.
Proof. unfold Str.count. rewrite filter_app, length_app. lia. Qed.

Lemma count_all (p : char -> bool) (a : pystr) :
  forallb p a = true -> Str.count p a = Str.len a.
Proof.
  unfold Str.count, Str.len. intro Hf. f_equal. f_equal.
  induction a as [|c a IH]; [reflexivity|]. simpl in *.
  apply andb_true_iff in Hf. destruct Hf as [Hc Ha]. rewrite Hc, (IH Ha). reflexivity.
Qed.

Lemma count_none (p q : char -> bool) (a : pystr) :
  (forall c, p c = true -> q c = false) ->
  forallb q a = true -> Str.count p a = 0%Z.
Proof.
  intros Hpq Hf. unfold Str.count.
  induction a as [|c a IH]; [reflexivity|]. simpl in *.
  apply andb_true_iff in Hf. destruct Hf as [Hc Ha].
  destruct (p c) eqn:E; [rewrite (Hpq c E) in Hc; discriminate | exact (IH Ha)].
Qed.

Lemma count_le_len (p : char -> bool) (a : pystr) : (Str.count p a <= Str.len a)%Z.
Proof. unfold Str.count, Str.len. apply inj_le, filter_length_le. Qed.

Lemma count_nonneg (p : char -> bool) (a : pystr) : (0 <= Str.count p a)%Z.
Proof. unfold Str.count. lia. Qed.

(** Every match of a scan lies in the class [w] when every match of the
    pattern does. *)
Lemma scan_hits_class pat (w : char -> bool) :
  (forall prev t r, re.match_here pat prev t = Some r ->
                    forallb w (firstn (length t - length r) t) = true) ->
  forall f prev s, Forall (fun m => forallb w m = true) (hits (re.scan f pat prev s)).
Proof.
  intro Hm. induction f as [|f IH]; intros prev s.
  - destruct s as [|c s]; [constructor|]. simpl.
    assert (G : hits (map re.Lit s) = []) by (clear; induction s; auto).
    unfold hits in *. simpl. rewrite G. constructor.
  - destruct s as [|c s]; [constructor|]. rewrite scan_step.
    destruct (re.match_here pat prev (c :: s)) as [r|] eqn:E; [|apply IH].
    destruct (length (c :: s) - length r) as [|n] eqn:En; [apply IH|].
    change (hits (re.Hit ?m :: ?gs)) with (m :: hits gs).
    constructor; [|apply IH]. rewrite <- En. exact (Hm _ _ _ E).
Qed.

Lemma hits_sum_le (w : char -> bool) (gs : list re.seg) :
  Forall (fun m => forallb w m = true) (hits gs) ->
  (HTMLCleaner.sum_len (hits gs) <= Str.count w (unscan gs))%Z.
Proof.
  induction gs as [|g gs IH]; intro Hf; [apply Z.le_refl|].
  destruct g as [c|m].
  - change (hits (re.Lit c :: gs)) with (hits gs) in *.
    rewrite unscan_lit. change (c :: unscan gs) with ([c] ++ unscan gs).
    rewrite count_app. specialize (IH Hf). pose proof (count_nonneg w [c]). lia.
  - change (hits (re.Hit m :: gs)) with (m :: hits gs) in *.
    inversion Hf as [|? ? Hm Hgs]; subst. rewrite unscan_hit, count_app.
    rewrite (count_all w m Hm). specialize (IH Hgs).
    unfold HTMLCleaner.sum_len in *. simpl. lia.
Qed.

Section Words.
Context `{Unicode}.

Lemma match_word_class prev t r :
  re.match_here HTMLCleaner.re_word prev t = Some r ->
  forallb isword (firstn (length t - length r) t) = true.
Proof.
  unfold HTMLCleaner.re_word. cbn [re.match_here].
  destruct (xorb _ _); [|discriminate].
  destruct t as [|c t]; [discriminate|]. destruct (isword c) eqn:Ec; [|discriminate].
  intro E. destruct (star_k_inv _ _ _ _ _ E) as (m & s1 & prev' & -> & Hm & Hk).
  destruct (xorb _ _) in Hk; [|discriminate]. injection Hk as ->.
  change (c :: m ++ r) with ((c :: m) ++ r). rewrite firstn_match.
  simpl. rewrite Ec, Hm. reflexivity.
Qed.

Lemma findall_hits pat s : re.findall pat s = hits (re.finditer pat s).
Proof. reflexivity. Qed.

Lemma findall_words_sum (t : pystr) :
  (HTMLCleaner.sum_len (re.findall HTMLCleaner.re_word t) <= Str.count isword t)%Z.
Proof.
  rewrite findall_hits. unfold re.finditer.
  rewrite <- (unscan_scan (length t) HTMLCleaner.re_word None t) at 3.
  apply hits_sum_le. apply scan_hits_class. apply match_word_class.
Qed.

End Words.

Section Hybrid.
Context `{Unicode}.
Variable env : PdfEnv.

Import PDFTextExtractor.


End Hybrid.

(* ================================================================== *)
(** * Examples                                                         *)
(* ================================================================== *)

(** C1, the claim as stated fails.  A document of the unsupported type
    [xml] gets a record, with empty text, confidence 0 and one error
    string, whose [extraction_method] is the empty string of the
    constructor's default and not ["failed"]. *)
Lemma process_document_unsupported_not_failed :
  exists r,
    TextExtractionPipeline.process_document (H := ascii_db) sample_digest
      sample_pipeline_env (CStr (py "<p>x</p>")) (py "src") (py "http://x")
      (Some (py "xml")) None = Ok r
    /\ DocumentExtractionResult.errors r
       = Errors_list [py "Document processing failed: Unsupported document type: xml"]
    /\ DocumentExtractionResult.extraction_method r = []
    /\ DocumentExtractionResult.extraction_method r <> py "failed".
Proof.
  eexists. split; [reflexivity|]. split; [reflexivity|]. split; [reflexivity|].
  discriminate.
Qed.

(** C1, the amended claim at the same document. *)
Lemma process_document_failure_record_witness :
  exists r,
    TextExtractionPipeline.process_document (H := ascii_db) sample_digest
      sample_pipeline_env (CStr (py "<p>x</p>")) (py "src") (py "http://x")
      (Some (py "xml")) None = Ok r
    /\ DocumentExtractionResult.extracted_text r = []
    /\ DocumentExtractionResult.confidence_score r = 0%Q
    /\ DocumentExtractionResult.extraction_method r = []
    /\ DocumentExtractionResult.errors r
       = Errors_list [py "Document processing failed: Unsupported document type: xml"].
Proof.
  destruct (process_document_failure_record (H := ascii_db) sample_digest
              sample_pipeline_env (CStr (py "<p>x</p>")) (py "src") (py "http://x")
              (Some (py "xml")) None (sample_digest (pyb "<p>x</p>")) eq_refl)
    as (r & E & Hraise & Hunsupported & _).
  exists r. split; [exact E|].
  apply Hraise. apply Hunsupported; reflexivity.
Defined.

(** C2, the claim as stated fails.  Metadata extraction, direct
    extraction and OCR all fail on this PDF, OCR having been attempted,
    and each is logged as a warning; the errors list of the result has
    one entry, which is none of the three failures. *)
Lemma extract_from_pdf_failures_not_in_errors :
  pdfminer_parse failing_pdf_env (CBytes [])
  = Raise (py "No /Root object! - Is this really a PDF?")
  /\ pdfminer_extract_text failing_pdf_env (CBytes [])
     = Raise (py "No /Root object! - Is this really a PDF?")
  /\ fitz_open failing_pdf_env (CBytes []) = Raise (py "cannot open broken document")
  /\ snd (PDFTextExtractor.extract_from_pdf (H := ascii_db) failing_pdf_env
            (PDFTextExtractor.default_extractor failing_pdf_env) (CBytes []) None)
     = [Warning_metadata (py "No /Root object! - Is this really a PDF?");
        Warning_direct (py "No /Root object! - Is this really a PDF?");
        Info_trying_ocr 0;
        Warning_ocr (py "cannot open broken document");
        Error_message (py "PDF extraction failed: No module named 'pipelines.utils'")]
  /\ PDFExtractionResult.errors
       (fst (PDFTextExtractor.extract_from_pdf (H := ascii_db) failing_pdf_env
               (PDFTextExtractor.default_extractor failing_pdf_env) (CBytes []) None))
     = [py "PDF extraction failed: No module named 'pipelines.utils'"].
Proof. repeat split; reflexivity. Qed.

(** C3, the claim as stated fails.  A line of nine characters is
    dropped by the HTML cleaning and kept by the PDF cleaning. *)
Lemma clean_text_differs_from_clean_extracted_text :
  HTMLCleaner._clean_text (H := ascii_db) (py "hello wor") = []
  /\ PDFTextExtractor._clean_extracted_text (H := ascii_db) (py "hello wor")
     = py "hello wor"
  /\ HTMLCleaner._clean_text (H := ascii_db) (py "hello wor")
     <> PDFTextExtractor._clean_extracted_text (H := ascii_db) (py "hello wor").
Proof.
  split; [reflexivity|]. split; [reflexivity|]. vm_compute. discriminate.
Qed.

(** C3, the amended claim at a sample text. *)
Lemma clean_text_refines_witness :
  nfkc (Unicode := ascii_db) sample_page_text = sample_page_text
  /\ HTMLCleaner._clean_text (H := ascii_db) sample_page_text
     = Str.join [nl]
         (filter (HTMLCleaner.keep_line (H := ascii_db))
            (Str.split nl
               (PDFTextExtractor._clean_extracted_text (H := ascii_db)
                  sample_page_text))).
Proof.
  split; [reflexivity|].
  apply (clean_text_refines_clean_extracted_text (H := ascii_db) sample_page_text).
  reflexivity.
Defined.

(** C4, the claim as stated fails.  The text [!!!] has no word and
    readability 100: the formula gives 30 and [get_quality_score]
    returns 0. *)
Lemma get_quality_score_zero_words :
  total_words (HTMLCleaner._calculate_quality_metrics (H := ascii_db) (py "!!!")) = 0%Z
  /\ TextQualityChecker.get_quality_score
       (HTMLCleaner._calculate_quality_metrics (H := ascii_db) (py "!!!")) = 0%Q
  /\ (quality_score_spec
        (HTMLCleaner._calculate_quality_metrics (H := ascii_db) (py "!!!")) == 30)%Q
  /\ ~ (TextQualityChecker.get_quality_score
          (HTMLCleaner._calculate_quality_metrics (H := ascii_db) (py "!!!"))
        == quality_score_spec
             (HTMLCleaner._calculate_quality_metrics (H := ascii_db) (py "!!!")))%Q.
Proof.
  split; [reflexivity|]. split; [reflexivity|]. split; [reflexivity|].
  vm_compute. discriminate.
Qed.



(** C10, on ASCII text, which NFKC leaves as it is. *)
Lemma clean_text_idempotent_witness :
  HTMLCleaner._clean_text (H := ascii_db)
    (HTMLCleaner._clean_text (H := ascii_db) sample_page_text)
  = HTMLCleaner._clean_text (H := ascii_db) sample_page_text.
Proof.
  apply (clean_text_idempotent (H := ascii_db)).
  - intro s. reflexivity.
  - intros a b c _. reflexivity.
  - intros sep u v _ _ _. reflexivity.
Defined.

(** C5, at a PDF whose direct text has 2000 characters and confidence
    10.  OCR is not attempted and the selection keeps the method
    [direct] with the direct text, as the claim says, but the record
    returned has the method [failed], no text and one error: the import
    inside [_calculate_quality_metrics] raises after the selection. *)
Lemma ocr_gate_closed_record_failed :
  let d := PDFTextExtractor._extract_text_direct (H := ascii_db) gate_closed_env
             (CBytes []) in
  let r := PDFTextExtractor.extract_from_pdf (H := ascii_db) gate_closed_env
             (PDFTextExtractor.default_extractor gate_closed_env) (CBytes []) None in
  fst (fst d) = conf10_text
  /\ (snd (fst d) == 10)%Q
  /\ Str.len (fst (fst d)) = 2000%Z
  /\ Str.len (Str.strip (H := ascii_db) (fst (fst d))) = 2000%Z
  /\ PDFTextExtractor.ocr_attempted (snd r) = false
  /\ PDFTextExtractor.select_extraction (H := ascii_db) gate_closed_env
       (PDFTextExtractor.default_extractor gate_closed_env)
       (fst (fst d)) (snd (fst d))
       (fst (PDFTextExtractor._extract_text_ocr gate_closed_env (CBytes [])))
     = (false, Ok (py "direct", fst (fst d), snd (fst d)))
  /\ PDFExtractionResult.extraction_method (fst r) = py "failed"
  /\ PDFExtractionResult.text (fst r) = []
  /\ PDFExtractionResult.errors (fst r)
     = [py "PDF extraction failed: No module named 'pipelines.utils'"].
Proof.
  cbv zeta.
  split; [reflexivity|]. split; [vm_compute; reflexivity|].
  split; [vm_compute; reflexivity|]. split; [vm_compute; reflexivity|].
  split; [vm_compute; reflexivity|]. split; [vm_compute; reflexivity|].
  split; [vm_compute; reflexivity|]. split; vm_compute; reflexivity.
Qed.

(* ================================================================== *)
(** * Further properties of the cleaning functions                     *)
(* ================================================================== *)

Section CleaningMore.
Context `{Unicode}.

(** What [_clean_extracted_text] returns: good lines that pass its
    filter, joined by newlines. *)
Lemma clean_extracted_text_lines (s : pystr) :
  exists L,
    PDFTextExtractor._clean_extracted_text s = Str.join [nl] L
    /\ Forall (fun l => good_line l = true) L
    /\ Forall (fun l => PDFTextExtractor.keep_line l = true) L.
Proof.
  unfold PDFTextExtractor._clean_extracted_text.
  destruct (nonempty s); cbn [negb].
  2:{ exists []. repeat split; constructor. }
  cbv zeta. fold (squeezed s). rewrite pdf_clean_lines_filter.
  set (L := filter PDFTextExtractor.keep_line
                   (map Str.strip (Str.split nl (squeezed s)))).
  assert (Gl : Forall (fun l => good_line l = true) L)
    by (apply trimmed_lines_good;
        [apply squeezed_collapsed | apply pdf_keep_line_nonempty]).
  exists L. split; [apply strip_join_good; exact Gl|]. split; [exact Gl|].
  apply Forall_forall. intros l Hin. apply filter_In in Hin. exact (proj2 Hin).
Qed.

Lemma squeezed_join_good (L : list pystr) :
  Forall (fun l => good_line l = true) L ->
  squeezed (Str.join [nl] L) = Str.join [nl] L.
Proof.
  intro Gl. unfold squeezed.
  rewrite sub_blank_lines_fix by (apply nl_isolated_join; exact Gl).
  rewrite sub_spaces_squeeze.
  apply collapsed_squeeze_fix. apply collapsed_join.
  eapply Forall_impl; [|exact Gl]. intros l Hl. apply (good_line_inv l Hl).
Qed.

(** X1: the PDF cleaning is idempotent, for every text and whatever the
    Unicode tables: it does not normalize. *)
Theorem clean_extracted_text_idempotent (s : pystr) :
  PDFTextExtractor._clean_extracted_text (PDFTextExtractor._clean_extracted_text s)
  = PDFTextExtractor._clean_extracted_text s.
Proof.
  destruct (clean_extracted_text_lines s) as (L & -> & Gl & Kl).
  destruct L as [|l ls] eqn:EL; [reflexivity|]. rewrite <- EL in *.
  assert (HL : L <> []) by (rewrite EL; discriminate).
  unfold PDFTextExtractor._clean_extracted_text.
  destruct (join_good_head _ Gl HL) as (c & t & Ej & _).
  rewrite Ej at 1. cbn [nonempty negb]. cbv zeta.
  fold (squeezed (Str.join [nl] L)). rewrite squeezed_join_good by exact Gl.
  rewrite split_join by (try exact HL; apply good_lines_no_nl; exact Gl).
  rewrite pdf_clean_lines_filter, filter_strip_good by assumption.
  apply strip_join_good. exact Gl.
Qed.

Lemma html_keep_line_inv (l : pystr) :
  HTMLCleaner.keep_line l = true ->
  (10 <= Str.len l)%Z
  /\ ((20 < Str.len l)%Z ->
      (3 # 10 <= truediv (Str.count isalpha l) (Str.len l))%Q).
Proof.
  unfold HTMLCleaner.keep_line.
  destruct (nonempty l); cbn [negb]; [|discriminate].
  destruct (Str.len l <? 10)%Z eqn:E10; [discriminate|].
  apply Z.ltb_ge in E10. intro Hk. split; [exact E10|]. intro H20.
  apply Z.ltb_lt in H20. rewrite H20, andb_true_r in Hk.
  destruct (Qltb _ _) eqn:Eq in Hk; [discriminate|].
  apply Qltb_false in Eq. exact Eq.
Qed.

Lemma pdf_keep_line_inv (l : pystr) :
  PDFTextExtractor.keep_line l = true -> (5 <= Str.len l)%Z.
Proof.
  unfold PDFTextExtractor.keep_line.
  destruct (nonempty l); cbn [negb]; [|discriminate].
  destruct (Str.len l <? 5)%Z eqn:E; [discriminate|].
  intros _. apply Z.ltb_ge in E. exact E.
Qed.

Lemma lines_of_join_good (L : list pystr) (P : pystr -> Prop) :
  Forall (fun l => good_line l = true) L -> Forall P L ->
  Str.join [nl] L <> [] -> Forall P (Str.split nl (Str.join [nl] L)).
Proof.
  intros Gl Pl Hne. destruct L as [|l ls] eqn:EL; [exfalso; apply Hne; reflexivity|].
  rewrite <- EL in *.
  rewrite split_join; [exact Pl | rewrite EL; discriminate |].
  apply good_lines_no_nl. exact Gl.
Qed.

(** X2: the lines of a text cleaned by [_clean_text].  The text has no
    white space at either end; when it is not empty each of its lines
    has at least 10 characters, no white space at either end, no tab and
    no space followed by a space, and, when longer than 20 characters,
    an alphabetic ratio of at least 0.3. *)
Theorem clean_text_line_shape (s : pystr) :
  let t := HTMLCleaner._clean_text s in
  trimmed isspace t = true
  /\ (t <> [] ->
      Forall (fun l =>
                (10 <= Str.len l)%Z
                /\ trimmed isspace l = true /\ collapsed l = true
                /\ ((20 < Str.len l)%Z ->
                    (3 # 10 <= truediv (Str.count isalpha l) (Str.len l))%Q))
             (Str.split nl t)).
Proof.
  cbv zeta.
  assert (G : exists L,
             HTMLCleaner._clean_text s = Str.join [nl] L
             /\ Forall (fun l => good_line l = true) L
             /\ Forall (fun l => HTMLCleaner.keep_line l = true) L).
  { unfold HTMLCleaner._clean_text.
    destruct (nonempty s); cbn [negb].
    2:{ exists []. repeat split; constructor. }
    cbv zeta. fold (squeezed (nfkc s)). rewrite html_clean_lines_filter.
    set (L := filter HTMLCleaner.keep_line
                     (map Str.strip (Str.split nl (squeezed (nfkc s))))).
    assert (Gl : Forall (fun l => good_line l = true) L)
      by (apply trimmed_lines_good;
          [apply squeezed_collapsed | apply html_keep_line_nonempty]).
    exists L. split; [apply strip_join_good; exact Gl|]. split; [exact Gl|].
    apply Forall_forall. intros l Hin. apply filter_In in Hin. exact (proj2 Hin). }
  destruct G as (L & -> & Gl & Kl).
  split; [apply join_good_trimmed; exact Gl|].
  intro Hne. apply lines_of_join_good; [exact Gl | | exact Hne].
  rewrite Forall_forall in *. intros l Hin.
  destruct (good_line_inv l (Gl l Hin)) as (_ & Ht & _ & Hc).
  destruct (html_keep_line_inv l (Kl l Hin)) as (H10 & Hr).
  repeat split; assumption.
Qed.

(** X3: the lines of a text cleaned by [_clean_extracted_text]: no white
    space at either end of the text, and when it is not empty each line
    has at least 5 characters, no white space at either end, no tab and
    no space followed by a space. *)
Theorem clean_extracted_text_line_shape (s : pystr) :
  let t := PDFTextExtractor._clean_extracted_text s in
  trimmed isspace t = true
  /\ (t <> [] ->
      Forall (fun l =>
                (5 <= Str.len l)%Z
                /\ trimmed isspace l = true /\ collapsed l = true)
             (Str.split nl t)).
Proof.
  cbv zeta. destruct (clean_extracted_text_lines s) as (L & -> & Gl & Kl).
  split; [apply join_good_trimmed; exact Gl|].
  intro Hne. apply lines_of_join_good; [exact Gl | | exact Hne].
  rewrite Forall_forall in *. intros l Hin.
  destruct (good_line_inv l (Gl l Hin)) as (_ & Ht & _ & Hc).
  pose proof (pdf_keep_line_inv l (Kl l Hin)).
  repeat split; assumption.
Qed.

End CleaningMore.

(* ================================================================== *)
(** * Cleaning never lengthens                                         *)
(* ================================================================== *)

Lemma match_here_min_length pat : forall prev s r,
  re.match_here pat prev s = Some r -> length r + min_length pat <= length s.
Proof.
  induction pat as [|it pat IH]; intros prev s r E.
  - simpl in E. injection E as ->. simpl. lia.
  - destruct it as [p|p|p|w|]; simpl in E; cbn [min_length].
    + destruct s as [|c s]; [discriminate|]. destruct (p c); [|discriminate].
      specialize (IH _ _ _ E). simpl. lia.
    + destruct (star_k_inv _ _ _ _ _ E) as (m & s1 & prev' & -> & _ & Hk).
      specialize (IH _ _ _ Hk). rewrite length_app. lia.
    + destruct s as [|c s]; [discriminate|]. destruct (p c); [|discriminate].
      destruct (star_k_inv _ _ _ _ _ E) as (m & s1 & prev' & -> & _ & Hk).
      specialize (IH _ _ _ Hk). simpl. rewrite length_app. lia.
    + destruct (xorb _ _); [|discriminate]. exact (IH _ _ _ E).
    + destruct s as [|c [|c' s]].
      * exact (IH _ _ _ E).
      * destruct (N.eqb c nl); [|discriminate]. exact (IH _ _ _ E).
      * discriminate.
Qed.

(** A replacement no longer than the shortest match does not lengthen. *)
Lemma sub_length_le pat repl (s : pystr) :
  length repl <= min_length pat -> length (re.sub pat repl s) <= length s.
Proof.
  intro Hk. unfold re.sub, re.finditer.
  set (phi := fun g => match g with re.Lit c => [c] | re.Hit _ => repl end).
  generalize (@None char). generalize (length s) at 1.
  intros f. revert s. induction f as [|f IH]; intros s prev.
  - destruct s as [|c s]; [simpl; lia|].
    replace (flat_map phi (re.scan 0 pat prev (c :: s))) with (c :: s); [lia|].
    simpl. f_equal. clear. induction s as [|d s IH]; [reflexivity|].
    simpl. f_equal. exact IH.
  - destruct s as [|c s]; [simpl; lia|]. rewrite scan_step.
    assert (Glit : length (flat_map phi (re.Lit c :: re.scan f pat (Some c) s))
                   <= length (c :: s)).
    { simpl. specialize (IH s (Some c)). lia. }
    destruct (re.match_here pat prev (c :: s)) as [r|] eqn:E; [|exact Glit].
    destruct (length (c :: s) - length r) as [|n] eqn:En; [exact Glit|].
    pose proof (match_here_min_length _ _ _ _ E) as Hm.
    cbn [flat_map phi]. rewrite length_app.
    specialize (IH r (Some (last (firstn (S n) (c :: s)) c))). lia.
Qed.

Lemma join_length (ls : list pystr) :
  length (Str.join [nl] ls) = chars_of ls + (length ls - 1).
Proof.
  induction ls as [|l ls IH]; [reflexivity|].
  destruct ls as [|l' ls]; [simpl; lia|].
  rewrite join_cons by discriminate. rewrite !length_app, IH. simpl. lia.
Qed.

Section LengthFacts.
Context `{Unicode}.

Lemma strip_nat_length_le (l : pystr) : length (Str.strip l) <= length l.
Proof.
  destruct (strip_substring l) as (a & b & E & _).
  rewrite E at 2. rewrite !length_app. lia.
Qed.

Lemma filter_strip_chars (keep : pystr -> bool) (ls : list pystr) :
  chars_of (filter keep (map Str.strip ls)) <= chars_of ls
  /\ length (filter keep (map Str.strip ls)) <= length ls.
Proof.
  induction ls as [|l ls [IH1 IH2]]; [simpl; lia|].
  pose proof (strip_nat_length_le l). simpl.
  destruct (keep (Str.strip l)); simpl; lia.
Qed.

(** X4: [_clean_extracted_text] never returns more characters than it
    is given. *)
Theorem clean_extracted_text_length (s : pystr) :
  (Str.len (PDFTextExtractor._clean_extracted_text s) <= Str.len s)%Z.
Proof.
  unfold Str.len. apply inj_le.
  unfold PDFTextExtractor._clean_extracted_text.
  destruct (nonempty s); cbn [negb]; [|simpl; lia].
  cbv zeta. rewrite pdf_clean_lines_filter.
  set (x3 := re.sub HTMLCleaner.re_blank_lines [nl; nl] s).
  set (x4 := re.sub HTMLCleaner.re_spaces [sp] x3).
  assert (H3 : length x3 <= length s)
    by (apply sub_length_le; simpl; lia).
  assert (H4 : length x4 <= length x3)
    by (apply sub_length_le; simpl; lia).
  etransitivity; [apply strip_nat_length_le|].
  rewrite join_length.
  destruct (filter_strip_chars PDFTextExtractor.keep_line (Str.split nl x4)) as [Hc Hn].
  pose proof (join_length (Str.split nl x4)) as Hj. rewrite join_split in Hj.
  lia.
Qed.

End LengthFacts.

(* ================================================================== *)
(** * Confidence scores                                                *)
(* ================================================================== *)

Lemma hits_nonempty f pat : forall prev s,
  Forall (fun m => m <> []) (hits (re.scan f pat prev s)).
Proof.
  induction f as [|f IH]; intros prev s.
  - destruct s as [|c s]; [constructor|]. simpl.
    assert (G : hits (map re.Lit s) = []) by (clear; induction s; auto).
    unfold hits in *. simpl. rewrite G. constructor.
  - destruct s as [|c s]; [constructor|]. rewrite scan_step.
    destruct (re.match_here pat prev (c :: s)) as [r|] eqn:E; [|apply IH].
    destruct (length (c :: s) - length r) as [|n] eqn:En; [apply IH|].
    change (hits (re.Hit ?m :: ?gs)) with (m :: hits gs).
    constructor; [discriminate | apply IH].
Qed.

Lemma words_count_le_sum (ws : list pystr) :
  Forall (fun m => m <> []) ws ->
  (Z.of_nat (length ws) <= HTMLCleaner.sum_len ws)%Z.
Proof.
  unfold HTMLCleaner.sum_len, Str.len.
  induction ws as [|w ws IH]; intro Hf; [simpl; lia|].
  inversion Hf as [|? ? Hw Hws]; subst. specialize (IH Hws).
  destruct w as [|c w]; [congruence|].
  cbn [map fold_right]. change (length (?a :: ?b)) with (S (length b)).
  rewrite !Nat2Z.inj_succ. lia.
Qed.

Lemma py_abs_nonneg (x : Q) : (0 <= py_abs x)%Q.
Proof.
  unfold py_abs. destruct (Qltb x 0) eqn:E.
  - apply Qltb_true in E. lra.
  - apply Qltb_false in E. exact E.
Qed.

Lemma clamp_0_100 (x : Q) :
  (0 <= py_min 100 (py_max 0 x))%Q /\ (py_min 100 (py_max 0 x) <= 100)%Q.
Proof.
  destruct (py_max_cases 0 x) as [[A ->]|[A ->]];
    match goal with |- context [py_min 100 ?y] =>
      destruct (py_min_cases 100 y) as [[B ->]|[B ->]] end; split; lra.
Qed.

Lemma clamp_le (x b : Q) :
  (0 <= b)%Q -> (x <= b)%Q -> (py_min 100 (py_max 0 x) <= b)%Q.
Proof.
  intros Hb Hx.
  destruct (py_max_cases 0 x) as [[A ->]|[A ->]];
    match goal with |- context [py_min 100 ?y] =>
      destruct (py_min_cases 100 y) as [[B ->]|[B ->]] end; lra.
Qed.

Lemma truediv_zero (b : Z) : (truediv 0 b == 0)%Q.
Proof. unfold truediv. unfold Qdiv. rewrite Qmult_0_l. reflexivity. Qed.

Section Confidence.
Context `{Unicode}.

Lemma findall_words_none (text : pystr) :
  Str.count isword text = 0%Z -> re.findall HTMLCleaner.re_word text = [].
Proof.
  intro Hc. pose proof (findall_words_sum text) as Hs.
  rewrite findall_hits in *. unfold re.finditer in *.
  pose proof (hits_nonempty (length text) HTMLCleaner.re_word None text) as Hn.
  pose proof (words_count_le_sum _ Hn) as Hl.
  destruct (hits _) as [|w ws]; [reflexivity|]. simpl length in Hl. lia.
Qed.

Lemma text_confidence_bounds (text : pystr) :
  (0 <= PDFTextExtractor._calculate_text_confidence text)%Q
  /\ (PDFTextExtractor._calculate_text_confidence text <= 100)%Q.
Proof.
  unfold PDFTextExtractor._calculate_text_confidence.
  destruct (negb (nonempty text) || negb (nonempty (Str.strip text)));
    [split; [apply Qle_refl | discriminate]|].
  destruct (re.findall HTMLCleaner.re_word text);
    [split; [apply Qle_refl | discriminate]|].
  apply clamp_0_100.
Qed.

Lemma text_confidence_no_alpha (text : pystr) :
  Str.count isalpha text = 0%Z ->
  (PDFTextExtractor._calculate_text_confidence text <= 40)%Q.
Proof.
  intro Ha. unfold PDFTextExtractor._calculate_text_confidence.
  destruct (negb (nonempty text) || negb (nonempty (Str.strip text)));
    [discriminate|].
  destruct (re.findall HTMLCleaner.re_word text) as [|w ws]; [discriminate|].
  rewrite Ha. apply clamp_le; [discriminate|].
  rewrite truediv_zero.
  match goal with |- context [py_abs ?x] => pose proof (py_abs_nonneg x) as Hab end.
  match goal with |- context [py_max 0 ?x] =>
    destruct (py_max_cases 0 x) as [[A ->]|[A ->]] end; lra.
Qed.

(** X5: the confidence of a directly extracted text lies in [0, 100];
    it is 0 for a text without a word character, and at most 40 for a
    text without an alphabetic character. *)
Theorem text_confidence_range (text : pystr) :
  (0 <= PDFTextExtractor._calculate_text_confidence text)%Q
  /\ (PDFTextExtractor._calculate_text_confidence text <= 100)%Q
  /\ (Str.count isword text = 0%Z ->
      PDFTextExtractor._calculate_text_confidence text = 0%Q)
  /\ (Str.count isalpha text = 0%Z ->
      (PDFTextExtractor._calculate_text_confidence text <= 40)%Q).
Proof.
  split; [apply text_confidence_bounds|]. split; [apply text_confidence_bounds|].
  split; [|apply text_confidence_no_alpha].
  intro Hc. unfold PDFTextExtractor._calculate_text_confidence.
  rewrite (findall_words_none text Hc).
  destruct (negb (nonempty text) || negb (nonempty (Str.strip text))); reflexivity.
Qed.

(** X6, at the default extractor with OCR available: OCR is attempted
    whenever direct extraction fails, and whenever it returns a text
    without an alphabetic character that, stripped, is shorter than
    1000 characters. *)
Theorem no_alpha_text_goes_to_ocr (env : PdfEnv) (content : content_t)
        (filename : option pystr) :
  OCR_AVAILABLE env = true ->
  let log := snd (PDFTextExtractor.extract_from_pdf env
                    (PDFTextExtractor.default_extractor env) content filename) in
  (forall e, pdfminer_extract_text env content = Raise e ->
             PDFTextExtractor.ocr_attempted log = true)
  /\ (forall text,
         pdfminer_extract_text env content = Ok text ->
         Str.count isalpha text = 0%Z ->
         (Str.len (Str.strip text) < 1000)%Z ->
         PDFTextExtractor.ocr_attempted log = true).
Proof.
  intros Ha. cbv zeta.
  assert (Hf : PDFTextExtractor.ocr_fallback (PDFTextExtractor.default_extractor env)
               = true) by (cbn; exact Ha).
  split.
  - intros e E. rewrite ocr_attempted_iff, select_extraction_called.
    unfold PDFTextExtractor._extract_text_direct. rewrite E. cbn [try_except bind fst snd].
    apply ocr_condition_iff. split; [exact Hf|]. split; reflexivity.
  - intros text E Hc Hl. rewrite ocr_attempted_iff, select_extraction_called.
    unfold PDFTextExtractor._extract_text_direct. rewrite E. cbn [try_except bind fst snd].
    apply ocr_condition_iff. split; [exact Hf|]. split; [|exact Hl].
    cbn. pose proof (text_confidence_no_alpha text Hc). lra.
Qed.

End Confidence.

Lemma sum_confidences_bounds (l : list Z) :
  Forall confidence_ok l ->
  (0 <= fold_right Z.add 0 l <= 100 * Z.of_nat (length l))%Z.
Proof.
  induction l as [|c l IH]; intro Hf; [simpl; lia|].
  inversion Hf as [|? ? Hc Hl]; subst. specialize (IH Hl). unfold confidence_ok in Hc.
  cbn [fold_right]. change (length (c :: l)) with (S (length l)).
  rewrite Nat2Z.inj_succ. lia.
Qed.

Lemma mean_confidence_bounds (l : list Z) :
  Forall confidence_ok l ->
  (0 <= match l with
        | [] => 0
        | _ => inject_Z (fold_right Z.add 0%Z l) / inject_Z (Z.of_nat (length l))
        end)%Q
  /\ (match l with
      | [] => 0
      | _ => inject_Z (fold_right Z.add 0%Z l) / inject_Z (Z.of_nat (length l))
      end <= 100)%Q.
Proof.
  intro Hf. pose proof (sum_confidences_bounds l Hf) as Hs.
  destruct l as [|c l]; [split; [apply Qle_refl | discriminate]|].
  set (n := Z.of_nat (length (c :: l))) in *.
  assert (Hn : (0 < n)%Z) by (unfold n; simpl; lia).
  assert (Hq : (0 < inject_Z n)%Q)
    by (change 0%Q with (inject_Z 0); rewrite <- Zlt_Qlt; exact Hn).
  split.
  - apply Qle_shift_div_l; [exact Hq|]. rewrite Qmult_0_l.
    change 0%Q with (inject_Z 0). rewrite <- Zle_Qle. lia.
  - apply Qle_shift_div_r; [exact Hq|].
    change 100%Q with (inject_Z 100). rewrite <- inject_Z_mult, <- Zle_Qle. lia.
Qed.

Section OcrConfidence.
Context `{Unicode}.
Variable env : PdfEnv.

Import PDFTextExtractor.

Lemma ocr_loop_bounds (pages : list (outcome OcrPage)) :
  (forall p, In (Ok p) pages -> Forall confidence_ok (page_confidences p)) ->
  forall texts total count texts' total' count',
    (0 <= count)%Z -> (0 <= total)%Q -> (total <= 100 * inject_Z count)%Q ->
    ocr_loop pages texts total count = Ok (texts', total', count') ->
    (0 <= count')%Z /\ (0 <= total')%Q /\ (total' <= 100 * inject_Z count')%Q.
Proof.
  induction pages as [|pg pages IH]; intros Hp texts total count texts' total' count'
                                            Hc H0 H1 E.
  - simpl in E. injection E as <- <- <-. repeat split; assumption.
  - simpl in E. destruct pg as [p|e]; cbn [bind] in E; [|discriminate].
    destruct (mean_confidence_bounds (page_confidences p)) as [M0 M1];
      [apply Hp; left; reflexivity|].
    eapply IH in E; [exact E| | | |].
    + intros q Hq. apply Hp. right. exact Hq.
    + lia.
    + lra.
    + rewrite inject_Z_plus. change (inject_Z 1) with 1%Q. lra.
Qed.

Lemma ocr_confidence_bounds (content : content_t) :
  (forall pages p, fitz_open env content = Ok pages ->
                   In (Ok p) (firstn 50 pages) ->
                   Forall confidence_ok (page_confidences p)) ->
  (0 <= snd (fst (_extract_text_ocr env content)))%Q
  /\ (snd (fst (_extract_text_ocr env content)) <= 100)%Q.
Proof.
  intro Hp. unfold _extract_text_ocr.
  destruct (OCR_AVAILABLE env); cbn [negb fst snd];
    [|split; [apply Qle_refl | discriminate]].
  destruct (fitz_open env content) as [pages|e] eqn:Ef; cbn [bind try_except];
    [|split; [apply Qle_refl | discriminate]].
  destruct (ocr_loop (firstn 50 pages) [] 0%Q 0%Z) as [[[texts total] count]|e] eqn:El;
    cbn [bind try_except fst snd]; [|split; [apply Qle_refl | discriminate]].
  apply ocr_loop_bounds in El;
    [|intros p Hin; exact (Hp pages p eq_refl Hin) | apply Z.le_refl | apply Qle_refl
     | discriminate].
  destruct El as (Hc & H0 & H1).
  destruct (0 <? count)%Z eqn:Ec; [|split; [apply Qle_refl | discriminate]].
  apply Z.ltb_lt in Ec.
  assert (Hq : (0 < inject_Z count)%Q)
    by (change 0%Q with (inject_Z 0); rewrite <- Zlt_Qlt; exact Ec).
  split.
  - apply Qle_shift_div_l; [exact Hq|]. lra.
  - apply Qle_shift_div_r; [exact Hq|]. exact H1.
Qed.

(** X7: the confidence [_extract_text_ocr] returns lies in [0, 100] when
    the word confidences the recognizer reports on the first 50 pages
    do; it is 0 when OCR is unavailable or any step of it fails. *)
Theorem ocr_confidence_range (content : content_t) :
  (forall pages p, fitz_open env content = Ok pages ->
                   In (Ok p) (firstn 50 pages) ->
                   Forall confidence_ok (page_confidences p)) ->
  (0 <= snd (fst (_extract_text_ocr env content)))%Q
  /\ (snd (fst (_extract_text_ocr env content)) <= 100)%Q
  /\ (OCR_AVAILABLE env = false -> fst (_extract_text_ocr env content) = ([], 0%Q))
  /\ (forall e,
         (pdf_document <- fitz_open env content ;;
          ocr_loop (firstn 50 pdf_document) [] 0%Q 0%Z) = Raise e ->
         fst (_extract_text_ocr env content) = ([], 0%Q)).
Proof.
  intro Hp. split; [apply ocr_confidence_bounds; exact Hp|].
  split; [apply ocr_confidence_bounds; exact Hp|]. split.
  - intro Ha. unfold _extract_text_ocr. rewrite Ha. reflexivity.
  - intros e E. unfold _extract_text_ocr.
    destruct (OCR_AVAILABLE env); cbn [negb]; [|reflexivity].
    destruct (fitz_open env content) as [d|e']; cbn [bind] in *.
    + rewrite E. reflexivity.
    + reflexivity.
Qed.

(** X8: the selection step of [extract_from_pdf].  OCR is called
    exactly when the fallback is enabled, the direct confidence is
    below [ocr_min_confidence] and the stripped direct text is shorter
    than 1000 characters.  When the step returns, the method is
    [direct], [ocr] or [hybrid]; it is [ocr] exactly when OCR ran with a
    confidence above the direct one, and then text and confidence are
    those of OCR; it is [hybrid] only with an empty direct text, the
    text being the OCR text; the confidence is never below the direct
    one; the text is the direct or the OCR text as it is; without OCR
    the direct result is kept.  The step raises exactly when the hybrid
    branch is entered with two texts that are not empty, and what it
    raises is the import error of [_calculate_quality_metrics]. *)
Theorem select_extraction_invariants (self : self_t) (direct_text : pystr)
        (direct_confidence : Q) (ocr_text : pystr) (ocr_confidence : Q) :
  let sel := select_extraction env self direct_text direct_confidence
                               (ocr_text, ocr_confidence) in
  (fst sel = true <->
   ocr_fallback self = true
   /\ (direct_confidence < ocr_min_confidence self)%Q
   /\ (Str.len (Str.strip direct_text) < 1000)%Z)
  /\ (forall method text confidence,
         snd sel = Ok (method, text, confidence) ->
         (method = py "direct" \/ method = py "ocr" \/ method = py "hybrid")
         /\ (method = py "ocr" <->
             fst sel = true /\ (direct_confidence < ocr_confidence)%Q)
         /\ (method = py "ocr" -> text = ocr_text /\ confidence = ocr_confidence)
         /\ (method = py "hybrid" -> direct_text = [] /\ text = ocr_text)
         /\ (direct_confidence <= confidence)%Q
         /\ (text = direct_text \/ text = ocr_text)
         /\ (fst sel = false ->
             method = py "direct" /\ text = direct_text
             /\ confidence = direct_confidence))
  /\ (forall e,
         snd sel = Raise e <->
         e = utils_import_error env
         /\ fst sel = true
         /\ (ocr_confidence <= direct_confidence)%Q
         /\ direct_text <> [] /\ ocr_text <> []
         /\ (Str.len (Str.strip direct_text) < Str.len (Str.strip ocr_text))%Z).
Proof.
  cbv zeta. split; [rewrite select_extraction_called; apply ocr_condition_iff|].
  unfold select_extraction.
  destruct (ocr_condition self direct_text direct_confidence); cbn [fst snd].
  - destruct (Qltb direct_confidence ocr_confidence) eqn:E.
    + apply Qltb_true in E. split.
      * intros method text confidence Hx. injection Hx as <- <- <-.
        split; [right; left; reflexivity|].
        split; [split; [intros _; split; [reflexivity | exact E] | reflexivity]|].
        split; [intros _; split; reflexivity|].
        split; [discriminate|].
        split; [lra|]. split; [right; reflexivity | discriminate].
      * intro e. split; [discriminate|]. intros (_ & _ & Hle & _). lra.
    + apply Qltb_false in E.
      destruct (nonempty ocr_text) eqn:En; cbn [andb].
      * destruct (Str.len (Str.strip direct_text) <? Str.len (Str.strip ocr_text))%Z
          eqn:El.
        -- apply Z.ltb_lt in El. rewrite merge_texts_cases, En. cbn [negb].
           destruct direct_text as [|c dt]; cbn [nonempty negb bind].
           ++ split.
              ** intros method text confidence Hx. injection Hx as <- <- <-.
                 split; [right; right; reflexivity|].
                 split; [split; [discriminate | intros [_ Hlt]; lra]|].
                 split; [discriminate|].
                 split; [intros _; split; reflexivity|].
                 split; [destruct (py_max_cases direct_confidence ocr_confidence)
                           as [[Hl ->] | [_ ->]]; lra|].
                 split; [right; reflexivity | discriminate].
              ** intro e. split; [discriminate|].
                 intros (_ & _ & _ & Hne & _). exfalso. apply Hne. reflexivity.
           ++ split; [discriminate|].
              intro e. split.
              ** intro Hx. injection Hx as <-.
                 split; [reflexivity|]. split; [reflexivity|]. split; [exact E|].
                 split; [discriminate|].
                 split; [destruct ocr_text; discriminate | exact El].
              ** intros (-> & _). reflexivity.
        -- apply Z.ltb_ge in El. split.
           ++ intros method text confidence Hx. injection Hx as <- <- <-.
              split; [left; reflexivity|].
              split; [split; [discriminate | intros [_ Hlt]; lra]|].
              split; [discriminate|]. split; [discriminate|].
              split; [apply Qle_refl|]. split; [left; reflexivity | discriminate].
           ++ intro e. split; [discriminate|]. intros (_ & _ & _ & _ & _ & Hlt). lia.
      * split.
        -- intros method text confidence Hx. injection Hx as <- <- <-.
           split; [left; reflexivity|].
           split; [split; [discriminate | intros [_ Hlt]; lra]|].
           split; [discriminate|]. split; [discriminate|].
           split; [apply Qle_refl|]. split; [left; reflexivity | discriminate].
        -- intro e. split; [discriminate|].
           intros (_ & _ & _ & _ & Hne & _). exfalso.
           destruct ocr_text; [apply Hne; reflexivity | discriminate].
  - split.
    + intros method text confidence Hx. injection Hx as <- <- <-.
      split; [left; reflexivity|].
      split; [split; [discriminate | intros [Hx _]; discriminate]|].
      split; [discriminate|]. split; [discriminate|].
      split; [apply Qle_refl|]. split; [left; reflexivity|].
      intros _. repeat split; reflexivity.
    + intro e. split; [discriminate|]. intros (_ & Hx & _). discriminate.
Qed.

(** X9: [extract_from_pdf] returns the record of its [except] block on
    every input and for every configuration: the empty text, the
    default metadata and metrics, the method [failed], confidence 0 and
    exactly one error, the message of the import error that
    [_calculate_quality_metrics] raises; the same message is logged as
    an error after whatever the extraction steps logged. *)
Theorem extract_from_pdf_always_failed (self : self_t) (content : content_t)
        (filename : option pystr) :
  let error_msg := py "PDF extraction failed: " ++ utils_import_error env in
  fst (extract_from_pdf env self content filename)
  = PDFExtractionResult.mk [] PDFMetadata.default TextQualityMetrics_default
      (py "failed") 0 (pdf_elapsed env) [error_msg]
  /\ (exists log, snd (extract_from_pdf env self content filename)
                  = log ++ [Error_message error_msg]).
Proof.
  cbv zeta. rewrite extract_from_pdf_unfold. cbv zeta. cbn [fst snd].
  split; [reflexivity|]. eexists. reflexivity.
Qed.

End OcrConfidence.

(* ================================================================== *)
(** * Quality metrics, score and thresholds                            *)
(* ================================================================== *)

Lemma truediv_ge_1 a b : (0 < b)%Z -> (b <= a)%Z -> (1 <= truediv a b)%Q.
Proof.
  intros Hb Ha. unfold truediv. apply Qle_shift_div_l.
  - change 0%Q with (inject_Z 0). rewrite <- Zlt_Qlt. exact Hb.
  - rewrite Qmult_1_l. rewrite <- Zle_Qle. exact Ha.
Qed.

Lemma truediv_le a b c : (0 < b)%Z -> (a <= c * b)%Z -> (truediv a b <= inject_Z c)%Q.
Proof.
  intros Hb Ha. unfold truediv. apply Qle_shift_div_r.
  - change 0%Q with (inject_Z 0). rewrite <- Zlt_Qlt. exact Hb.
  - rewrite <- inject_Z_mult, <- Zle_Qle. exact Ha.
Qed.

Lemma py_min_100_mono (x y : Q) : (x <= y)%Q -> (py_min 100 x <= py_min 100 y)%Q.
Proof.
  intro Hxy.
  destruct (py_min_cases 100 x) as [[A ->]|[A ->]];
    destruct (py_min_cases 100 y) as [[B ->]|[B ->]]; lra.
Qed.

Section MetricsMore.
Context `{Unicode}.

Lemma words_facts (text : pystr) :
  let words := re.findall HTMLCleaner.re_word text in
  (Z.of_nat (length words) <= HTMLCleaner.sum_len words)%Z
  /\ (HTMLCleaner.sum_len words <= Str.len text)%Z.
Proof.
  cbv zeta. split.
  - rewrite findall_hits. apply words_count_le_sum. apply hits_nonempty.
  - pose proof (findall_words_sum text). pose proof (count_le_len isword text). lia.
Qed.

Lemma meaningful_content_computed (text : pystr) :
  let m := HTMLCleaner._calculate_quality_metrics text in
  has_meaningful_content m
  = (50 <? total_words m)%Z && Qltb 3 (avg_word_length m)
    && Qltb 20 (readability_score m).
Proof.
  unfold HTMLCleaner._calculate_quality_metrics.
  destruct (nonempty text); reflexivity.
Qed.

(** X10: further bounds on the metrics of any text.  There are no more
    words than characters; readability is at most 100 and the language
    confidence at most 1; when there is a word the average word length
    lies between 1 and the number of characters; and a text with
    meaningful content has more than 50 words and more than 150
    characters. *)
Theorem quality_metrics_bounds (text : pystr) :
  let m := HTMLCleaner._calculate_quality_metrics text in
  (total_words m <= total_chars m)%Z
  /\ (readability_score m <= 100)%Q
  /\ (language_confidence m <= 1)%Q
  /\ (total_words m <> 0%Z ->
      (1 <= avg_word_length m)%Q
      /\ (avg_word_length m <= inject_Z (total_chars m))%Q)
  /\ (has_meaningful_content m = true ->
      (50 < total_words m)%Z /\ (150 < total_chars m)%Z).
Proof.
  cbv zeta.
  assert (Hhmc := meaningful_content_computed text). cbv zeta in Hhmc.
  destruct (words_facts text) as [W1 W2].
  split; [|split; [|split; [apply metrics_language_bounds|split]]].
  - unfold HTMLCleaner._calculate_quality_metrics.
    destruct (nonempty text); cbn [negb]; cbv zeta;
      cbn [total_words total_chars TextQualityMetrics_default]; lia.
  - unfold HTMLCleaner._calculate_quality_metrics.
    destruct (nonempty text); cbn [negb]; cbv zeta;
      cbn [readability_score TextQualityMetrics_default]; [|discriminate].
    assert (Hs : (0 <= match re.split HTMLCleaner.re_sentence_end text with
                       | [] => 0
                       | _ :: _ =>
                           truediv (Z.of_nat (length (re.findall HTMLCleaner.re_word text)))
                                   (Z.of_nat (length (re.split HTMLCleaner.re_sentence_end text)))
                       end)%Q).
    { destruct (re.split HTMLCleaner.re_sentence_end text) as [|x xs];
        [apply Qle_refl|].
      apply truediv_nonneg; [lia | simpl; lia]. }
    match goal with |- context [py_max 0 ?x] =>
      destruct (py_max_cases 0 x) as [[A ->]|[A ->]] end; lra.
  - unfold HTMLCleaner._calculate_quality_metrics.
    destruct (nonempty text); cbn [negb]; cbv zeta;
      cbn [total_words total_chars avg_word_length TextQualityMetrics_default];
      [|intro Hx; exfalso; apply Hx; reflexivity].
    destruct (re.findall HTMLCleaner.re_word text) as [|w ws] eqn:Ew;
      [intro Hx; exfalso; apply Hx; reflexivity|].
    intros _.
    set (n := Z.of_nat (length (w :: ws))) in *.
    assert (Hn : (0 < n)%Z) by (unfold n; simpl; lia).
    split.
    + apply truediv_ge_1; lia.
    + apply truediv_le; [exact Hn|]. nia.
  - rewrite Hhmc. rewrite !andb_true_iff, Z.ltb_lt, !Qltb_true. intros [[Hw Ha] _].
    split; [exact Hw|]. revert Hw Ha.
    unfold HTMLCleaner._calculate_quality_metrics.
    destruct (nonempty text); cbn [negb]; cbv zeta;
      cbn [total_words total_chars avg_word_length TextQualityMetrics_default];
      [|lia].
    destruct (re.findall HTMLCleaner.re_word text) as [|w ws] eqn:Ew; [simpl; lia|].
    intros Hw Ha.
    set (n := Z.of_nat (length (w :: ws))) in *.
    set (k := HTMLCleaner.sum_len (w :: ws)) in *.
    destruct (Z_lt_le_dec (3 * n) k) as [Hlt|Hge]; [lia|].
    exfalso. apply (Qlt_not_le _ _ Ha). change 3%Q with (inject_Z 3).
    apply truediv_le; lia.
Qed.

(** X11: the score as a function of the word count, the other metrics
    being fixed: it does not decrease from one positive count to a
    larger one, it is the same for all counts from 200 on, and, when
    the language confidence is not negative, the score 0 of the count
    0 is the least. *)
Theorem get_quality_score_monotone (m : TextQualityMetrics) (w1 w2 : Z) :
  ((0 < w1)%Z -> (w1 <= w2)%Z ->
   (TextQualityChecker.get_quality_score (set_total_words m w1)
    <= TextQualityChecker.get_quality_score (set_total_words m w2))%Q)
  /\ ((200 <= w1)%Z -> (200 <= w2)%Z ->
      (TextQualityChecker.get_quality_score (set_total_words m w1)
       == TextQualityChecker.get_quality_score (set_total_words m w2))%Q)
  /\ ((0 <= language_confidence m)%Q -> (0 < w2)%Z ->
      (TextQualityChecker.get_quality_score (set_total_words m 0)
       <= TextQualityChecker.get_quality_score (set_total_words m w2))%Q).
Proof.
  unfold TextQualityChecker.get_quality_score, set_total_words.
  cbn [total_words readability_score language_confidence].
  assert (Hdiv : forall a b, (a <= b)%Z -> (truediv a 2 <= truediv b 2)%Q).
  { intros a b Hab. unfold truediv.
    apply Qmult_le_compat_r; [rewrite <- Zle_Qle; exact Hab | discriminate]. }
  split; [|split].
  - intros H1 H12.
    replace (w1 =? 0)%Z with false by (symmetry; apply Z.eqb_neq; lia).
    replace (w2 =? 0)%Z with false by (symmetry; apply Z.eqb_neq; lia).
    pose proof (py_min_100_mono _ _ (Hdiv w1 w2 H12)). lra.
  - intros H1 H2.
    replace (w1 =? 0)%Z with false by (symmetry; apply Z.eqb_neq; lia).
    replace (w2 =? 0)%Z with false by (symmetry; apply Z.eqb_neq; lia).
    assert (Hsat : forall w, (200 <= w)%Z -> py_min 100 (truediv w 2) = 100%Q).
    { intros w Hw. destruct (py_min_cases 100 (truediv w 2)) as [[A _]|[_ ->]];
        [|reflexivity].
      exfalso. apply (Qlt_not_le _ _ A).
      apply Qle_trans with (truediv 200 2); [apply Qle_bool_iff; reflexivity|].
      apply Hdiv. exact Hw. }
    rewrite (Hsat w1 H1), (Hsat w2 H2). reflexivity.
  - intros Hl H2. cbn [Z.eqb].
    replace (w2 =? 0)%Z with false by (symmetry; apply Z.eqb_neq; lia).
    assert (Hq : (0 <= truediv w2 2)%Q) by (apply truediv_nonneg; lia).
    destruct (py_min_cases 100 (truediv w2 2)) as [[A ->]|[A ->]];
      match goal with |- context [py_max 0 ?x] =>
        destruct (py_max_cases 0 x) as [[C ->]|[C ->]] end; lra.
Qed.

(** X12: the default thresholds on computed metrics.  For the metrics of
    any text, [meets_minimum_quality] with its defaults holds exactly
    when the text has meaningful content and a language confidence of
    at least 0.7: the word and readability thresholds 50 and 20 are
    implied by meaningful content.  Likewise a record carrying such
    metrics meets the default quality thresholds exactly when it has
    meaningful content, a confidence of at least 60 and no error. *)
Theorem default_thresholds_redundant (text : pystr) (r : DocumentExtractionResult.t) :
  let m := HTMLCleaner._calculate_quality_metrics text in
  TextQualityChecker.meets_minimum_quality m 50 20 (7 # 10)
  = has_meaningful_content m && Qle_bool (7 # 10) (language_confidence m)
  /\ (DocumentExtractionResult.quality_metrics r = m ->
      DocumentExtractionResult.meets_quality_thresholds r 50 20 60
      = has_meaningful_content m
        && Qle_bool 60 (DocumentExtractionResult.confidence_score r)
        && DocumentExtractionResult.extraction_success r).
Proof.
  cbv zeta.
  pose proof (meaningful_content_computed text) as Hm. cbv zeta in Hm.
  set (m := HTMLCleaner._calculate_quality_metrics text) in *.
  assert (G : has_meaningful_content m = true ->
              (50 <=? total_words m)%Z = true
              /\ Qle_bool 20 (readability_score m) = true).
  { rewrite Hm, !andb_true_iff, Z.ltb_lt, !Qltb_true. intros [[Hw _] Hr].
    split; [apply Z.leb_le; lia | apply Qle_bool_iff; lra]. }
  split.
  - unfold TextQualityChecker.meets_minimum_quality.
    destruct (has_meaningful_content m) eqn:E.
    + destruct (G eq_refl) as [-> ->]. rewrite andb_true_r. reflexivity.
    + rewrite andb_false_r. reflexivity.
  - intro Hr. unfold DocumentExtractionResult.meets_quality_thresholds,
      DocumentExtractionResult.extraction_success. rewrite Hr.
    destruct (has_meaningful_content m) eqn:E.
    + destruct (G eq_refl) as [-> ->]. rewrite andb_true_r. reflexivity.
    + rewrite andb_false_r. reflexivity.
Qed.

End MetricsMore.

(* ================================================================== *)
(** * The orchestrator: type detection, identifiers, HTML records      *)
(* ================================================================== *)

Lemma str_eqb_eq (a b : pystr) : Str.eqb a b = true <-> a = b.
Proof.
  unfold Str.eqb. destruct (list_eq_dec N.eq_dec a b); split; congruence.
Qed.

Section PipelineMore.
Context `{Unicode}.
Variable sha256_hexdigest : bytes -> pystr.

Import DocumentExtractionResult.

Lemma detect_document_type_range (content : content_t) (filename : option pystr) :
  TextExtractionPipeline._detect_document_type content filename = py "pdf"
  \/ TextExtractionPipeline._detect_document_type content filename = py "html".
Proof.
  unfold TextExtractionPipeline._detect_document_type.
  destruct filename as [f|].
  - destruct (nonempty f).
    + destruct (Str.endswith (lower f) (py ".pdf")); [left; reflexivity|].
      destruct (Str.endswith (lower f) (py ".html") || Str.endswith (lower f) (py ".htm"));
        [right; reflexivity|].
      destruct content as [s|b].
      * destruct (TextExtractionPipeline.sniff_html s); right; reflexivity.
      * destruct (Str.bytes_startswith b (pyb "%PDF-")); [left; reflexivity|].
        destruct (utf8_decode b) as [t|e]; [|right; reflexivity].
        destruct (TextExtractionPipeline.sniff_html t); right; reflexivity.
    + destruct content as [s|b].
      * destruct (TextExtractionPipeline.sniff_html s); right; reflexivity.
      * destruct (Str.bytes_startswith b (pyb "%PDF-")); [left; reflexivity|].
        destruct (utf8_decode b) as [t|e]; [|right; reflexivity].
        destruct (TextExtractionPipeline.sniff_html t); right; reflexivity.
  - destruct content as [s|b].
    + destruct (TextExtractionPipeline.sniff_html s); right; reflexivity.
    + destruct (Str.bytes_startswith b (pyb "%PDF-")); [left; reflexivity|].
      destruct (utf8_decode b) as [t|e]; [|right; reflexivity].
      destruct (TextExtractionPipeline.sniff_html t); right; reflexivity.
Qed.

(** X13: [_detect_document_type] answers [pdf] or [html] and nothing
    else.  The extension of a file name decides before the content is
    looked at: a name ending in [.pdf] gives [pdf], and a name ending
    in [.html] or [.htm] gives [html] even when the content starts with
    the PDF header.  Without a file name, text is [html] whatever it
    holds and bytes are [pdf] exactly when they start with [%PDF-]. *)
Theorem detect_document_type_rules (content : content_t) (f : pystr)
        (s : pystr) (b : bytes) :
  (TextExtractionPipeline._detect_document_type content (Some f) = py "pdf"
   \/ TextExtractionPipeline._detect_document_type content (Some f) = py "html")
  /\ (nonempty f = true -> Str.endswith (lower f) (py ".pdf") = true ->
      TextExtractionPipeline._detect_document_type content (Some f) = py "pdf")
  /\ (nonempty f = true -> Str.endswith (lower f) (py ".pdf") = false ->
      Str.endswith (lower f) (py ".html") || Str.endswith (lower f) (py ".htm") = true ->
      TextExtractionPipeline._detect_document_type content (Some f) = py "html")
  /\ TextExtractionPipeline._detect_document_type (CStr s) None = py "html"
  /\ TextExtractionPipeline._detect_document_type (CBytes b) None
     = (if Str.bytes_startswith b (pyb "%PDF-") then py "pdf" else py "html").
Proof.
  split; [apply detect_document_type_range|].
  unfold TextExtractionPipeline._detect_document_type.
  split; [intros -> ->; reflexivity|].
  split; [intros -> -> ->; reflexivity|].
  split.
  - destruct (TextExtractionPipeline.sniff_html s); reflexivity.
  - destruct (Str.bytes_startswith b (pyb "%PDF-")); [reflexivity|].
    destruct (utf8_decode b) as [t|e]; [|reflexivity].
    destruct (TextExtractionPipeline.sniff_html t); reflexivity.
Qed.

Lemma try_body_raise_supported env content source_name url id dt filename e :
  Str.eqb dt (py "html") = true \/ Str.eqb dt (py "pdf") = true ->
  TextExtractionPipeline.try_body env content source_name url id dt filename = Raise e ->
  exists r0, save_result env r0 = Raise e.
Proof.
  unfold TextExtractionPipeline.try_body. intros Hdt.
  destruct (Str.eqb dt (py "html")); [|destruct (Str.eqb dt (py "pdf"))];
    cbn [bind];
    try (match goal with |- context [save_result env ?x] =>
           destruct (save_result env x) as [u|e'] eqn:Es end; cbn [bind];
         [discriminate | intro E; injection E as <-; eexists; exact Es]).
  destruct Hdt; discriminate.
Qed.

(** X14: when the document type is left to detection ([None] or the
    empty string), [process_document] never meets an unsupported type:
    the type of the record is [html] or [pdf], and the only exception
    the dispatch can raise, hence the only error the orchestrator
    itself records, is a failure to save the result. *)
Theorem detected_type_is_supported (env : PipelineEnv) (content : content_t)
        (source_name url : pystr) (document_type filename : option pystr) (h : pystr) :
  document_type = None \/ document_type = Some [] ->
  TextExtractionPipeline._generate_content_hash sha256_hexdigest content = Ok h ->
  let id := source_name ++ py "_" ++ firstn 12 h in
  let dt := TextExtractionPipeline._detect_document_type content filename in
  exists r,
    TextExtractionPipeline.process_document sha256_hexdigest env content
      source_name url document_type filename = Ok r
    /\ (DocumentExtractionResult.document_type r = py "html"
        \/ DocumentExtractionResult.document_type r = py "pdf")
    /\ (forall e,
           TextExtractionPipeline.try_body env content source_name url id dt filename
           = Raise e ->
           (exists r0, save_result env r0 = Raise e)
           /\ errors r = Errors_list [py "Document processing failed: " ++ e]).
Proof.
  intros Hnone Hh. cbv zeta.
  assert (Hr : TextExtractionPipeline.resolve_document_type document_type content filename
               = TextExtractionPipeline._detect_document_type content filename)
    by (destruct Hnone as [-> | ->]; reflexivity).
  unfold TextExtractionPipeline.process_document. rewrite Hh. cbn [bind]. rewrite Hr.
  set (dt := TextExtractionPipeline._detect_document_type content filename).
  assert (Hdt : Str.eqb dt (py "html") = true \/ Str.eqb dt (py "pdf") = true).
  { destruct (detect_document_type_range content filename) as [E|E]; fold dt in E;
      rewrite E; [right | left]; reflexivity. }
  eexists. split; [reflexivity|]. split.
  - destruct (TextExtractionPipeline.try_body env content source_name url
                (source_name ++ py "_" ++ firstn 12 h) dt filename) as [r|e] eqn:E;
      cbn [try_except].
    + unfold TextExtractionPipeline.try_body in E.
      destruct (Str.eqb dt (py "html")); [|destruct (Str.eqb dt (py "pdf"))];
        cbn [bind] in E;
        try (match type of E with context [save_result env ?x] =>
               destruct (save_result env x) end; cbn [bind] in E;
             [injection E as <- | discriminate]).
      * left. cbn [set_processing_time DocumentExtractionResult.document_type].
        unfold TextExtractionPipeline._process_html_document.
        destruct (negb _); reflexivity.
      * right. reflexivity.
      * destruct Hdt; discriminate.
    + cbn. unfold TextExtractionPipeline.or_unknown.
      destruct Hdt as [Hd|Hd]; apply str_eqb_eq in Hd; rewrite Hd;
        [left | right]; reflexivity.
  - intros e E. split; [exact (try_body_raise_supported _ _ _ _ _ _ _ _ Hdt E)|].
    rewrite E. reflexivity.
Qed.

(** X15: a text and the bytes of its UTF-8 encoding get the same
    [document_id] under the same [source_name], in any two calls. *)
Theorem document_id_of_text_and_bytes
        (env1 env2 : PipelineEnv) (s : pystr) (b : bytes) (source_name : pystr)
        (url1 url2 : pystr) (dt1 dt2 filename1 filename2 : option pystr) :
  Str.encode_utf8 s = Ok b ->
  exists r1 r2,
    TextExtractionPipeline.process_document sha256_hexdigest env1 (CStr s)
      source_name url1 dt1 filename1 = Ok r1
    /\ TextExtractionPipeline.process_document sha256_hexdigest env2 (CBytes b)
         source_name url2 dt2 filename2 = Ok r2
    /\ document_id r1 = document_id r2.
Proof.
  intro He.
  assert (H1 : TextExtractionPipeline._generate_content_hash sha256_hexdigest (CStr s)
               = Ok (sha256_hexdigest b))
    by (unfold TextExtractionPipeline._generate_content_hash; rewrite He; reflexivity).
  assert (H2 : TextExtractionPipeline._generate_content_hash sha256_hexdigest (CBytes b)
               = Ok (sha256_hexdigest b)) by reflexivity.
  destruct (process_document_id sha256_hexdigest env1 (CStr s) source_name url1 dt1
              filename1 _ H1) as (r1 & E1 & I1).
  destruct (process_document_id sha256_hexdigest env2 (CBytes b) source_name url2 dt2
              filename2 _ H2) as (r2 & E2 & I2).
  exists r1, r2. split; [exact E1|]. split; [exact E2|]. congruence.
Qed.

(** X16: the record of an HTML document.  Its confidence lies in
    [0, 100].  When its method is [html_cleaning], the page was parsed
    and the result saved: the record has no error, its text is the
    cleaned main content, its title the page's title, and its
    confidence the quality score of the metrics of its text.  When the
    page parses and the result is saved the method is
    [html_cleaning]. *)
Theorem html_record (env : PipelineEnv) (content : content_t)
        (source_name url : pystr) (document_type filename : option pystr) (h : pystr) :
  TextExtractionPipeline._generate_content_hash sha256_hexdigest content = Ok h ->
  TextExtractionPipeline.resolve_document_type document_type content filename
  = py "html" ->
  exists r,
    TextExtractionPipeline.process_document sha256_hexdigest env content
      source_name url document_type filename = Ok r
    /\ (0 <= confidence_score r)%Q /\ (confidence_score r <= 100)%Q
    /\ (extraction_method r = py "html_cleaning" ->
        exists soup,
          bs4_parse env content url = Ok soup
          /\ errors r = Errors_list []
          /\ extracted_text r = HTMLCleaner._clean_text (soup_main_content soup)
          /\ title r = soup_title soup
          /\ quality_metrics r
             = HTMLCleaner._calculate_quality_metrics (extracted_text r)
          /\ confidence_score r
             = TextQualityChecker.get_quality_score (quality_metrics r))
    /\ (forall soup,
           bs4_parse env content url = Ok soup ->
           (forall r0, save_result env r0 = Ok tt) ->
           extraction_method r = py "html_cleaning").
Proof.
  intros Hh Hdt. unfold TextExtractionPipeline.process_document.
  rewrite Hh. cbn [bind]. rewrite Hdt.
  eexists. split; [reflexivity|].
  unfold TextExtractionPipeline.try_body.
  change (Str.eqb (py "html") (py "html")) with true. cbn [bind].
  unfold TextExtractionPipeline._process_html_document, HTMLCleaner.clean_html.
  destruct (bs4_parse env content url) as [soup|e] eqn:Ep;
    cbn [bind try_except cr_extraction_success negb].
  - match goal with |- context [save_result env ?x] =>
      destruct (save_result env x) as [u|e'] eqn:Es end; cbn [bind try_except].
    + cbn.
      set (t := HTMLCleaner._clean_text (soup_main_content soup)).
      destruct (metrics_language_bounds t) as (Hw & Hl0 & Hl1).
      destruct (get_quality_score_range
                  (HTMLCleaner._calculate_quality_metrics t) Hw Hl0 Hl1) as [G0 G1].
      split; [exact G0|]. split; [exact G1|]. split.
      * intros _. exists soup. repeat split; reflexivity.
      * intros soup' _ _. reflexivity.
    + cbn. split; [apply Qle_refl|]. split; [discriminate|]. split.
      * discriminate.
      * intros soup' _ Hs. rewrite Hs in Es. discriminate.
  - match goal with |- context [save_result env ?x] =>
      destruct (save_result env x) as [u|e'] eqn:Es end; cbn [bind try_except].
    + cbn. split; [apply Qle_refl|]. split; [discriminate|]. split.
      * discriminate.
      * intros soup' Hx. discriminate.
    + cbn. split; [apply Qle_refl|]. split; [discriminate|]. split.
      * discriminate.
      * intros soup' Hx. discriminate.
Qed.

End PipelineMore.

(* ================================================================== *)
(** * Batches                                                          *)
(* ================================================================== *)

Lemma str_eqb_refl (a : pystr) : Str.eqb a a = true.
Proof. apply str_eqb_eq. reflexivity. Qed.

Lemma str_eqb_neq (a b : pystr) : Str.eqb a b = false <-> a <> b.
Proof.
  unfold Str.eqb. destruct (list_eq_dec N.eq_dec a b); split; congruence.
Qed.

Lemma adict_get_set {V : Type} (d : list (pystr * V)) (k k' : pystr) (v : V) :
  TextExtractionPipeline.adict_get (TextExtractionPipeline.adict_set d k v) k'
  = if Str.eqb k k' then Some v else TextExtractionPipeline.adict_get d k'.
Proof.
  induction d as [|[k0 v0] d IH]; cbn [TextExtractionPipeline.adict_set
                                        TextExtractionPipeline.adict_get].
  - reflexivity.
  - destruct (Str.eqb k0 k) eqn:E0; cbn [TextExtractionPipeline.adict_get].
    + apply str_eqb_eq in E0. subst k0. destruct (Str.eqb k k'); reflexivity.
    + rewrite IH. destruct (Str.eqb k0 k') eqn:E1; [|reflexivity].
      apply str_eqb_eq in E1. subst k'.
      apply str_eqb_neq in E0.
      assert (E2 : Str.eqb k k0 = false) by (apply str_eqb_neq; congruence).
      rewrite E2. reflexivity.
Qed.

Lemma adict_sum_set {V : Type} (f : V -> Z) (d : list (pystr * V)) (k : pystr) (v : V) :
  adict_sum f (TextExtractionPipeline.adict_set d k v)
  = (adict_sum f d + f v
     - match TextExtractionPipeline.adict_get d k with
       | Some v0 => f v0
       | None => 0
       end)%Z.
Proof.
  induction d as [|[k0 v0] d IH]; cbn [TextExtractionPipeline.adict_set
                                        TextExtractionPipeline.adict_get].
  - unfold adict_sum. cbn. lia.
  - destruct (Str.eqb k0 k); unfold adict_sum in *; cbn [fold_right snd] in *; lia.
Qed.

Lemma b2z_cases (b : bool) : (if b then 1 else 0)%Z = 1%Z \/ (if b then 1 else 0)%Z = 0%Z.
Proof. destruct b; auto. Qed.

Lemma filter_none {A : Type} (p : A -> bool) (l : list A) :
  existsb p l = false -> filter p l = [].
Proof.
  induction l as [|a l IH]; cbn; [reflexivity|].
  destruct (p a); cbn; [discriminate | exact IH].
Qed.

Lemma filter_length_app {A : Type} (p : A -> bool) (l : list A) (a : A) :
  Z.of_nat (length (filter p (l ++ [a])))
  = (Z.of_nat (length (filter p l)) + if p a then 1 else 0)%Z.
Proof.
  rewrite filter_app, length_app. cbn [filter].
  destruct (p a); cbn [length]; lia.
Qed.

Lemma filter_length_mono {A : Type} (p q : A -> bool) (l : list A) :
  (forall a, p a = true -> q a = true) ->
  (length (filter p l) <= length (filter q l))%nat.
Proof.
  intro Hpq. induction l as [|a l IH]; cbn [filter]; [lia|].
  destruct (p a) eqn:Ep.
  - rewrite (Hpq a Ep). cbn [length]. lia.
  - destruct (q a); cbn [length]; lia.
Qed.

Section Batch.
Context `{Unicode}.
Variable sha256_hexdigest : bytes -> pystr.

Import DocumentExtractionResult.

Let source_counts (s : pystr) (results : list DocumentExtractionResult.t) :=
  {| TextExtractionPipeline.sc_total := count_results (from_source s) results;
     TextExtractionPipeline.sc_successful :=
       count_results (fun r => from_source s r && extraction_success r) results |}.

Lemma summary_step_spec bs bt er (r : DocumentExtractionResult.t) :
  exists bs' bt',
    TextExtractionPipeline.summary_step (bs, bt, er) r = (bs', bt', er ++ error_items r)
    /\ (forall s,
           TextExtractionPipeline.adict_get bs' s
           = if from_source s r
             then Some {| TextExtractionPipeline.sc_total :=
                            match TextExtractionPipeline.adict_get bs s with
                            | Some c => TextExtractionPipeline.sc_total c
                            | None => 0
                            end + 1;
                          TextExtractionPipeline.sc_successful :=
                            match TextExtractionPipeline.adict_get bs s with
                            | Some c => TextExtractionPipeline.sc_successful c
                            | None => 0
                            end + if extraction_success r then 1 else 0 |}%Z
             else TextExtractionPipeline.adict_get bs s)
    /\ adict_sum TextExtractionPipeline.sc_total bs'
       = (adict_sum TextExtractionPipeline.sc_total bs + 1)%Z
    /\ adict_sum TextExtractionPipeline.sc_successful bs'
       = (adict_sum TextExtractionPipeline.sc_successful bs
          + if extraction_success r then 1 else 0)%Z
    /\ (forall d,
           TextExtractionPipeline.adict_get bt' d
           = if of_type d r
             then Some (match TextExtractionPipeline.adict_get bt d with
                        | Some n => n
                        | None => 0
                        end + 1)%Z
             else TextExtractionPipeline.adict_get bt d)
    /\ adict_sum (fun n => n) bt' = (adict_sum (fun n => n) bt + 1)%Z.
Proof.
  unfold TextExtractionPipeline.summary_step.
  set (src := source_name r). set (dty := document_type r).
  eexists. eexists. split.
  { f_equal. unfold error_items. destruct (errors r); reflexivity. }
  split; [|split; [|split; [|split]]].
  - intro s. unfold from_source. fold src.
    destruct (TextExtractionPipeline.adict_get bs src) as [c|] eqn:Eg;
      destruct (extraction_success r); cbv beta iota;
      repeat (rewrite ?adict_get_set, ?str_eqb_refl, ?Eg; cbv beta iota);
      (destruct (Str.eqb src s) eqn:Es; [|reflexivity]);
      apply str_eqb_eq in Es; rewrite <- Es, Eg;
      cbn [TextExtractionPipeline.sc_total TextExtractionPipeline.sc_successful];
      rewrite ?Z.add_0_r; reflexivity.
  - destruct (TextExtractionPipeline.adict_get bs src) as [c|] eqn:Eg;
      destruct (extraction_success r); cbv beta iota;
      repeat (rewrite ?adict_get_set, ?adict_sum_set, ?str_eqb_refl, ?Eg;
              cbv beta iota);
      cbn [TextExtractionPipeline.sc_total]; lia.
  - destruct (TextExtractionPipeline.adict_get bs src) as [c|] eqn:Eg;
      destruct (extraction_success r); cbv beta iota;
      repeat (rewrite ?adict_get_set, ?adict_sum_set, ?str_eqb_refl, ?Eg;
              cbv beta iota);
      cbn [TextExtractionPipeline.sc_successful]; lia.
  - intro d. unfold of_type. fold dty.
    destruct (TextExtractionPipeline.adict_get bt dty) as [n|] eqn:Eg;
      cbv beta iota;
      repeat (rewrite ?adict_get_set, ?str_eqb_refl, ?Eg; cbv beta iota);
      (destruct (Str.eqb dty d) eqn:Es; [|reflexivity]);
      apply str_eqb_eq in Es; rewrite <- Es, Eg; reflexivity.
  - destruct (TextExtractionPipeline.adict_get bt dty) as [n|] eqn:Eg;
      cbv beta iota;
      repeat (rewrite ?adict_get_set, ?adict_sum_set, ?str_eqb_refl, ?Eg;
              cbv beta iota);
      lia.
Qed.

(** The state of the loop of [_save_batch_summary] after the records
    [results]. *)
Lemma summary_fold_spec (results : list DocumentExtractionResult.t) :
  exists bs bt,
    fold_left TextExtractionPipeline.summary_step results ([], [], [])
    = (bs, bt, concat (map error_items results))
    /\ (forall s,
           TextExtractionPipeline.adict_get bs s
           = if existsb (from_source s) results
             then Some (source_counts s results) else None)
    /\ adict_sum TextExtractionPipeline.sc_total bs = Z.of_nat (length results)
    /\ adict_sum TextExtractionPipeline.sc_successful bs
       = count_results extraction_success results
    /\ (forall d,
           TextExtractionPipeline.adict_get bt d
           = if existsb (of_type d) results
             then Some (count_results (of_type d) results) else None)
    /\ adict_sum (fun n => n) bt = Z.of_nat (length results).
Proof.
  induction results as [|r results IH] using rev_ind.
  - exists [], []. cbn. repeat split; reflexivity.
  - destruct IH as (bs & bt & E & Hs & Ht & Hu & Hd & Hn).
    rewrite fold_left_app. cbn [fold_left]. rewrite E.
    destruct (summary_step_spec bs bt (concat (map error_items results)) r)
      as (bs' & bt' & E' & Hs' & Ht' & Hu' & Hd' & Hn').
    exists bs', bt'. split.
    { rewrite E'. f_equal. rewrite map_app, concat_app. cbn. rewrite app_nil_r.
      reflexivity. }
    split; [|split; [|split; [|split]]].
    + intro s. rewrite Hs', Hs, existsb_app. cbn [existsb]. rewrite orb_false_r.
      unfold source_counts, count_results. rewrite !filter_length_app.
      destruct (from_source s r) eqn:Er.
      * rewrite orb_true_r. cbn [andb].
        destruct (existsb (from_source s) results) eqn:Ex.
        -- reflexivity.
        -- rewrite (filter_none _ _ Ex).
           assert (Ex2 : existsb (fun r0 => from_source s r0 && extraction_success r0)
                           results = false).
           { apply not_true_is_false. intro Hx. apply existsb_exists in Hx.
             destruct Hx as (x & Hin & Hx). apply andb_true_iff in Hx.
             assert (existsb (from_source s) results = true)
               by (apply existsb_exists; exists x; tauto).
             congruence. }
           rewrite (filter_none _ _ Ex2). reflexivity.
      * rewrite orb_false_r. cbn [andb]. rewrite !Z.add_0_r. reflexivity.
    + rewrite Ht', Ht, length_app. cbn [length]. lia.
    + rewrite Hu', Hu. unfold count_results. rewrite filter_length_app. reflexivity.
    + intro d. rewrite Hd', Hd, existsb_app. cbn [existsb]. rewrite orb_false_r.
      unfold count_results. rewrite filter_length_app.
      destruct (of_type d r) eqn:Er.
      * rewrite orb_true_r.
        destruct (existsb (of_type d) results) eqn:Ex; [reflexivity|].
        rewrite (filter_none _ _ Ex). reflexivity.
      * rewrite orb_false_r, Z.add_0_r. reflexivity.
    + rewrite Hn', Hn, length_app. cbn [length]. lia.
Qed.

(** X17: the groups of the batch summary.  [by_source] has a key for
    exactly the sources of the records; under a source, [total] is the
    number of its records and [successful] the number of its records
    without error.  [by_document_type] has a key for exactly the types
    of the records, and the count under a type is the number of records
    of that type. *)
Theorem batch_summary_groups (now : pystr)
        (results : list DocumentExtractionResult.t) (key : pystr) :
  let summary := TextExtractionPipeline.batch_summary now results in
  TextExtractionPipeline.adict_get (TextExtractionPipeline.by_source summary) key
  = (if existsb (from_source key) results
     then Some {| TextExtractionPipeline.sc_total :=
                    count_results (from_source key) results;
                  TextExtractionPipeline.sc_successful :=
                    count_results
                      (fun r => from_source key r && extraction_success r) results |}
     else None)
  /\ TextExtractionPipeline.adict_get
       (TextExtractionPipeline.by_document_type summary) key
     = (if existsb (of_type key) results
        then Some (count_results (of_type key) results)
        else None).
Proof.
  cbv zeta. unfold TextExtractionPipeline.batch_summary.
  destruct (summary_fold_spec results) as (bs & bt & E & Hs & _ & _ & Hd & _).
  rewrite E. cbn [TextExtractionPipeline.by_source
                    TextExtractionPipeline.by_document_type].
  split; [apply Hs | apply Hd].
Qed.

(** X18: the totals of the batch summary.  The [total] counts of
    [by_source] add up to [total_documents], as do the counts of
    [by_document_type]; the [successful] counts add up to
    [successful_extractions]; [quality_passed] is at most
    [successful_extractions], which is at most [total_documents]; the
    [errors] of the summary are the errors of the records, in the order
    of the records, and there is none exactly when every extraction
    succeeded. *)
Theorem batch_summary_totals (now : pystr)
        (results : list DocumentExtractionResult.t) :
  let summary := TextExtractionPipeline.batch_summary now results in
  adict_sum TextExtractionPipeline.sc_total (TextExtractionPipeline.by_source summary)
  = TextExtractionPipeline.total_documents summary
  /\ adict_sum TextExtractionPipeline.sc_successful
       (TextExtractionPipeline.by_source summary)
     = TextExtractionPipeline.successful_extractions summary
  /\ adict_sum (fun n => n) (TextExtractionPipeline.by_document_type summary)
     = TextExtractionPipeline.total_documents summary
  /\ (0 <= TextExtractionPipeline.quality_passed summary
      <= TextExtractionPipeline.successful_extractions summary)%Z
  /\ (TextExtractionPipeline.successful_extractions summary
      <= TextExtractionPipeline.total_documents summary)%Z
  /\ TextExtractionPipeline.summary_errors summary = concat (map error_items results)
  /\ (TextExtractionPipeline.summary_errors summary = []
      <-> TextExtractionPipeline.successful_extractions summary
          = TextExtractionPipeline.total_documents summary).
Proof.
  cbv zeta. unfold TextExtractionPipeline.batch_summary.
  destruct (summary_fold_spec results) as (bs & bt & E & _ & Ht & Hu & _ & Hn).
  rewrite E.
  cbn [TextExtractionPipeline.by_source TextExtractionPipeline.by_document_type
       TextExtractionPipeline.total_documents
       TextExtractionPipeline.successful_extractions
       TextExtractionPipeline.quality_passed TextExtractionPipeline.summary_errors].
  split; [exact Ht|]. split; [exact Hu|]. split; [exact Hn|].
  split.
  { split; [lia|]. apply inj_le. apply filter_length_mono.
    intros r Hr. unfold TextExtractionPipeline.passes_quality,
                 meets_quality_thresholds in Hr.
    apply andb_true_iff in Hr. exact (proj2 Hr). }
  split.
  { apply inj_le. apply List.filter_length_le. }
  split; [reflexivity|].
  clear. induction results as [|r results IH]; cbn [map concat filter length].
  - split; reflexivity.
  - assert (Hr : error_items r = [] <-> extraction_success r = true).
    { unfold error_items, extraction_success, len_errors.
      destruct (errors r) as [l|s]; [destruct l | destruct s];
        unfold Str.len; cbn [map length];
        split; intro Hx; try reflexivity; try discriminate;
        apply Z.eqb_eq in Hx; lia. }
    pose proof (List.filter_length_le extraction_success results) as Hle.
    destruct (extraction_success r) eqn:Es.
    + rewrite (proj2 Hr eq_refl). cbn [app length]. rewrite IH. lia.
    + split.
      * intro Hx. apply app_eq_nil in Hx. destruct Hx as [Hx _].
        apply Hr in Hx. discriminate.
      * intro Hx. cbn [length] in Hx. lia.
Qed.

Lemma try_body_source_name env content source_name url id dt filename r :
  TextExtractionPipeline.try_body env content source_name url id dt filename = Ok r ->
  DocumentExtractionResult.source_name r = source_name.
Proof.
  unfold TextExtractionPipeline.try_body.
  destruct (Str.eqb dt (py "html")); [|destruct (Str.eqb dt (py "pdf"))];
    cbn [bind]; try discriminate;
    match goal with |- context [save_result env ?x] =>
      destruct (save_result env x) end; cbn [bind]; try discriminate;
    intro E; injection E as <-.
  - unfold TextExtractionPipeline._process_html_document.
    destruct (negb _); reflexivity.
  - reflexivity.
Qed.

Lemma process_document_raises env content source_name url dt filename e :
  TextExtractionPipeline._generate_content_hash sha256_hexdigest content = Raise e ->
  TextExtractionPipeline.process_document sha256_hexdigest env content
    source_name url dt filename = Raise e.
Proof.
  intro Hh. unfold TextExtractionPipeline.process_document. rewrite Hh. reflexivity.
Qed.

Let process (env : PipelineEnv) (doc : TextExtractionPipeline.BatchDocument) :=
  TextExtractionPipeline.process_document sha256_hexdigest env
    (TextExtractionPipeline.doc_content doc)
    (TextExtractionPipeline.doc_source_name doc)
    (TextExtractionPipeline.doc_url doc)
    (TextExtractionPipeline.doc_document_type doc)
    (TextExtractionPipeline.doc_filename doc).

Lemma process_all_spec envs (documents : list TextExtractionPipeline.BatchDocument) :
  forall i results,
    TextExtractionPipeline.process_all sha256_hexdigest envs i documents = Ok results ->
    length results = length documents
    /\ forall k doc,
        nth_error documents k = Some doc ->
        exists r, nth_error results k = Some r
                  /\ process (envs (i + k)%nat) doc = Ok r.
Proof.
  induction documents as [|d documents IH]; intros i results E;
    cbn [TextExtractionPipeline.process_all] in E.
  - injection E as <-. split; [reflexivity|]. intros [|k] doc; discriminate.
  - fold (process (envs i) d) in E.
    destruct (process (envs i) d) as [r|e] eqn:Er; cbn [bind] in E; [|discriminate].
    destruct (TextExtractionPipeline.process_all sha256_hexdigest envs (S i) documents)
      as [rs|e] eqn:Ers; cbn [bind] in E; [|discriminate].
    injection E as <-. destruct (IH _ _ Ers) as [Hl Hk].
    split; [cbn [length]; congruence|].
    intros [|k] doc Hd; cbn [nth_error] in *.
    + injection Hd as <-. exists r. rewrite Nat.add_0_r. split; [reflexivity | exact Er].
    + destruct (Hk k doc Hd) as (r' & Hn & Hp). exists r'. split; [exact Hn|].
      rewrite <- plus_n_Sm. exact Hp.
Qed.

Lemma process_all_total envs (documents : list TextExtractionPipeline.BatchDocument) :
  (forall doc, In doc documents ->
     exists h, TextExtractionPipeline._generate_content_hash sha256_hexdigest
                 (TextExtractionPipeline.doc_content doc) = Ok h) ->
  forall i, exists results,
    TextExtractionPipeline.process_all sha256_hexdigest envs i documents = Ok results.
Proof.
  induction documents as [|d documents IH]; intros Hall i;
    cbn [TextExtractionPipeline.process_all].
  - exists []. reflexivity.
  - destruct (Hall d (or_introl eq_refl)) as [h Hh].
    destruct (process_document_id sha256_hexdigest (envs i)
                (TextExtractionPipeline.doc_content d)
                (TextExtractionPipeline.doc_source_name d)
                (TextExtractionPipeline.doc_url d)
                (TextExtractionPipeline.doc_document_type d)
                (TextExtractionPipeline.doc_filename d) h Hh) as (r & Er & _).
    rewrite Er. cbn [bind].
    destruct (IH (fun doc Hd => Hall doc (or_intror Hd)) (S i)) as [rs Ers].
    rewrite Ers. cbn [bind]. eexists. reflexivity.
Qed.

Lemma process_all_raises envs (documents : list TextExtractionPipeline.BatchDocument)
      doc e :
  In doc documents ->
  TextExtractionPipeline._generate_content_hash sha256_hexdigest
    (TextExtractionPipeline.doc_content doc) = Raise e ->
  forall i, exists e',
    TextExtractionPipeline.process_all sha256_hexdigest envs i documents = Raise e'.
Proof.
  induction documents as [|d documents IH]; intros Hin Hh i; [destruct Hin|].
  cbn [TextExtractionPipeline.process_all]. fold (process (envs i) d).
  destruct (process (envs i) d) as [r|e0] eqn:Er; cbn [bind]; [|eexists; reflexivity].
  destruct Hin as [-> | Hin].
  - unfold process in Er. rewrite (process_document_raises _ _ _ _ _ _ _ Hh) in Er.
    discriminate.
  - destruct (IH Hin Hh (S i)) as [e' Ee]. rewrite Ee. cbn [bind].
    eexists. reflexivity.
Qed.

(** X19: what a batch returns.  When [batch_process_documents] returns,
    it returns one record per document, in the order of the documents:
    the record at an index is the one [process_document] gives for the
    document at that index, and the summary of exactly these records
    was written. *)
Theorem batch_results_in_order (envs : nat -> PipelineEnv) (now : pystr)
        (write : TextExtractionPipeline.BatchSummary -> outcome unit)
        (documents : list TextExtractionPipeline.BatchDocument)
        (results : list DocumentExtractionResult.t) :
  TextExtractionPipeline.batch_process_documents sha256_hexdigest envs now write
    documents = Ok results ->
  length results = length documents
  /\ (forall k doc,
         nth_error documents k = Some doc ->
         exists r,
           nth_error results k = Some r
           /\ TextExtractionPipeline.process_document sha256_hexdigest (envs k)
                (TextExtractionPipeline.doc_content doc)
                (TextExtractionPipeline.doc_source_name doc)
                (TextExtractionPipeline.doc_url doc)
                (TextExtractionPipeline.doc_document_type doc)
                (TextExtractionPipeline.doc_filename doc) = Ok r
           /\ source_name r = TextExtractionPipeline.doc_source_name doc)
  /\ write (TextExtractionPipeline.batch_summary now results) = Ok tt.
Proof.
  unfold TextExtractionPipeline.batch_process_documents,
    TextExtractionPipeline._save_batch_summary.
  destruct (TextExtractionPipeline.process_all sha256_hexdigest envs 0 documents)
    as [rs|e] eqn:E; cbn [bind]; [|discriminate].
  destruct (write (TextExtractionPipeline.batch_summary now rs)) as [[]|e] eqn:Ew;
    cbn [bind]; [|discriminate].
  intro Hx. injection Hx as <-.
  destruct (process_all_spec envs documents 0 rs E) as [Hl Hk].
  split; [exact Hl|]. split; [|exact Ew].
  intros k doc Hd. destruct (Hk k doc Hd) as (r & Hn & Hp).
  exists r. split; [exact Hn|]. split; [exact Hp|].
  unfold process in Hp. cbn [Nat.add] in Hp.
  unfold TextExtractionPipeline.process_document in Hp.
  destruct (TextExtractionPipeline._generate_content_hash sha256_hexdigest
              (TextExtractionPipeline.doc_content doc)) as [h|e]; cbn [bind] in Hp;
    [|discriminate].
  injection Hp as <-.
  match goal with |- context [try_except ?b _] => destruct b as [r|e] eqn:Eb end;
    cbn [try_except].
  - revert Eb. apply try_body_source_name.
  - reflexivity.
Qed.

(** X20: a batch is all or nothing.  If the content of one document
    cannot be hashed, the batch raises and returns no record, whatever
    the other documents are.  If every content can be hashed, every
    document gets a record, and the batch returns the records unless
    writing the summary raises, in which case it raises the same
    exception. *)
Theorem batch_all_or_nothing (envs : nat -> PipelineEnv) (now : pystr)
        (write : TextExtractionPipeline.BatchSummary -> outcome unit)
        (documents : list TextExtractionPipeline.BatchDocument) :
  (forall doc e,
      In doc documents ->
      TextExtractionPipeline._generate_content_hash sha256_hexdigest
        (TextExtractionPipeline.doc_content doc) = Raise e ->
      exists e',
        TextExtractionPipeline.batch_process_documents sha256_hexdigest envs now write
          documents = Raise e')
  /\ ((forall doc, In doc documents ->
         exists h, TextExtractionPipeline._generate_content_hash sha256_hexdigest
                     (TextExtractionPipeline.doc_content doc) = Ok h) ->
      exists results,
        TextExtractionPipeline.process_all sha256_hexdigest envs 0 documents
        = Ok results
        /\ TextExtractionPipeline.batch_process_documents sha256_hexdigest envs now
             write documents
           = match write (TextExtractionPipeline.batch_summary now results) with
             | Ok _ => Ok results
             | Raise e => Raise e
             end).
Proof.
  unfold TextExtractionPipeline.batch_process_documents,
    TextExtractionPipeline._save_batch_summary.
  split.
  - intros doc e Hin Hh.
    destruct (process_all_raises envs documents doc e Hin Hh 0) as [e' E].
    rewrite E. exists e'. reflexivity.
  - intro Hall. destruct (process_all_total envs documents Hall 0) as [rs E].
    exists rs. split; [exact E|]. rewrite E. cbn [bind].
    destruct (write (TextExtractionPipeline.batch_summary now rs)); reflexivity.
Qed.

End Batch.

(* ================================================================== *)
(** * PDF metadata                                                     *)
(* ================================================================== *)

Section PdfMetadata.
Context `{Unicode}.
Variable env : PdfEnv.

(** X21: [_extract_metadata] returns the default metadata (no title, no
    dates, 0 pages, size 0) and logs one warning on every input.  The
    warning carries the exception of the parser when the parser raises,
    the one of the page count when counting the pages raises, and
    otherwise the [AttributeError] of [document.is_encrypted], after
    the information dictionary, the page count and the file size were
    read. *)
Theorem extract_metadata_always_default (content : content_t) :
  fst (PDFTextExtractor._extract_metadata env content) = PDFMetadata.default
  /\ exists e,
       snd (PDFTextExtractor._extract_metadata env content) = [Warning_metadata e]
       /\ (forall e', pdfminer_parse env content = Raise e' -> e = e')
       /\ (forall doc e',
              pdfminer_parse env content = Ok doc -> doc_page_count doc = Raise e' ->
              e = e')
       /\ (forall doc n,
              pdfminer_parse env content = Ok doc -> doc_page_count doc = Ok n ->
              e = py "'PDFDocument' object has no attribute 'is_encrypted'").
Proof.
  unfold PDFTextExtractor._extract_metadata.
  destruct (pdfminer_parse env content) as [doc|e0]; cbn [bind try_except fst snd].
  - destruct (doc_page_count doc) as [n|e1] eqn:En; cbn [bind try_except fst snd].
    + split; [reflexivity|]. eexists. split; [reflexivity|].
      split; [discriminate|]. split.
      * intros doc' e' Hd. injection Hd as <-. rewrite En. discriminate.
      * intros doc' n' _ _. reflexivity.
    + split; [reflexivity|]. eexists. split; [reflexivity|].
      split; [discriminate|]. split.
      * intros doc' e' Hd. injection Hd as <-. rewrite En. congruence.
      * intros doc' n' Hd. injection Hd as <-. rewrite En. discriminate.
  - split; [reflexivity|]. eexists. split; [reflexivity|].
    split; [congruence|]. split; discriminate.
Qed.

End PdfMetadata.

(* ================================================================== *)
(** * PDF documents in the orchestrator                                *)
(* ================================================================== *)

Section PdfRecord.
Context `{Unicode}.
Variable sha256_hexdigest : bytes -> pystr.

Import DocumentExtractionResult.

Lemma process_pdf_document_failed env content source_name url id filename :
  let r := TextExtractionPipeline._process_pdf_document env content source_name url
             id filename in
  document_type r = py "pdf"
  /\ extracted_text r = []
  /\ confidence_score r = 0%Q
  /\ extraction_method r = py "failed"
  /\ quality_metrics r = TextQualityMetrics_default
  /\ errors r
     = Errors_list [py "PDF extraction failed: " ++ utils_import_error (pdf_env env)].
Proof.
  cbv zeta. unfold TextExtractionPipeline._process_pdf_document.
  rewrite extract_from_pdf_unfold. cbv zeta. cbn [fst].
  repeat split; reflexivity.
Qed.

(** X22: the record of a PDF document.  Whatever the content and the
    libraries return, [process_document] gives a PDF document a record
    of type [pdf] without text, with confidence 0, that is no success
    and does not meet the quality thresholds.  When the result is saved
    its method is [failed], its metrics are the default ones, and its
    one error is the import error raised inside [extract_from_pdf]. *)
Theorem pdf_record_always_failed (env : PipelineEnv) (content : content_t)
        (source_name url : pystr) (document_type filename : option pystr) (h : pystr) :
  TextExtractionPipeline._generate_content_hash sha256_hexdigest content = Ok h ->
  TextExtractionPipeline.resolve_document_type document_type content filename
  = py "pdf" ->
  exists r,
    TextExtractionPipeline.process_document sha256_hexdigest env content
      source_name url document_type filename = Ok r
    /\ DocumentExtractionResult.document_type r = py "pdf"
    /\ extracted_text r = []
    /\ confidence_score r = 0%Q
    /\ extraction_success r = false
    /\ meets_quality_thresholds r 50 20 60 = false
    /\ ((forall r0, save_result env r0 = Ok tt) ->
        extraction_method r = py "failed"
        /\ quality_metrics r = TextQualityMetrics_default
        /\ errors r
           = Errors_list
               [py "PDF extraction failed: " ++ utils_import_error (pdf_env env)]).
Proof.
  intros Hh Hdt. unfold TextExtractionPipeline.process_document.
  rewrite Hh. cbn [bind]. rewrite Hdt.
  eexists. split; [reflexivity|].
  unfold TextExtractionPipeline.try_body.
  change (Str.eqb (py "pdf") (py "html")) with false.
  change (Str.eqb (py "pdf") (py "pdf")) with true. cbn [bind].
  destruct (process_pdf_document_failed env content source_name url
              (source_name ++ py "_" ++ firstn 12 h) filename)
    as (P1 & P2 & P3 & P4 & P5 & P6).
  match goal with |- context [save_result env ?x] =>
    destruct (save_result env x) as [u|e'] eqn:Es end; cbn [bind try_except].
  - cbn [set_processing_time DocumentExtractionResult.document_type extracted_text
         confidence_score extraction_method quality_metrics errors].
    unfold extraction_success, meets_quality_thresholds, len_errors.
    cbn [set_processing_time DocumentExtractionResult.document_type extracted_text
         confidence_score extraction_method quality_metrics errors].
    rewrite P1, P2, P3, P4, P5, P6.
    split; [reflexivity|]. split; [reflexivity|]. split; [reflexivity|].
    split; [reflexivity|]. split; [reflexivity|].
    intros _. repeat split; reflexivity.
  - split; [reflexivity|]. split; [reflexivity|]. split; [reflexivity|].
    split; [reflexivity|]. split; [reflexivity|].
    intro Hs. rewrite Hs in Es. discriminate.
Qed.

End PdfRecord.

(* ================================================================== *)
(** * Instances                                                        *)
(* ================================================================== *)

Lemma ocr_env_confidences (content : content_t) :
  forall (pages : list (outcome OcrPage)) (p : OcrPage),
    fitz_open ocr_env content = Ok pages ->
    In (Ok p) (firstn 50 pages) ->
    Forall confidence_ok (page_confidences p).
Proof.
  intros pages p E Hin. injection E as <-. cbn in Hin.
  destruct Hin as [Hp | [Hp | []]]; injection Hp as <-;
    repeat constructor; unfold confidence_ok; lia.
Qed.

Lemma no_alpha_text_goes_to_ocr_witness :
  PDFTextExtractor.ocr_attempted
    (snd (PDFTextExtractor.extract_from_pdf (H := ascii_db) ocr_env
            (PDFTextExtractor.default_extractor ocr_env) (CBytes []) None))
  = true.
Proof.
  refine (proj2 (no_alpha_text_goes_to_ocr (H := ascii_db) ocr_env (CBytes []) None
                   eq_refl) (py "12 34") eq_refl _ _).
  - vm_compute. reflexivity.
  - vm_compute. reflexivity.
Defined.

Lemma ocr_confidence_range_witness :
  (0 <= snd (fst (PDFTextExtractor._extract_text_ocr ocr_env (CBytes []))))%Q
  /\ (snd (fst (PDFTextExtractor._extract_text_ocr ocr_env (CBytes []))) <= 100)%Q.
Proof.
  destruct (ocr_confidence_range ocr_env (CBytes []) (ocr_env_confidences (CBytes [])))
    as (H0 & H1 & _).
  split; [exact H0 | exact H1].
Defined.

Lemma detected_type_is_supported_witness :
  exists r,
    TextExtractionPipeline.process_document (H := ascii_db) sample_digest html_env
      (CBytes (pyb "%PDF-1.4")) (py "aopa") (py "http://x/b") None None = Ok r
    /\ (DocumentExtractionResult.document_type r = py "html"
        \/ DocumentExtractionResult.document_type r = py "pdf").
Proof.
  destruct (detected_type_is_supported (H := ascii_db) sample_digest html_env
              (CBytes (pyb "%PDF-1.4")) (py "aopa") (py "http://x/b") None None
              (sample_digest (pyb "%PDF-1.4")) (or_introl eq_refl) eq_refl)
    as (r & E & Ht & _).
  exists r. split; [exact E | exact Ht].
Defined.

Lemma document_id_of_text_and_bytes_witness :
  exists r1 r2,
    TextExtractionPipeline.process_document (H := ascii_db) sample_digest html_env
      (CStr (py "<p>x</p>")) (py "faa") (py "http://x/a") None None = Ok r1
    /\ TextExtractionPipeline.process_document (H := ascii_db) sample_digest
         sample_pipeline_env (CBytes (pyb "<p>x</p>")) (py "faa") (py "http://y")
         (Some (py "pdf")) (Some (py "a.pdf")) = Ok r2
    /\ DocumentExtractionResult.document_id r1 = DocumentExtractionResult.document_id r2.
Proof.
  apply (document_id_of_text_and_bytes (H := ascii_db) sample_digest html_env
           sample_pipeline_env (py "<p>x</p>") (pyb "<p>x</p>") (py "faa")).
  vm_compute. reflexivity.
Defined.

Lemma html_record_witness :
  exists r,
    TextExtractionPipeline.process_document (H := ascii_db) sample_digest html_env
      (CStr (py "<html><p>x</p></html>")) (py "faa") (py "http://x/a") None None = Ok r
    /\ (0 <= DocumentExtractionResult.confidence_score r)%Q
    /\ (DocumentExtractionResult.confidence_score r <= 100)%Q
    /\ DocumentExtractionResult.extraction_method r = py "html_cleaning".
Proof.
  destruct (html_record (H := ascii_db) sample_digest html_env
              (CStr (py "<html><p>x</p></html>")) (py "faa") (py "http://x/a") None None
              (sample_digest (pyb "<html><p>x</p></html>")) eq_refl eq_refl)
    as (r & E & H0 & H1 & _ & Hm).
  exists r. split; [exact E|]. split; [exact H0|]. split; [exact H1|].
  apply (Hm _ eq_refl). intro r0. reflexivity.
Defined.

Lemma batch_results_in_order_witness :
  exists results,
    TextExtractionPipeline.batch_process_documents (H := ascii_db) sample_digest
      (fun _ => html_env) (py "2025-11-11T09:30:00.000000") (fun _ => Ok tt)
      sample_batch = Ok results
    /\ length results = 2%nat.
Proof.
  assert (E : exists results,
             TextExtractionPipeline.batch_process_documents (H := ascii_db)
               sample_digest (fun _ => html_env) (py "2025-11-11T09:30:00.000000")
               (fun _ => Ok tt) sample_batch = Ok results)
    by (vm_compute; eexists; reflexivity).
  destruct E as [results E]. exists results. split; [exact E|].
  exact (proj1 (batch_results_in_order (H := ascii_db) sample_digest
                  (fun _ => html_env) (py "2025-11-11T09:30:00.000000")
                  (fun _ => Ok tt) sample_batch results E)).
Defined.

(** X22, at a file sent as a PDF. *)
Lemma pdf_record_always_failed_witness :
  exists r,
    TextExtractionPipeline.process_document (H := ascii_db) sample_digest
      sample_pipeline_env (CBytes (pyb "%PDF-1.4")) (py "aopa") (py "http://x/b.pdf")
      (Some (py "pdf")) (Some (py "b.pdf")) = Ok r
    /\ DocumentExtractionResult.extraction_method r = py "failed"
    /\ DocumentExtractionResult.errors r
       = Errors_list [py "PDF extraction failed: No module named 'pipelines.utils'"].
Proof.
  destruct (pdf_record_always_failed (H := ascii_db) sample_digest sample_pipeline_env
              (CBytes (pyb "%PDF-1.4")) (py "aopa") (py "http://x/b.pdf")
              (Some (py "pdf")) (Some (py "b.pdf"))
              (sample_digest (pyb "%PDF-1.4")) eq_refl eq_refl)
    as (r & E & _ & _ & _ & _ & _ & Hs).
  exists r. split; [exact E|].
  destruct (Hs (fun _ => eq_refl)) as (Hm & _ & He).
  split; [exact Hm | exact He].
Defined.
